(** * Tour-diary bot: activity store, recording flow, daily scheduler

    A shallow embedding of [src/main.py] (class [TourDiaryBot]) and the
    properties of its activity store, its interactive recording flow, its
    daily prompt / fallback scheduler and its prompt-timeout sweep.

    Conventions of the embedding.
    - Python [str] values are [string]s (byte strings); the character
      functions ([title], [lower], [strip], [isalpha]) and the date
      parser are the Python ones on ASCII strings ([PyStr.is_ascii]),
      and are not meant for other strings: the properties that depend
      on letters, case or digits are stated for ASCII strings.
    - [datetime.now(IST)] and [time.time()] are inputs of the functions
      that read them.
    - The Mongo collection [users_collection] is the list of its documents
      in natural order; [find_one] returns the first match, [update_one]
      rewrites the first match.
    - A cursor ([users_collection.find]) yields the documents as they
      were when the loop started; the loops read these copies and write
      to the store.
    - The Bot API is a log of the calls made, each with its outcome; the
      outcome of the upcoming calls is part of the world ([network]), so
      that a call can raise as [telebot] does when Telegram refuses it.
    - Handlers registered for the next message of a user
      ([register_next_step_handler]) are entry points of their own. *)

From Stdlib Require Import ZArith Ascii String List Bool Lia.
From stdpp Require Import base option list gmap strings pretty.

Local Open Scope Z_scope.

(** ** Python string functions (ASCII) *)

Module PyStr.

Definition code (c : ascii) : Z := Z.of_N (N_of_ascii c).

(** The character classes of an ASCII character. *)
Definition isupper (c : ascii) : bool := (65 <=? code c) && (code c <=? 90).
Definition islower (c : ascii) : bool := (97 <=? code c) && (code c <=? 122).
Definition isalpha (c : ascii) : bool := isupper c || islower c.
Definition isdigit (c : ascii) : bool := (48 <=? code c) && (code c <=? 57).

(** [str.isspace] on one ASCII character: TAB..CR, FS..US and space. *)
Definition isspace (c : ascii) : bool :=
  ((9 <=? code c) && (code c <=? 13)) || ((28 <=? code c) && (code c <=? 32)).

Definition to_lower (c : ascii) : ascii :=
  if isupper c then ascii_of_N (N_of_ascii c + 32) else c.
Definition to_upper (c : ascii) : ascii :=
  if islower c then ascii_of_N (N_of_ascii c - 32) else c.

(** [s.lower()] of an ASCII string, which is also its [s.casefold()]. *)
Fixpoint lower (s : string) : string :=
  match s with
  | EmptyString => EmptyString
  | String c r => String (to_lower c) (lower r)
  end.

(** [s.title()] of an ASCII string: a letter that follows a letter is
    lowered, any other letter is raised; [prev] tells whether the
    previous character was a letter. *)
Fixpoint title_from (prev : bool) (s : string) : string :=
  match s with
  | EmptyString => EmptyString
  | String c r =>
      if isalpha c
      then String (if prev then to_lower c else to_upper c) (title_from true r)
      else String c (title_from false r)
  end.

Definition title (s : string) : string := title_from false s.

(** [s.lstrip()], [s.rstrip()], [s.strip()] *)
Fixpoint lstrip (s : string) : string :=
  match s with
  | EmptyString => EmptyString
  | String c r => if isspace c then lstrip r else s
  end.

Fixpoint rstrip (s : string) : string :=
  match s with
  | EmptyString => EmptyString
  | String c r =>
      match rstrip r with
      | EmptyString => if isspace c then EmptyString else String c EmptyString
      | r' => String c r'
      end
  end.

Definition strip (s : string) : string := rstrip (lstrip s).

(** [p in s] for strings, and [s.startswith(p)] *)
Fixpoint startswith (p s : string) : bool :=
  match p, s with
  | EmptyString, _ => true
  | String a p', String b s' => Ascii.eqb a b && startswith p' s'
  | String _ _, EmptyString => false
  end.

Fixpoint contains (p s : string) : bool :=
  startswith p s ||
  match s with
  | EmptyString => false
  | String _ r => contains p r
  end.

(** [sum(1 for char in s if char.isalpha())] *)
Fixpoint count_alpha (s : string) : Z :=
  match s with
  | EmptyString => 0
  | String c r => (if isalpha c then 1 else 0) + count_alpha r
  end.

(** Python truth value of a string. *)
Definition truthy (s : string) : bool := negb (String.eqb s "").

(** [s.split(sep)] for a one-character separator. *)
Fixpoint split (sep : ascii) (s : string) : list string :=
  match s with
  | EmptyString => [EmptyString]
  | String c r =>
      if Ascii.eqb c sep then EmptyString :: split sep r
      else match split sep r with
           | [] => [String c EmptyString]
           | w :: ws => String c w :: ws
           end
  end.

(** The strings on which the functions of this module are the methods
    of [str]: a Python string is a sequence of code points and its
    methods follow the Unicode database, which the functions above do
    for the ASCII characters only. *)
Definition is_ascii_char (c : ascii) : bool := code c <? 128.

Fixpoint is_ascii (s : string) : bool :=
  match s with
  | EmptyString => true
  | String c r => is_ascii_char c && is_ascii r
  end.

End PyStr.

(** ** Calendar dates: [datetime.strptime], [strftime], [weekday] *)

Module PyDate.
Import PyStr.

Record date := mkdate { year : Z; month : Z; day : Z }.

#[global] Instance date_eq_dec : EqDecision date.
Proof. solve_decision. Defined.

Definition is_leap (y : Z) : bool :=
  (y mod 4 =? 0) && (negb (y mod 100 =? 0) || (y mod 400 =? 0)).

(** [calendar.monthrange(y, m)[1]] *)
Definition days_in_month (y m : Z) : Z :=
  if m =? 2 then (if is_leap y then 29 else 28)
  else if (m =? 4) || (m =? 6) || (m =? 9) || (m =? 11) then 30
  else 31.

Definition days_before_year (y : Z) : Z :=
  let p := y - 1 in p * 365 + p / 4 - p / 100 + p / 400.

(** Days in the months 1..k of year [y]. *)
Fixpoint days_in_first_months (y : Z) (k : nat) : Z :=
  match k with
  | O => 0
  | S k' => days_in_first_months y k' + days_in_month y (Z.of_nat (S k'))
  end.

(** Days of the year before the first of month [m]. *)
Definition days_before_month (y m : Z) : Z :=
  days_in_first_months y (Z.to_nat (m - 1)).

(** [date.toordinal()]: 1 January of year 1 is day 1. *)
Definition toordinal (d : date) : Z :=
  days_before_year (year d) + days_before_month (year d) (month d) + day d.

(** [date.weekday()]: Monday is 0, Sunday is 6. *)
Definition weekday (d : date) : Z := (toordinal d + 6) mod 7.

(** The [datetime] constructor accepts years 1..9999 and real days. *)
Definition valid_date (d : date) : bool :=
  (1 <=? year d) && (year d <=? 9999) &&
  (1 <=? month d) && (month d <=? 12) &&
  (1 <=? day d) && (day d <=? days_in_month (year d) (month d)).

Definition digit (c : ascii) : Z := code c - 48.
Definition is19 (c : ascii) : bool := (49 <=? code c) && (code c <=? 57).

(** The [%d] directive: [3[0-1]|[1-2]\d|0[1-9]|[1-9]| [1-9]]. *)
Definition parse_day (s : string) : option Z :=
  match s with
  | String a EmptyString => if is19 a then Some (digit a) else None
  | String a (String b EmptyString) =>
      if (code a =? 51) && ((code b =? 48) || (code b =? 49)) then Some (30 + digit b)
      else if ((code a =? 49) || (code a =? 50)) && isdigit b then Some (10 * digit a + digit b)
      else if ((code a =? 48) || (code a =? 32)) && is19 b then Some (digit b)
      else None
  | _ => None
  end.

(** The [%m] directive: [1[0-2]|0[1-9]|[1-9]]. *)
Definition parse_month (s : string) : option Z :=
  match s with
  | String a EmptyString => if is19 a then Some (digit a) else None
  | String a (String b EmptyString) =>
      if (code a =? 49) && (48 <=? code b) && (code b <=? 50) then Some (10 + digit b)
      else if (code a =? 48) && is19 b then Some (digit b)
      else None
  | _ => None
  end.

(** The [%Y] directive: four digits. *)
Definition parse_year (s : string) : option Z :=
  match s with
  | String a (String b (String c (String d EmptyString))) =>
      if isdigit a && isdigit b && isdigit c && isdigit d
      then Some (1000 * digit a + 100 * digit b + 10 * digit c + digit d)
      else None
  | _ => None
  end.

(** [datetime.strptime(s, '%d/%m/%Y')] of an ASCII string; [None] is the
    [ValueError]. *)
Definition strptime (s : string) : option date :=
  match split "/" s with
  | [ds; ms; ys] =>
      match parse_day ds, parse_month ms, parse_year ys with
      | Some d, Some m, Some y =>
          let r := mkdate y m d in if valid_date r then Some r else None
      | _, _, _ => None
      end
  | _ => None
  end.

(** [str(n)] for a non-negative integer. *)
Definition str_int (n : Z) : string := pretty n.

Definition pad2 (n : Z) : string :=
  if n <? 10 then "0" +:+ str_int n else str_int n.

Definition pad4 (n : Z) : string :=
  if n <? 10 then "000" +:+ str_int n
  else if n <? 100 then "00" +:+ str_int n
  else if n <? 1000 then "0" +:+ str_int n
  else str_int n.

(** [d.strftime('%d/%m/%Y')] *)
Definition strftime_dmy (d : date) : string :=
  pad2 (day d) +:+ "/" +:+ pad2 (month d) +:+ "/" +:+ pad4 (year d).

(** [d.strftime('%Y-%m-%d')] *)
Definition strftime_ymd (d : date) : string :=
  pad4 (year d) +:+ "-" +:+ pad2 (month d) +:+ "-" +:+ pad2 (day d).

(** The second Saturday of the month of [d], as the scheduler computes it:
    first Saturday on or after the 1st, plus seven days. *)
Definition second_saturday (d : date) : date :=
  let first_day := mkdate (year d) (month d) 1 in
  let first_saturday := 1 + (5 - weekday first_day) mod 7 in
  mkdate (year d) (month d) (first_saturday + 7).

End PyDate.

(** ** Documents of the store and the in-memory maps of the bot *)

Module Model.
Import PyStr.

(** One recorded activity: the four keys every writer of the program
    sets. *)
Record activity := mk_activity {
  date : string;
  from : string;
  to_village : string;
  purpose : string
}.

#[global] Instance activity_eq_dec : EqDecision activity.
Proof. solve_decision. Defined.

(** A user-declared public holiday, [{'date': ..., 'desc': ...}]. *)
Record holiday := mk_holiday { hol_date : string; hol_desc : string }.

(** The [activities] field of a user document: the legacy flat list, or
    the mapping year -> month -> list of records. *)
Inductive activities_field :=
| Legacy (acts : list activity)
| Nested (acts : gmap string (gmap string (list activity))).

(** A user document, with the keys of the template that [start_command]
    and [settings_command] insert; [headquarters] and [role] may hold
    [None], [default_purpose] is absent until it is set. *)
Record user_doc := mk_user {
  user_id : Z;
  headquarters : option string;
  villages : list string;
  activities : activities_field;
  custom_activities : list string;
  role : option string;
  default_purpose : option string;
  public_holidays : list holiday
}.

(** An entry of [pending_prompts] (its ['type'] is always ['button']). *)
Record prompt := mk_prompt {
  message_id : Z;
  chat_id : Z;
  timeout_time : Z
}.

(** An entry of [daily_prompt_message_ids]: the dict the daily prompt
    stores, or the bare message id of the legacy format. *)
Inductive msg_info :=
| MsgDict (mid : Z) (sent_on : string)
| MsgLegacy (mid : Z).

(** The temp activity draft: a dict holding a subset of these keys. *)
Record draft := mk_draft {
  d_date : option string;
  d_to_village : option string;
  d_purpose : option string;
  d_user_id : option Z
}.

Definition empty_draft : draft := mk_draft None None None None.

(** An inline keyboard: the groups of buttons (label, callback data) given
    to the successive [keyboard.add] calls. *)
Definition keyboard := list (list (string * string)).

(** The Bot API calls the modelled code makes. *)
Inductive api_call :=
| send_message (chat : Z) (text : string) (reply_markup : keyboard)
| reply_to (chat : Z) (text : string)
| delete_message (chat : Z) (msg : Z).

(** Exceptions that the modelled code can raise. [WriteError] and
    [OutOfModel] mark store updates and handler branches that the
    embedding does not represent. *)
Inductive exn :=
| AttributeError | KeyError | NameError | ValueError | IndexError
| ApiException | WriteError | OutOfModel.

Record world := mk_world {
  users_collection : list user_doc;
  callback_data : gmap Z draft;
  input_prompt_message : gmap Z Z;
  pending_prompts : list (Z * prompt);
  cancelled_users : gset Z;
  daily_prompt_message_ids : gmap Z msg_info;
  (** the calls made so far, oldest first, with their outcome *)
  outbox : list (api_call * bool);
  (** outcome of the upcoming calls; when exhausted, calls succeed *)
  network : list bool;
  (** id that Telegram gives to the next message sent *)
  next_message_id : Z;
  (** the upcoming draws of the [random] module *)
  rng : list nat
}.

Definition set_users (f : list user_doc -> list user_doc) (w : world) : world :=
  mk_world (f (users_collection w)) (callback_data w) (input_prompt_message w)
    (pending_prompts w) (cancelled_users w) (daily_prompt_message_ids w)
    (outbox w) (network w) (next_message_id w) (rng w).

Definition set_callback_data (f : gmap Z draft -> gmap Z draft) (w : world) : world :=
  mk_world (users_collection w) (f (callback_data w)) (input_prompt_message w)
    (pending_prompts w) (cancelled_users w) (daily_prompt_message_ids w)
    (outbox w) (network w) (next_message_id w) (rng w).

Definition set_input_prompt_message (f : gmap Z Z -> gmap Z Z) (w : world) : world :=
  mk_world (users_collection w) (callback_data w) (f (input_prompt_message w))
    (pending_prompts w) (cancelled_users w) (daily_prompt_message_ids w)
    (outbox w) (network w) (next_message_id w) (rng w).

Definition set_pending_prompts (f : list (Z * prompt) -> list (Z * prompt)) (w : world) : world :=
  mk_world (users_collection w) (callback_data w) (input_prompt_message w)
    (f (pending_prompts w)) (cancelled_users w) (daily_prompt_message_ids w)
    (outbox w) (network w) (next_message_id w) (rng w).

Definition set_cancelled_users (f : gset Z -> gset Z) (w : world) : world :=
  mk_world (users_collection w) (callback_data w) (input_prompt_message w)
    (pending_prompts w) (f (cancelled_users w)) (daily_prompt_message_ids w)
    (outbox w) (network w) (next_message_id w) (rng w).

Definition set_daily_prompt_message_ids
    (f : gmap Z msg_info -> gmap Z msg_info) (w : world) : world :=
  mk_world (users_collection w) (callback_data w) (input_prompt_message w)
    (pending_prompts w) (cancelled_users w) (f (daily_prompt_message_ids w))
    (outbox w) (network w) (next_message_id w) (rng w).

(** *** The monad of handlers: state and exceptions *)

Inductive result (A : Type) :=
| Ok (a : A)
| Raise (e : exn).
Arguments Ok {A} a.
Arguments Raise {A} e.

Definition M (A : Type) : Type := world -> result A * world.

Definition ret {A} (a : A) : M A := fun w => (Ok a, w).
Definition raise {A} (e : exn) : M A := fun w => (Raise e, w).
Definition bind {A B} (c : M A) (k : A -> M B) : M B :=
  fun w => match c w with
           | (Ok a, w') => k a w'
           | (Raise e, w') => (Raise e, w')
           end.

(** [try: c  except Exception: h] *)
Definition try_except {A} (c : M A) (h : M A) : M A :=
  fun w => match c w with
           | (Ok a, w') => (Ok a, w')
           | (Raise _, w') => h w'
           end.

Definition get : M world := fun w => (Ok w, w).
Definition modify (f : world -> world) : M unit := fun w => (Ok tt, f w).

Declare Scope py_scope.
Delimit Scope py_scope with py.
Notation "x <- c ;; k" := (bind c (fun x => k))
  (at level 100, c at next level, right associativity) : py_scope.
Notation "c ;;; k" := (bind c (fun _ => k))
  (at level 100, right associativity) : py_scope.
Local Open Scope py_scope.

(** [for x in l: body x] *)
Fixpoint for_each {A} (l : list A) (body : A -> M unit) : M unit :=
  match l with
  | [] => ret tt
  | x :: r => body x ;;; for_each r body
  end.

(** *** Bot API *)

Definition is_send (c : api_call) : bool :=
  match c with
  | delete_message _ _ => false
  | _ => true
  end.

(** One API call: it is logged with its outcome; a successful send
    returns the id of the new message, a refused call raises. *)
Definition api (c : api_call) : M Z :=
  fun w =>
    let ok := match network w with [] => true | b :: _ => b end in
    let mid := next_message_id w in
    let w' := mk_world (users_collection w) (callback_data w)
                (input_prompt_message w) (pending_prompts w)
                (cancelled_users w) (daily_prompt_message_ids w)
                (outbox w ++ [(c, ok)]) (tl (network w))
                (if ok && is_send c then mid + 1 else mid) (rng w) in
    if ok then (Ok mid, w') else (Raise ApiException, w').

(** [random.choice(seq)]: [seq[randbelow(len(seq))]], the draw coming from
    the world's stream reduced to the range; an empty sequence raises
    [IndexError]. *)
Definition choice_at {A} (r : nat) (l : list A) : option A :=
  l !! (r mod length l)%nat.

Definition random_choice {A} (l : list A) : M A :=
  fun w =>
    let r := match rng w with [] => 0%nat | r :: _ => r end in
    let w' := mk_world (users_collection w) (callback_data w)
                (input_prompt_message w) (pending_prompts w)
                (cancelled_users w) (daily_prompt_message_ids w)
                (outbox w) (network w) (next_message_id w) (tl (rng w)) in
    match choice_at r l with
    | Some x => (Ok x, w')
    | None => (Raise IndexError, w)
    end.

(** *** The document store *)

(** [users_collection.find_one({'user_id': uid})] *)
Definition find_one (uid : Z) (c : list user_doc) : option user_doc :=
  List.find (fun u => user_id u =? uid) c.

(** [users_collection.update_one({'user_id': uid}, ...)]: the first
    matching document is rewritten by [f]. *)
Fixpoint update_one (uid : Z) (f : user_doc -> user_doc) (c : list user_doc)
  : list user_doc :=
  match c with
  | [] => []
  | u :: r => if user_id u =? uid then f u :: r else u :: update_one uid f r
  end.

(** [users_collection.find({'villages': {'$exists': True, '$ne': []}})] *)
Definition has_villages (u : user_doc) : bool :=
  match villages u with [] => false | _ => true end.

Definition find_with_villages (c : list user_doc) : list user_doc :=
  List.filter has_villages c.

Definition set_activities (a : activities_field) (u : user_doc) : user_doc :=
  mk_user (user_id u) (headquarters u) (villages u) a (custom_activities u)
    (role u) (default_purpose u) (public_holidays u).

(** [activities[year][month]] when both keys are present. A legacy list
    contains no key, so [year in activities] is false on it. *)
Definition month_list (a : activities_field) (y m : string)
  : option (list activity) :=
  match a with
  | Legacy _ => None
  | Nested acts => acts !! y ≫= (.!! m)
  end.

(** [{'$push': {'activities.<y>.<m>': act}}] on a nested mapping: missing
    levels are created. *)
Definition push_nested (y m : string) (act : activity)
    (acts : gmap string (gmap string (list activity)))
  : gmap string (gmap string (list activity)) :=
  let months := default ∅ (acts !! y) in
  let l := default [] (months !! m) in
  <[y := <[m := l ++ [act]]> months]> acts.

(** [{'$set': {'activities.<y>.<m>.<i>': act}}] where the list has an
    index [i]. *)
Definition set_nested (y m : string) (i : nat) (act : activity)
    (acts : gmap string (gmap string (list activity)))
  : gmap string (gmap string (list activity)) :=
  let months := default ∅ (acts !! y) in
  let l := default [] (months !! m) in
  <[y := <[m := <[i := act]> l]> months]> acts.

(** The two updates as handler steps. Every caller migrates the document
    first, so the stored field is nested when they run; on a stored legacy
    list the dotted path would index the array, which is not
    represented. *)
Definition db_push (uid : Z) (y m : string) (act : activity) : M unit :=
  w <- get ;;
  match find_one uid (users_collection w) with
  | None => ret tt
  | Some u =>
      match activities u with
      | Nested acts =>
          modify (set_users (update_one uid
                    (set_activities (Nested (push_nested y m act acts)))))
      | Legacy _ => raise WriteError
      end
  end.

Definition db_set (uid : Z) (y m : string) (i : nat) (act : activity) : M unit :=
  w <- get ;;
  match find_one uid (users_collection w) with
  | None => ret tt
  | Some u =>
      match activities u with
      | Nested acts =>
          modify (set_users (update_one uid
                    (set_activities (Nested (set_nested y m i act acts)))))
      | Legacy _ => raise WriteError
      end
  end.

(** *** [migrate_activities_structure] *)

(** The loop body: a record whose date parses is appended to the list of
    its year and month, any other record is skipped. *)
Definition migrate_step
    (new_activities : gmap string (gmap string (list activity)))
    (act : activity) : gmap string (gmap string (list activity)) :=
  match PyDate.strptime (date act) with
  | Some dt =>
      push_nested (PyDate.str_int (PyDate.year dt))
        (PyDate.str_int (PyDate.month dt)) act new_activities
  | None => new_activities
  end.

Definition migrate_list (acts : list activity)
  : gmap string (gmap string (list activity)) :=
  fold_left migrate_step acts ∅.

Definition migrate_activities_structure (uid : Z) : M unit :=
  w <- get ;;
  match find_one uid (users_collection w) with
  | None => ret tt
  | Some user =>
      match activities user with
      | Nested _ => ret tt
      | Legacy acts =>
          modify (set_users (update_one uid
                    (set_activities (Nested (migrate_list acts)))))
      end
  end.

End Model.

(** ** The interactive recording flow *)

Module Flow.
Import PyStr Model.
Local Open Scope py_scope.

Definition USER_TIMEOUT : Z := 60.

Definition nl : string := String (ascii_of_nat 10) EmptyString.

(** An inbound text message: [message.from_user.id], [message.chat.id],
    [message.text]. *)
Record message := mk_message { from_user : Z; chat : Z; text : string }.

(** An inbound button press. [call.message] is the message that carries
    the keyboard, so [cmsg_from_user] is the sender of that message. *)
Record callback := mk_callback {
  call_from_user : Z;
  cmsg_chat : Z;
  cmsg_id : Z;
  cmsg_from_user : Z;
  data : string
}.

(** Python dict operations on an insertion-ordered association list. *)
Fixpoint dict_get `{EqDecision K} {V} (k : K) (d : list (K * V)) : option V :=
  match d with
  | [] => None
  | (k', v) :: r => if bool_decide (k' = k) then Some v else dict_get k r
  end.

Fixpoint dict_set `{EqDecision K} {V} (k : K) (v : V) (d : list (K * V))
  : list (K * V) :=
  match d with
  | [] => [(k, v)]
  | (k', v') :: r =>
      if bool_decide (k' = k) then (k, v) :: r else (k', v') :: dict_set k v r
  end.

Fixpoint dict_del `{EqDecision K} {V} (k : K) (d : list (K * V)) : list (K * V) :=
  match d with
  | [] => []
  | (k', v') :: r => if bool_decide (k' = k) then r else (k', v') :: dict_del k r
  end.

(** [self.pending_prompts[key] = {...}] as every prompt sender does it. *)
Definition track_pending_prompt (key : Z) (mid chat_ : Z) (time : Z) : M unit :=
  modify (set_pending_prompts
            (dict_set key (mk_prompt mid chat_ (time + USER_TIMEOUT)))).

(** [user['headquarters'] or 'HQ'] *)
Definition from_of (user : user_doc) : string :=
  match headquarters user with
  | Some hq => if truthy hq then hq else "HQ"
  | None => "HQ"
  end.

(** The index of the first record of [l] whose date string is [d]. *)
Fixpoint existing_activity (d : string) (l : list activity) : option nat :=
  match l with
  | [] => None
  | act :: r =>
      if String.eqb (date act) d then Some O
      else option_map S (existing_activity d r)
  end.

(** Lines 787-812 of [save_activity], repeated at 894-919 of
    [save_activity_callback]: replace the record of that date string, or
    append. The result tells whether a record was replaced. *)
Definition write_activity (uid : Z) (year month : string) (act : activity)
  : M bool :=
  w <- get ;;
  match find_one uid (users_collection w) with
  | None => raise AttributeError
  | Some user =>
      match month_list (activities user) year month ≫= existing_activity (date act) with
      | Some i => db_set uid year month i act ;;; ret true
      | None => db_push uid year month act ;;; ret false
      end
  end.

Definition activity_summary (act : activity) : string :=
  "**Date:** " +:+ date act +:+ nl +:+
  "**From:** " +:+ from act +:+ nl +:+
  "**To:** " +:+ to_village act +:+ nl +:+
  "**Purpose:** " +:+ purpose act.

Definition saved_text (updated : bool) (act : activity) : string :=
  (if updated then "✅ Activity updated successfully!"
   else "✅ Activity recorded successfully!")
  +:+ nl +:+ nl +:+ activity_summary act.

Definition info_message_id (i : msg_info) : Z :=
  match i with MsgDict mid _ => mid | MsgLegacy mid => mid end.

(** "Delete the daily prompt message if it exists": the entry is dropped
    only when the deletion went through. *)
Definition delete_daily_prompt (uid chat_ : Z) : M unit :=
  w <- get ;;
  match daily_prompt_message_ids w !! uid with
  | None => ret tt
  | Some msg_info =>
      try_except
        (api (delete_message chat_ (info_message_id msg_info)) ;;;
         modify (set_daily_prompt_message_ids (delete uid)))
        (ret tt)
  end.

(** [save_activity(message, activity_data)]; [now] is today's date. *)
Definition save_activity (now : PyDate.date) (msg : message)
    (activity_data : draft) : M unit :=
  let uid := from_user msg in
  w <- get ;;
  match find_one uid (users_collection w) with
  | None => ret tt
  | Some user =>
      let date_ := default (PyDate.strftime_dmy now) (d_date activity_data) in
      match d_to_village activity_data with
      | None =>
          api (reply_to (chat msg)
                 "❌ Village information is missing. Please try again.") ;;; ret tt
      | Some to_ =>
          match d_purpose activity_data with
          | None =>
              api (reply_to (chat msg)
                     "❌ Purpose information is missing. Please try again.") ;;; ret tt
          | Some purpose_ =>
              let act := mk_activity date_ (from_of user) to_ purpose_ in
              migrate_activities_structure uid ;;;
              match PyDate.strptime date_ with
              | None =>
                  api (reply_to (chat msg)
                         "❌ Invalid date format. Please try again.") ;;; ret tt
              | Some dt =>
                  updated <- write_activity uid
                               (PyDate.str_int (PyDate.year dt))
                               (PyDate.str_int (PyDate.month dt)) act ;;
                  delete_daily_prompt uid (chat msg) ;;;
                  api (send_message (chat msg) (saved_text updated act) []) ;;;
                  ret tt
              end
          end
      end
  end.

(** [save_activity_callback(call, temp_activity)] *)
Definition save_activity_callback (now : PyDate.date) (call : callback)
    (temp_activity : draft) : M unit :=
  match d_user_id temp_activity with
  | None => raise KeyError
  | Some uid =>
      w <- get ;;
      match find_one uid (users_collection w) with
      | None => ret tt
      | Some user =>
          let date_ := default (PyDate.strftime_dmy now) (d_date temp_activity) in
          match d_to_village temp_activity with
          | None =>
              api (send_message (cmsg_chat call)
                     "❌ Village information is missing. Please try again." []) ;;;
              ret tt
          | Some to_ =>
              match d_purpose temp_activity with
              | None =>
                  api (send_message (cmsg_chat call)
                         "❌ Purpose information is missing. Please try again." []) ;;;
                  ret tt
              | Some purpose_ =>
                  let act := mk_activity date_ (from_of user) to_ purpose_ in
                  migrate_activities_structure uid ;;;
                  match PyDate.strptime date_ with
                  | None =>
                      api (send_message (cmsg_chat call)
                             "❌ Invalid date format. Please try again." []) ;;;
                      ret tt
                  | Some dt =>
                      updated <- write_activity uid
                                   (PyDate.str_int (PyDate.year dt))
                                   (PyDate.str_int (PyDate.month dt)) act ;;
                      try_except
                        (api (delete_message (cmsg_chat call) (cmsg_id call)) ;;; ret tt)
                        (ret tt) ;;;
                      delete_daily_prompt uid (cmsg_chat call) ;;;
                      api (send_message (cmsg_chat call) (saved_text updated act) []) ;;;
                      modify (set_pending_prompts (dict_del uid))
                  end
              end
          end
      end
  end.

(** *** Purposes offered for a month *)

Definition sowing : string := "Attended this village to observe sowing operations".
Definition harvesting : string := "Attended this village to observe harvesting operations".
Definition seasonal : string := "Attended this village to observe seasonal and crop conditions".

(** [MAIN_ACTIVITIES_BY_MONTH.get(month, [])] *)
Definition MAIN_ACTIVITIES_BY_MONTH (month : Z) : list string :=
  if (month =? 1) || (month =? 2) || (month =? 7) || (month =? 8) || (month =? 11)
  then [sowing; seasonal]
  else if (month =? 3) || (month =? 6) || (month =? 9) || (month =? 12)
  then [seasonal]
  else if (month =? 4) || (month =? 5) then [harvesting; seasonal]
  else if month =? 10 then [sowing; harvesting; seasonal]
  else [].

(** The month's table entry, or the generic pair when it is empty. *)
Definition month_activities_or_default (month : Z) : list string :=
  match MAIN_ACTIVITIES_BY_MONTH month with
  | [] => ["survey harvest"; "seasonal conditions"]
  | l => l
  end.

(** [get_user_activities(user_id, month)]. The source returns
    [list(set(custom + main))], whose order CPython does not fix; the
    embedding enumerates the set in the order of [remove_dups]. *)
Definition get_user_activities (uid : Z) (month : Z) (c : list user_doc)
  : list string :=
  match find_one uid c with
  | None => []
  | Some user =>
      remove_dups (custom_activities user ++ month_activities_or_default month)
  end.

(** Buttons numbered from [i], [cb] being the callback-data prefix, in
    rows of five. *)
Fixpoint numbered_buttons (cb : string) (i : nat) (n : nat)
  : list (string * string) :=
  match n with
  | O => []
  | S n' =>
      (PyDate.str_int (Z.of_nat (S i)), cb +:+ PyDate.str_int (Z.of_nat i))
        :: numbered_buttons cb (S i) n'
  end.

Fixpoint rows_of (fuel : nat) (k : nat) {A} (l : list A) : list (list A) :=
  match fuel, l with
  | _, [] => []
  | O, _ => [l]
  | S f, _ => take k l :: rows_of f k (drop k l)
  end.

Fixpoint numbered_lines (i : nat) (l : list string) : list string :=
  match l with
  | [] => []
  | p :: r => (PyDate.str_int (Z.of_nat (S i)) +:+ ". " +:+ p) :: numbered_lines (S i) r
  end.

Fixpoint join (sep : string) (l : list string) : string :=
  match l with
  | [] => ""
  | [x] => x
  | x :: r => x +:+ sep +:+ join sep r
  end.

Definition purpose_keyboard (cb : string) (custom : string) (n : nat) : keyboard :=
  rows_of n 5 (numbered_buttons cb 0 n)
  ++ [[("📝 Manual Entry", custom)]; [("❌ Cancel", "cancel_selection")]].

Definition purpose_text (user_activities : list string) : string :=
  "🎯 **Select the purpose of visit:**" +:+ nl +:+ nl +:+
  join nl (numbered_lines 0 user_activities) +:+ nl +:+ nl +:+
  "Click the number button or use Manual Entry.".

(** [show_purpose_buttons(message, user_id, month)]: the purpose-selection
    step. [msg_from] is [message.from_user.id], the key under which the
    pending prompt is tracked. *)
Definition show_purpose_buttons (time : Z) (chat_ msg_from : Z) (uid : Z)
    (month : Z) : M unit :=
  w <- get ;;
  let user_activities := get_user_activities uid month (users_collection w) in
  sent <- api (send_message chat_ (purpose_text user_activities)
                 (purpose_keyboard "purpose_idx_" "purpose_custom"
                    (length user_activities))) ;;
  track_pending_prompt msg_from sent chat_ time.

(** *** Villages not yet visited in a month *)

(** [covered_villages.add(x)] on a set kept as a duplicate-free list. *)
Definition set_add (x : string) (s : list string) : list string :=
  if bool_decide (x ∈ s) then s else s ++ [x].

(** The loop of [show_village_buttons] (lines 376-384), repeated in
    [daily_prompt] (1614-1622) and [show_village_buttons_for_date]
    (3289-3297): the title-cased destinations of the records of the month
    list whose date parses to that month and year. *)
Definition covered_step (y m : Z) (covered : list string) (act : activity)
  : list string :=
  match PyDate.strptime (date act) with
  | Some d =>
      if (PyDate.month d =? m) && (PyDate.year d =? y)
      then if truthy (to_village act) then set_add (title (to_village act)) covered
           else covered
      else covered
  | None => covered
  end.

Definition covered_villages (acts : activities_field) (y m : Z) : list string :=
  match month_list acts (PyDate.str_int y) (PyDate.str_int m) with
  | Some l => fold_left (covered_step y m) l []
  | None => []
  end.

(** [[v for v in villages if v not in covered_villages]] after
    [villages = [v.title() for v in villages]]. *)
Definition available_villages (villages_ : list string) (covered : list string)
  : list string :=
  List.filter (fun v => negb (bool_decide (v ∈ covered))) (map title villages_).

(** Village buttons, two per row. *)
Fixpoint village_rows (cb : string) (l : list string) : keyboard :=
  match l with
  | [] => []
  | [a] => [[(a, cb +:+ a)]]
  | a :: b :: r => [(a, cb +:+ a); (b, cb +:+ b)] :: village_rows cb r
  end.

Definition village_keyboard (cb : string) (hq_label : string)
    (available : list string) : keyboard :=
  [[("🏢 " +:+ hq_label +:+ " (headquarters)", cb +:+ hq_label)]]
  ++ village_rows cb available
  ++ [[("✏️ Manual Entry", cb +:+ "manual")]; [("❌ Cancel", "cancel_selection")]].

(** [sorted(l)] on strings. *)
Fixpoint insert_sorted (x : string) (l : list string) : list string :=
  match l with
  | [] => [x]
  | y :: r => if String.leb x y then x :: l else y :: insert_sorted x r
  end.

Definition sorted_strings (l : list string) : list string :=
  fold_right insert_sorted [] l.

(** [str(x)] of a value that may be [None]. *)
Definition str_or_none (o : option string) : string := default "None" o.

(** [show_village_buttons(message, villages)]. The document is read before
    the migration and not read again. *)
Definition show_village_buttons (now : PyDate.date) (time : Z) (msg : message)
    (villages_ : list string) : M unit :=
  let uid := from_user msg in
  w <- get ;;
  let user := find_one uid (users_collection w) in
  migrate_activities_structure uid ;;;
  match user with
  | None => raise AttributeError
  | Some user =>
      let covered :=
        covered_villages (activities user) (PyDate.year now) (PyDate.month now) in
      let available := available_villages villages_ covered in
      let valid_covered := sorted_strings (List.filter truthy covered) in
      let covered_text :=
        match valid_covered with
        | [] => ""
        | _ => nl +:+ nl +:+ "✅ Already covered this month: "
               +:+ PyDate.str_int (Z.of_nat (length valid_covered))
               +:+ " villages out of "
               +:+ PyDate.str_int (Z.of_nat (length villages_)) +:+ "."
               +:+ nl +:+ "Visited: " +:+ join ", " valid_covered
        end in
      sent <- api (send_message (chat msg)
                     ("🏘️ Select the village you visited today "
                      +:+ PyDate.strftime_dmy now +:+ ":" +:+ covered_text)
                     (village_keyboard "village_"
                        (str_or_none (headquarters user)) available)) ;;
      track_pending_prompt uid sent (chat msg) time
  end.

(** [show_village_buttons_for_date(message, villages, date_str)] *)
Definition show_village_buttons_for_date (time : Z) (msg : message)
    (villages_ : list string) (date_str : string) : M unit :=
  let uid := from_user msg in
  w <- get ;;
  match find_one uid (users_collection w) with
  | None =>
      (* [user.get] on [None], reached after the migration when the date parses *)
      match PyDate.strptime date_str with
      | Some _ => migrate_activities_structure uid
      | None => ret tt
      end ;;;
      raise AttributeError
  | Some user =>
      covered <- match PyDate.strptime date_str with
                 | Some d =>
                     migrate_activities_structure uid ;;;
                     ret (covered_villages (activities user)
                            (PyDate.year d) (PyDate.month d))
                 | None => ret []
                 end ;;
      let available := available_villages villages_ covered in
      match headquarters user with
      | None => raise AttributeError
      | Some hq =>
          let covered_text :=
            match covered with
            | [] => ""
            | _ => nl +:+ nl +:+ "✅ Already covered this month: "
                   +:+ PyDate.str_int (Z.of_nat (length covered)) +:+ " villages"
            end in
          sent <- api (send_message (chat msg)
                         ("🏘️ Select the village you visited on "
                          +:+ date_str +:+ ":" +:+ covered_text)
                         (village_keyboard "village_" (title hq) available)) ;;
          track_pending_prompt uid sent (chat msg) time
      end
  end.

(** *** Entry points *)

(** [message.text.split()] *)
Fixpoint words_from (s : string) : list string :=
  match s with
  | EmptyString => [EmptyString]
  | String c r =>
      if isspace c then EmptyString :: words_from r
      else match words_from r with
           | [] => [String c EmptyString]
           | w :: ws => String c w :: ws
           end
  end.

Definition split_ws (s : string) : list string :=
  List.filter truthy (words_from s).

Definition no_villages_text : string :=
  "❌ Please add villages first using /settings command.".

(** [record_activity_command]: the handler of [/act]. A date or purpose
    given as argument is parsed and logged only; the prompt that follows
    is the one for today. *)
Definition record_activity_command (now : PyDate.date) (time : Z)
    (msg : message) : M unit :=
  w <- get ;;
  match find_one (from_user msg) (users_collection w) with
  | None => api (reply_to (chat msg) no_villages_text) ;;; ret tt
  | Some user =>
      match villages user with
      | [] => api (reply_to (chat msg) no_villages_text) ;;; ret tt
      | _ => show_village_buttons now time msg (villages user)
      end
  end.

(** [_start_activity_flow_for_date(message, date_str)] *)
Definition _start_activity_flow_for_date (time : Z) (msg : message)
    (date_str : string) : M unit :=
  let uid := from_user msg in
  w <- get ;;
  modify (set_callback_data
            (insert uid (mk_draft (Some date_str) None None None))) ;;;
  match find_one uid (users_collection w) with
  | None => raise AttributeError
  | Some user => show_village_buttons_for_date time msg (villages user) date_str
  end.

Definition cancel_keyboard : keyboard := [[("❌ Cancel", "cancel_selection")]].

(** [edit_activity_command]: the handler of [/editact]. Without a date it
    asks for one; the answer is handled by [_editact_date_input_handler]. *)
Definition edit_activity_command (time : Z) (msg : message) : M unit :=
  let uid := from_user msg in
  w <- get ;;
  match find_one uid (users_collection w) with
  | None => api (reply_to (chat msg) no_villages_text) ;;; ret tt
  | Some user =>
      match villages user with
      | [] => api (reply_to (chat msg) no_villages_text) ;;; ret tt
      | _ =>
          match tl (split_ws (text msg)) with
          | date_str :: _ =>
              match PyDate.strptime date_str with
              | None =>
                  api (reply_to (chat msg)
                         "❌ Invalid date format. Please use DD/MM/YYYY.") ;;; ret tt
              | Some _ => _start_activity_flow_for_date time msg date_str
              end
          | [] =>
              sent <- api (send_message (chat msg)
                             "📅 Please enter the date for the activity (DD/MM/YYYY):"
                             cancel_keyboard) ;;
              modify (set_input_prompt_message (insert uid sent))
          end
      end
  end.

(** [_editact_date_input_handler(message)]: the next message of a user who
    was asked for a date. *)
Definition _editact_date_input_handler (time : Z) (msg : message) : M unit :=
  let uid := from_user msg in
  w <- get ;;
  if bool_decide (uid ∈ cancelled_users w)
  then modify (set_cancelled_users (fun s => s ∖ {[uid]}))
  else
    let date_str := strip (text msg) in
    match PyDate.strptime date_str with
    | None =>
        sent <- api (send_message (chat msg)
                       "❌ Invalid date format. Please use DD/MM/YYYY:"
                       cancel_keyboard) ;;
        modify (set_input_prompt_message (insert uid sent))
    | Some _ =>
        match input_prompt_message w !! uid with
        | Some mid =>
            try_except (api (delete_message (chat msg) mid) ;;; ret tt) (ret tt) ;;;
            modify (set_input_prompt_message (delete uid))
        | None => ret tt
        end ;;;
        _start_activity_flow_for_date time msg date_str
    end.

(** [s.replace(p, '')] for a non-empty [p]. *)
Fixpoint drop_chars (n : nat) (s : string) : string :=
  match n, s with
  | O, _ => s
  | S n', String _ r => drop_chars n' r
  | S _, EmptyString => EmptyString
  end.

Fixpoint remove_all_from (fuel : nat) (p s : string) : string :=
  match fuel with
  | O => s
  | S f =>
      match s with
      | EmptyString => EmptyString
      | String c r =>
          if startswith p s then remove_all_from f p (drop_chars (String.length p) s)
          else String c (remove_all_from f p r)
      end
  end.

Definition remove_all (p s : string) : string :=
  remove_all_from (String.length s) p s.

(** The date of the draft in [callback_data], or today:
    [self.callback_data.get(user_id, {}).get('date')], then
    [if not date_str]. *)
Definition draft_date_or_today (now : PyDate.date) (uid : Z) (w : world)
  : string :=
  match callback_data w !! uid ≫= d_date with
  | Some d => if truthy d then d else PyDate.strftime_dmy now
  | None => PyDate.strftime_dmy now
  end.

Definition office_work : string := "Attended office work".

(** [find_one(...).get('headquarters', 'HQ').title()]: the document of the
    template carries the key, so the default is not used, and [None] has
    no [title]. *)
Definition headquarters_title (uid : Z) : M string :=
  w <- get ;;
  match find_one uid (users_collection w) with
  | None => raise AttributeError
  | Some user =>
      match headquarters user with
      | None => raise AttributeError
      | Some hq => ret (title hq)
      end
  end.

(** [callback_query], branch [call.data.startswith('village_')]
    (lines 2945-3021). *)
Definition on_village (now : PyDate.date) (time : Z) (call : callback) : M unit :=
  let uid := call_from_user call in
  hq <- headquarters_title uid ;;
  w <- get ;;
  let date_str := draft_date_or_today now uid w in
  if String.eqb (data call) ("village_" +:+ hq) then
    save_activity_callback now call
      (mk_draft (Some date_str) (Some "") (Some office_work) (Some uid)) ;;;
    modify (set_callback_data (delete uid))
  else if String.eqb (data call) "village_manual" then
    modify (set_callback_data (insert uid (mk_draft (Some date_str) None None None))) ;;;
    try_except (api (delete_message (cmsg_chat call) (cmsg_id call)) ;;; ret tt)
      (ret tt) ;;;
    api (send_message (cmsg_chat call) "✏️ Please type the village name:" []) ;;;
    ret tt
  else
    let village := remove_all "village_" (data call) in
    modify (set_callback_data
              (insert uid (mk_draft (Some date_str) (Some village) None (Some uid)))) ;;;
    try_except (api (delete_message (cmsg_chat call) (cmsg_id call)) ;;; ret tt)
      (ret tt) ;;;
    let month := match PyDate.strptime date_str with
                 | Some d => PyDate.month d
                 | None => PyDate.month now
                 end in
    show_purpose_buttons time (cmsg_chat call) (cmsg_from_user call) uid month.

(** [callback_query], branch [call.data.startswith('daily_village_')]
    (lines 3024-3114). *)
Definition on_daily_village (now : PyDate.date) (call : callback) : M unit :=
  let uid := call_from_user call in
  hq <- headquarters_title uid ;;
  let today := PyDate.strftime_dmy now in
  if String.eqb (data call) ("daily_village_" +:+ hq) then
    save_activity_callback now call
      (mk_draft (Some today) (Some "") (Some office_work) (Some uid)) ;;;
    modify (set_callback_data (delete uid))
  else if String.eqb (data call) "daily_village_manual" then
    modify (set_callback_data (insert uid (mk_draft (Some today) None None None))) ;;;
    try_except (api (delete_message (cmsg_chat call) (cmsg_id call)) ;;; ret tt)
      (ret tt) ;;;
    api (send_message (cmsg_chat call) "✏️ Please type the village name:" []) ;;;
    ret tt
  else
    let village := remove_all "daily_village_" (data call) in
    modify (set_callback_data
              (insert uid (mk_draft (Some today) (Some village) None (Some uid)))) ;;;
    try_except (api (delete_message (cmsg_chat call) (cmsg_id call)) ;;; ret tt)
      (ret tt) ;;;
    w <- get ;;
    let user_activities :=
      get_user_activities uid (PyDate.month now) (users_collection w) in
    api (send_message (cmsg_chat call) (purpose_text user_activities)
           (purpose_keyboard "daily_purpose_idx_" "daily_purpose_custom"
              (length user_activities))) ;;;
    ret tt.

(** [callback_query] on the data of the village keyboards. The branches
    tested before line 2945 match none of these data; the other kinds of
    callback data are outside the embedding. *)
Definition callback_query (now : PyDate.date) (time : Z) (call : callback)
  : M unit :=
  if startswith "village_" (data call) then on_village now time call
  else if startswith "daily_village_" (data call) then on_daily_village now call
  else raise OutOfModel.

(** [start_command]: the handler of [/start]. *)
Definition fresh_user (uid : Z) : user_doc :=
  mk_user uid None [] (Legacy []) [] None None [].

Definition start_command (msg : message) : M unit :=
  let uid := from_user msg in
  w <- get ;;
  match find_one uid (users_collection w) with
  | None => modify (set_users (fun c => c ++ [fresh_user uid]))
  | Some _ => ret tt
  end ;;;
  api (reply_to (chat msg) "🎉 Welcome to TD Bot!") ;;;
  ret tt.

(** [settings_command]: the handler of [/settings]. *)
Definition settings_keyboard : keyboard :=
  [[("👤 Set Role", "settings_setrole")];
   [("🏢 Set Headquarters", "settings_sethq")];
   [("🏘️ Add Villages", "settings_addvil")];
   [("📋 Manage Activities", "settings_activities")];
   [("🎯 Default Purpose", "settings_default_purpose")];
   [("📅 Add Public Holidays", "settings_upload_holidays")];
   [("❌ Cancel", "cancel_selection")]].

Definition settings_text (user : user_doc) : string :=
  let hq_status :=
    match headquarters user with
    | Some hq => if truthy hq then "✅ " +:+ hq else "❌ Not set"
    | None => "❌ Not set"
    end in
  let default_purpose_ :=
    match default_purpose user with
    | Some p => if truthy p then p else "Not set"
    | None => "Not set"
    end in
  let count {A} (l : list A) := PyDate.str_int (Z.of_nat (length l)) in
  "⚙️ **Settings**" +:+ nl +:+ nl +:+
  "**Headquarters:** " +:+ hq_status +:+ nl +:+
  "**Villages:** " +:+ count (villages user) +:+ " added" +:+ nl +:+
  "**Custom Activities:** " +:+ count (custom_activities user) +:+ " defined" +:+ nl +:+
  "**Default Purpose:** " +:+ default_purpose_ +:+ nl +:+
  "**Public Holidays:** " +:+ count (public_holidays user) +:+ " added" +:+ nl +:+ nl +:+
  "Select an option to configure:".

Definition settings_command (msg : message) : M unit :=
  let uid := from_user msg in
  w <- get ;;
  user <- match find_one uid (users_collection w) with
          | None =>
              modify (set_users (fun c => c ++ [fresh_user uid])) ;;;
              ret (fresh_user uid)
          | Some user => ret user
          end ;;
  try_except
    (api (send_message (chat msg) (settings_text user) settings_keyboard) ;;; ret tt)
    (api (send_message (chat msg)
            "❌ Error displaying settings. Please try again." []) ;;; ret tt).

End Flow.

(** ** The daily scheduler: prompt and fallback *)

Module Scheduler.
Import PyStr Model Flow.
Local Open Scope py_scope.

(** The global weekday rule of both triggers. *)
Definition is_sunday (now : PyDate.date) : bool := PyDate.weekday now =? 6.

Definition is_second_saturday (now : PyDate.date) : bool :=
  (PyDate.weekday now =? 5) && bool_decide (now = PyDate.second_saturday now).

(** [any(act['date'] == today_str for act in activities[year][month])] on
    the document as the cursor returned it. *)
Definition has_activity (user : user_doc) (now : PyDate.date) : bool :=
  match month_list (activities user) (PyDate.str_int (PyDate.year now))
          (PyDate.str_int (PyDate.month now)) with
  | Some l => existsb (fun act => String.eqb (date act) (PyDate.strftime_dmy now)) l
  | None => false
  end.

(** The description of the first declared holiday whose date parses to
    today (the loop with [break] over [public_holidays]). *)
Fixpoint user_holiday (hs : list holiday) (now : PyDate.date) : option string :=
  match hs with
  | [] => None
  | h :: r =>
      match PyDate.strptime (hol_date h) with
      | Some d => if bool_decide (d = now) then Some (hol_desc h) else user_holiday r now
      | None => user_holiday r now
      end
  end.

Definition falsy_opt (o : option string) : bool :=
  match o with Some s => negb (truthy s) | None => true end.

Definition daily_prompt_text : string :=
  "🕰️ **Daily Activity Reminder**" +:+ nl +:+ nl +:+
  "Please record your tour activity for today. Select the village you visited:".

(** "Check if daily prompt was already sent today for this user" *)
Definition already_prompted (w : world) (uid : Z) (current_date : string) : bool :=
  match daily_prompt_message_ids w !! uid with
  | Some (MsgDict _ sent_on) => String.eqb sent_on current_date
  | _ => false
  end.

(** The body of the loop of [daily_prompt] for one document of the cursor,
    inside its [try]. The purpose drawn for a user without default purpose
    is kept in the local copy of the document only, and the note about it
    is never part of the text, since the copy then has a purpose. *)
Definition daily_prompt_user (now : PyDate.date) (user : user_doc) : M unit :=
  let uid := user_id user in
  let current_date := PyDate.strftime_ymd now in
  w <- get ;;
  if already_prompted w uid current_date then ret tt
  else if bool_decide (is_Some (user_holiday (public_holidays user) now)) then ret tt
  else
    migrate_activities_structure uid ;;;
    if has_activity user now then ret tt
    else
      (if falsy_opt (default_purpose user)
       then random_choice (month_activities_or_default (PyDate.month now)) ;;; ret tt
       else ret tt) ;;;
      let covered :=
        covered_villages (activities user) (PyDate.year now) (PyDate.month now) in
      let available := available_villages (villages user) covered in
      match headquarters user with
      | None => raise AttributeError
      | Some hq =>
          sent <- api (send_message uid daily_prompt_text
                         (village_keyboard "daily_village_" (title hq) available)) ;;
          modify (set_daily_prompt_message_ids (insert uid (MsgDict sent current_date)))
      end.

(** [daily_prompt()] run on the day [now]. *)
Definition daily_prompt (now : PyDate.date) : M unit :=
  if is_sunday now then ret tt
  else if is_second_saturday now then ret tt
  else
    w <- get ;;
    for_each (find_with_villages (users_collection w))
      (fun user => try_except (daily_prompt_user now user) (ret tt)).

(** *** Fallback on a holiday *)

(** The purpose of a holiday record: the declared description when there
    is one, else the weekday wording. *)
Definition holiday_purpose (holiday_name : option string) (now : PyDate.date)
  : string :=
  if negb (falsy_opt holiday_name)
  then "Public holiday (" +:+ default "" holiday_name +:+ ")"
  else if is_sunday now then "Public holiday (Sunday)"
  else if is_second_saturday now then "Public holiday (Second Saturday)"
  else "Public holiday".

Definition holiday_activity (user : user_doc) (now : PyDate.date) : activity :=
  mk_activity (PyDate.strftime_dmy now) (from_of user) ""
    (holiday_purpose (user_holiday (public_holidays user) now) now).

Definition holiday_text (weekday_name : string) (act : activity) : string :=
  "🏖️ **Public Holiday Recorded**" +:+ nl +:+ nl +:+
  "Today is a public holiday (" +:+ weekday_name +:+ ")." +:+ nl +:+
  activity_summary act +:+ nl.

(** Lines 1707-1747, and again 1776-1815: name the holiday, push the
    record, tell the user. *)
Definition record_holiday (now : PyDate.date) (weekday_name : string)
    (user : user_doc) : M unit :=
  let act := holiday_activity user now in
  db_push (user_id user) (PyDate.str_int (PyDate.year now))
    (PyDate.str_int (PyDate.month now)) act ;;;
  api (send_message (user_id user) (holiday_text weekday_name act) []) ;;;
  ret tt.

(** The Sunday branch (lines 1685-1748): the whole body is inside the
    loop over the users. *)
Definition sunday_fallback (now : PyDate.date) : M unit :=
  w <- get ;;
  for_each (find_with_villages (users_collection w))
    (fun user =>
       migrate_activities_structure (user_id user) ;;;
       if has_activity user now then ret tt
       else record_holiday now "Sunday" user).

(** The second-Saturday branch (lines 1754-1816): the loop holds the
    migration and the test only; what follows it runs once, on the
    variable [user] that the loop left, and is a [NameError] when the
    cursor was empty. *)
Definition second_saturday_fallback (now : PyDate.date) : M unit :=
  w <- get ;;
  let users := find_with_villages (users_collection w) in
  for_each users (fun user => migrate_activities_structure (user_id user)) ;;;
  match last users with
  | None => raise NameError
  | Some user => record_holiday now "Second Saturday" user
  end.

(** *** Fallback on a working day: village rotation *)

(** [used_villages]: the non-empty destinations of the month list. *)
Definition used_villages (month_activities : list activity) : list string :=
  fold_left (fun used act =>
               if truthy (to_village act) then set_add (to_village act) used
               else used)
    month_activities [].

(** Order of [datetime] values at midnight. *)
Definition date_leb (a b : PyDate.date) : bool :=
  (PyDate.year a <? PyDate.year b) ||
  ((PyDate.year a =? PyDate.year b) &&
   ((PyDate.month a <? PyDate.month b) ||
    ((PyDate.month a =? PyDate.month b) && (PyDate.day a <=? PyDate.day b)))).

(** [sorted(..., key=...)] is stable: a record goes before the records of
    the sorted rest that are not older than it. *)
Fixpoint insert_by_date (x : PyDate.date * activity)
    (l : list (PyDate.date * activity)) : list (PyDate.date * activity) :=
  match l with
  | [] => [x]
  | y :: r => if date_leb (fst x) (fst y) then x :: l else y :: insert_by_date x r
  end.

(** The keys are computed first; one date that does not parse is a
    [ValueError]. *)
Fixpoint dated (acts : list activity) : option (list (PyDate.date * activity)) :=
  match acts with
  | [] => Some []
  | act :: r =>
      match PyDate.strptime (date act), dated r with
      | Some d, Some r' => Some ((d, act) :: r')
      | _, _ => None
      end
  end.

(** [_sort_activities_by_date(acts)] *)
Definition _sort_activities_by_date (acts : list activity)
  : option (list activity) :=
  option_map (fun l => map snd (fold_right insert_by_date [] l)) (dated acts).

(** Lines 1870-1871: exact string comparison on the stored names. *)
Definition fallback_available (villages_ : list string)
    (month_activities : list activity) : list string :=
  List.filter (fun v => negb (bool_decide (v ∈ used_villages month_activities)))
    villages_.

(** Lines 1873-1891: the pool from which the destination is drawn; [None]
    is the [ValueError] of the sort. *)
Definition selection_pool (villages_ : list string)
    (month_activities : list activity) : option (list string) :=
  match fallback_available villages_ month_activities with
  | [] =>
      match month_activities with
      | [] => Some villages_
      | _ =>
          match _sort_activities_by_date month_activities with
          | None => None
          | Some sorted_activities =>
              match last sorted_activities with
              | None => Some villages_
              | Some last_act =>
                  let last_village := to_village last_act in
                  if truthy last_village && (1 <? Z.of_nat (length villages_))
                  then
                    match List.filter
                            (fun v => negb (String.eqb v last_village)) villages_ with
                    | [] => Some villages_
                    | temp_pool => Some temp_pool
                    end
                  else Some villages_
              end
          end
      end
  | available => Some available
  end.

Definition default_text (DEFAULT_ACTIVITY_TIME : string) (random_purpose : bool)
    (act : activity) : string :=
  "🤖 **Default Activity Recorded**" +:+ nl +:+ nl +:+
  (if random_purpose then "Since you havent added activity manually..."
   else "Since you didn't record an activity by " +:+ DEFAULT_ACTIVITY_TIME
        +:+ ", I've added a default entry.") +:+ nl +:+ nl +:+
  activity_summary act +:+ nl +:+ nl +:+
  "You can update this using /act command if needed.".

(** The body of the loop of the working-day branch for one document of
    the cursor, inside its [try]. *)
Definition default_activity_user (DEFAULT_ACTIVITY_TIME : string)
    (now : PyDate.date) (user : user_doc) : M unit :=
  let uid := user_id user in
  let year_str := PyDate.str_int (PyDate.year now) in
  let month_str := PyDate.str_int (PyDate.month now) in
  migrate_activities_structure uid ;;;
  if has_activity user now then ret tt
  else
    default_purpose_ <-
      (if falsy_opt (default_purpose user)
       then random_choice (month_activities_or_default (PyDate.month now))
       else ret (default "" (default_purpose user))) ;;
    let month_activities :=
      default [] (month_list (activities user) year_str month_str) in
    match selection_pool (villages user) month_activities with
    | None => raise ValueError
    | Some [] => ret tt
    | Some pool =>
        selected_village <- random_choice pool ;;
        let act := mk_activity (PyDate.strftime_dmy now) (from_of user)
                     selected_village default_purpose_ in
        db_push uid year_str month_str act ;;;
        delete_daily_prompt uid uid ;;;
        api (send_message uid
               (default_text DEFAULT_ACTIVITY_TIME
                  (falsy_opt (default_purpose user)) act) []) ;;;
        ret tt
    end.

(** [default_activity_fallback()] run on the day [now]. *)
Definition default_activity_fallback (DEFAULT_ACTIVITY_TIME : string)
    (now : PyDate.date) : M unit :=
  if is_sunday now then sunday_fallback now
  else if is_second_saturday now then second_saturday_fallback now
  else
    w <- get ;;
    for_each (find_with_villages (users_collection w))
      (fun user =>
         try_except (default_activity_user DEFAULT_ACTIVITY_TIME now user) (ret tt)).

End Scheduler.

(** ** The pending-prompt timeout sweep *)

Module Supervisor.
Import PyStr Model Flow.
Local Open Scope py_scope.

Definition timed_out_text : string := "⏰ Timed out. Operation cancelled.".

Definition expired (now : Z) (p : prompt) : bool := timeout_time p <=? now.

(** What the sweep does for one expired entry (lines 195-208). *)
Definition expire_prompt (uid : Z) (p : prompt) : M unit :=
  try_except (api (delete_message (chat_id p) (message_id p)) ;;; ret tt) (ret tt) ;;;
  modify (set_callback_data (delete uid)) ;;;
  modify (set_input_prompt_message (delete uid)) ;;;
  modify (set_cancelled_users (fun s => {[uid]} ∪ s)) ;;;
  try_except (api (send_message (chat_id p) timed_out_text []) ;;; ret tt) (ret tt).

(** [del self.pending_prompts[user_id]] *)
Definition del_pending_prompt (uid : Z) : M unit :=
  w <- get ;;
  match dict_get uid (pending_prompts w) with
  | None => raise KeyError
  | Some _ => modify (set_pending_prompts (dict_del uid))
  end.

(** One pass of the loop of [check_timeouts], [now] being [time.time()]:
    the entries are visited in the order of the dict, the expired ones are
    removed afterwards. *)
Definition check_timeouts (now : Z) : M unit :=
  w <- get ;;
  let items := pending_prompts w in
  for_each items
    (fun item => if expired now (snd item) then expire_prompt (fst item) (snd item)
                 else ret tt) ;;;
  let to_remove := map fst (List.filter (fun item => expired now (snd item)) items) in
  for_each to_remove del_pending_prompt.

End Supervisor.

(** ** Monthly reports: the tour-day counts *)

Module Reports.
Import PyStr Model Flow.

(** [/dnact], line 1013:
    [sum(1 for act in activities if act.get('to_village', '').strip())] *)
Fixpoint dnact_tour_days (acts : list activity) : Z :=
  match acts with
  | [] => 0
  | act :: r =>
      (if truthy (strip (to_village act)) then 1 else 0) + dnact_tour_days r
  end.

Definition min_required : Z := 20.

(** The last line of the [/dnact] summary. *)
Definition dnact_status (tour_days : Z) : string :=
  if tour_days <? min_required
  then "⚠️ Short by " +:+ PyDate.str_int (min_required - tour_days) +:+ " days"
  else "✅ Requirement met".

Definition month_name (m : Z) : string :=
  nth (Z.to_nat m)
    [""; "January"; "February"; "March"; "April"; "May"; "June"; "July";
     "August"; "September"; "October"; "November"; "December"] "".

(** The summary that [/dnact <month> <year>] replies with (lines
    1012-1025), for the month list [acts]. *)
Definition dnact_summary (month_filter year_filter : Z) (acts : list activity)
  : string :=
  "📊 **" +:+ month_name month_filter +:+ " " +:+ PyDate.str_int year_filter
  +:+ " Tour Summary**" +:+ nl +:+
  "Tour Days: " +:+ PyDate.str_int (dnact_tour_days acts) +:+ nl +:+
  "Required: " +:+ PyDate.str_int min_required +:+ nl +:+
  dnact_status (dnact_tour_days acts).

(** [/td], lines 3377-3388: the records of the month list by calendar
    day; a later record of the same day replaces an earlier one, a record
    whose date does not parse is skipped. *)
Definition activities_by_date (acts : list activity)
  : list (PyDate.date * activity) :=
  fold_left (fun by_date act =>
               match PyDate.strptime (date act) with
               | Some dt => dict_set dt act by_date
               | None => by_date
               end)
    acts [].

(** [/td], lines 3459-3464: "Custom logic to count tour days". *)
Definition td_counts (act : activity) : bool :=
  let to_val := title (to_village act) in
  (2 <=? count_alpha to_val) && negb (contains "leave" (lower to_val)).

(** The days 1..n of the month, as [all_dates]. *)
Definition all_dates (year_filter month_filter : Z) : list PyDate.date :=
  map (fun k => PyDate.mkdate year_filter month_filter (Z.of_nat (S k)))
    (seq 0 (Z.to_nat (PyDate.days_in_month year_filter month_filter))).

(** The loop of lines 3448-3464 over the days of the month. [None] is the
    [ValueError] of [datetime(year, month, day)] for a year outside
    1..9999. *)
Definition td_tour_days (year_filter month_filter : Z) (acts : list activity)
  : option Z :=
  if (1 <=? year_filter) && (year_filter <=? 9999)
  then Some (fold_left
               (fun tour_days day =>
                  match dict_get day (activities_by_date acts) with
                  | Some act => if td_counts act then tour_days + 1 else tour_days
                  | None => tour_days
                  end)
               (all_dates year_filter month_filter) 0)
  else None.

(** The summary row of the [/td] sheet. *)
Definition td_summary_row (tour_days : Z) : string :=
  "No. of days toured in the month: " +:+ PyDate.str_int tour_days.

End Reports.

(** ** Worlds and documents used as examples *)

Module Examples.
Import PyStr Model Flow Scheduler Supervisor Reports.

Definition world_of (users : list user_doc) : world :=
  mk_world users ∅ ∅ [] ∅ ∅ [] [] 100 [].

Definition june_2024 (acts : list activity)
  : gmap string (gmap string (list activity)) :=
  {[ "2024" := {[ "6" := acts ]} ]}.

Definition gokul_visit : activity :=
  mk_activity "05/06/2024" "Anandpur" "Gokul" seasonal.

Definition nested_example : user_doc :=
  mk_user 7 (Some "Anandpur") ["Gokul"; "Rampur"]
    (Nested (june_2024 [gokul_visit])) [] None None [].

(** A user in the middle of a recording flow whose prompt has expired at
    time 1060; the next Bot API call will be refused. *)
Definition stale_prompt_world : world :=
  mk_world [nested_example]
    {[ 7 := mk_draft (Some "05/06/2024") None None None ]} ∅
    [(7, mk_prompt 100 7 1060); (8, mk_prompt 101 8 2000)] ∅ ∅ [] [false] 102 [].

Definition thursday : PyDate.date := PyDate.mkdate 2024 6 6.

(** A month in which both villages were visited, Rampur last. *)
Definition both_visited : list activity :=
  [mk_activity "04/06/2024" "Anandpur" "Gokul" seasonal;
   mk_activity "05/06/2024" "Anandpur" "Rampur" seasonal].

(** A day on leave, recorded through the manual village entry. *)
Definition leave_day : activity :=
  mk_activity "04/06/2024" "Anandpur" "Leave" "Casual leave".

Definition wednesday : PyDate.date := PyDate.mkdate 2024 6 5.
Definition saturday : PyDate.date := PyDate.mkdate 2024 6 8.
Definition sunday : PyDate.date := PyDate.mkdate 2024 6 9.

(** The world after a handler has run. *)
Definition run {A} (c : M A) (w : world) : world := (c w).2.

(** A user with headquarters and two villages, no activity yet. *)
Definition field_worker : user_doc :=
  mk_user 7 (Some "Anandpur") ["Gokul"; "Rampur"] (Legacy []) [] None None [].

(** [/editact <date>] followed by a press on the headquarters button of
    the prompt [prompt_id] that it sent. *)
Definition editact_and_press (date_text : string) (prompt_id : Z) (w : world)
  : world :=
  run (callback_query wednesday 1001
         (mk_callback 7 7 prompt_id 999 "village_Anandpur"))
    (run (edit_activity_command 1000
            (mk_message 7 7 ("/editact " +:+ date_text))) w).

(** Two users with villages and nothing recorded. *)
Definition worker_a : user_doc :=
  mk_user 1 (Some "Anandpur") ["Gokul"] (Legacy []) [] None None [].
Definition worker_b : user_doc :=
  mk_user 2 (Some "Rampur") ["Sonpur"] (Legacy []) [] None None [].

(** A document whose village names are stored in lower case, after a
    visit of Gokul was recorded through the village buttons, which show
    and store the title-cased name. *)
Definition gokul_on_the_4th : activity :=
  mk_activity "04/06/2024" "Anandpur" "Gokul" seasonal.

Definition lowercase_villages : user_doc :=
  mk_user 7 (Some "Anandpur") ["gokul"; "rampur"]
    (Nested (june_2024 [gokul_on_the_4th])) [] None None [].

(** A user who added a village and never set a headquarters: the document
    still holds the [None] that [/start] stored. *)
Definition no_headquarters : user_doc :=
  mk_user 9 None ["Gokul"] (Legacy []) [] None None [].

End Examples.

(** ** Definitions used to state the properties *)

Module Spec.
Import PyStr Model Flow Scheduler Supervisor Reports.

(** The calls of one pass of the timeout sweep, in order: for each expired
    entry the deletion of its message, then the notice. *)
Definition sweep_calls (now : Z) (items : list (Z * prompt)) : list api_call :=
  flat_map (fun item =>
              if expired now item.2
              then [delete_message (chat_id item.2) (message_id item.2);
                    send_message (chat_id item.2) timed_out_text []]
              else [])
    items.

(** The outcomes of the next [n] Bot API calls. *)
Fixpoint outcomes (n : nat) (net : list bool) : list bool :=
  match n with
  | O => []
  | S n' => hd true net :: outcomes n' (tl net)
  end.

(** The keys of the expired entries. *)
Definition expired_keys (now : Z) (items : list (Z * prompt)) : list Z :=
  map fst (List.filter (fun item => expired now item.2) items).

(** The chat a Bot API call is addressed to. *)
Definition chat_of (c : api_call) : Z :=
  match c with
  | send_message chat_ _ _ => chat_
  | reply_to chat_ _ => chat_
  | delete_message chat_ _ => chat_
  end.

(** A daily prompt that reached the chat [uid]. *)
Definition is_daily_prompt_to (uid : Z) (ev : api_call * bool) : bool :=
  match ev with
  | (send_message chat_ text_ _, true) =>
      (chat_ =? uid) && String.eqb text_ daily_prompt_text
  | _ => false
  end.

Definition prompts_delivered (uid : Z) (evs : list (api_call * bool)) : nat :=
  length (List.filter (is_daily_prompt_to uid) evs).

(** [m] is the most recently dated record of [acts]: no record is dated
    later, and the records that follow it in the list are dated earlier. *)
Definition most_recent (m : activity) (acts : list activity) : Prop :=
  exists dm l1 l2,
    acts = l1 ++ m :: l2 /\
    PyDate.strptime (date m) = Some dm /\
    (forall a d, a ∈ l1 -> PyDate.strptime (date a) = Some d -> date_leb d dm = true) /\
    (forall a d, a ∈ l2 -> PyDate.strptime (date a) = Some d -> date_leb dm d = false).

(** The latest entry of a list of dated records, the last one among those
    of the same day. *)
Fixpoint latest (l : list (PyDate.date * activity))
  : option (PyDate.date * activity) :=
  match l with
  | [] => None
  | x :: r =>
      match latest r with
      | None => Some x
      | Some m => if date_leb x.1 m.1 then Some m else Some x
      end
  end.

(** The counting rule in the words of the specification: a record is a
    tour day when its destination is non-empty and is not "leave". *)
Definition spec_tour_day (act : activity) : bool :=
  truthy (to_village act) && negb (String.eqb (lower (to_village act)) "leave").

Definition spec_tour_days (acts : list activity) : Z :=
  Z.of_nat (length (List.filter spec_tour_day acts)).

(** The last record of the list whose date parses to the day [day]. *)
Definition last_on_day (day : PyDate.date) (acts : list activity) : option activity :=
  last (List.filter (fun a => bool_decide (PyDate.strptime (date a) = Some day)) acts).

(** The number of records of a list that carry the date string [d]. *)
Definition same_date_count (d : string) (l : list activity) : nat :=
  length (List.filter (fun a => String.eqb (date a) d) l).

(** The month list after a save of [act]: the first record with the same
    date string is replaced, or the record is appended. *)
Definition replace_or_append (act : activity) (l : list activity) : list activity :=
  match existing_activity (date act) l with
  | Some i => <[i := act]> l
  | None => l ++ [act]
  end.

(** The nested mapping that a document holds once it is migrated. *)
Definition nested_of (a : activities_field)
  : gmap string (gmap string (list activity)) :=
  match a with
  | Legacy l => migrate_list l
  | Nested acts => acts
  end.

Definition is_delete (c : api_call) : bool :=
  match c with delete_message _ _ => true | _ => false end.

(** The records of a month of a document, none when the document is not
    migrated or has nothing for the month. *)
Definition month_records (user : user_doc) (y m : string) : list activity :=
  default [] (month_list (activities user) y m).




(** The character that [title] puts for [c] after a letter ([prev]) or
    after anything else. *)
Definition title_char (prev : bool) (c : ascii) : ascii :=
  if isalpha c then (if prev then to_lower c else to_upper c) else c.

End Spec.

(** ** Settings: headquarters, role, purposes and the village list *)

Module Settings.
Import PyStr Model Flow.
Local Open Scope py_scope.

Definition set_headquarters (hq : option string) (u : user_doc) : user_doc :=
  mk_user (user_id u) hq (villages u) (activities u) (custom_activities u)
    (role u) (default_purpose u) (public_holidays u).

Definition set_villages (vs : list string) (u : user_doc) : user_doc :=
  mk_user (user_id u) (headquarters u) vs (activities u) (custom_activities u)
    (role u) (default_purpose u) (public_holidays u).

Definition set_custom_activities (l : list string) (u : user_doc) : user_doc :=
  mk_user (user_id u) (headquarters u) (villages u) (activities u) l
    (role u) (default_purpose u) (public_holidays u).

Definition set_role (r : option string) (u : user_doc) : user_doc :=
  mk_user (user_id u) (headquarters u) (villages u) (activities u)
    (custom_activities u) r (default_purpose u) (public_holidays u).

Definition set_default_purpose (p : option string) (u : user_doc) : user_doc :=
  mk_user (user_id u) (headquarters u) (villages u) (activities u)
    (custom_activities u) (role u) p (public_holidays u).

(** [users_collection.update_one({'user_id': uid}, ..., upsert=True)] on
    the document of a known user. For an unknown user the upsert inserts
    a document that holds two keys only, which the record [user_doc] does
    not represent. *)
Definition update_known (uid : Z) (f : user_doc -> user_doc) : M unit :=
  w <- get ;;
  match find_one uid (users_collection w) with
  | None => raise OutOfModel
  | Some _ => modify (set_users (update_one uid f))
  end.

(** "Delete the original prompt message if present" *)
Definition delete_input_prompt (uid chat_ : Z) : M unit :=
  w <- get ;;
  match input_prompt_message w !! uid with
  | Some mid =>
      try_except (api (delete_message chat_ mid) ;;; ret tt) (ret tt) ;;;
      modify (set_input_prompt_message (delete uid))
  | None => ret tt
  end.

Definition settings_cancel_keyboard : keyboard :=
  [[("❌ Cancel", "settings_cancel")]].

Definition timeout_note (timeout : Z) : string :=
  nl +:+ nl +:+ "⚠️ You have " +:+ PyDate.str_int timeout
  +:+ " seconds to reply before the request times out.".

(** The four handlers of a text answer in the settings
    ([handle_settings_sethq], [handle_settings_setrole],
    [handle_settings_default_purpose], [handle_settings_add_activity])
    share their shape: a user marked as cancelled is unmarked and the
    message dropped; a blank answer is asked for again; any other answer
    is stored, the prompt deleted and the change confirmed. The store
    update cannot fail in the embedding, so the [except] branch of the
    update has no counterpart. *)
Definition settings_answer (timeout : Z) (msg : message) (value : string)
    (invalid confirmation : string) (store : user_doc -> user_doc) : M unit :=
  let uid := from_user msg in
  w <- get ;;
  if bool_decide (uid ∈ cancelled_users w)
  then modify (set_cancelled_users (fun s => s ∖ {[uid]}))
  else if negb (truthy value) then
    sent <- api (send_message (chat msg) (invalid +:+ timeout_note timeout)
                   settings_cancel_keyboard) ;;
    modify (set_input_prompt_message (insert uid sent))
  else
    update_known uid store ;;;
    delete_input_prompt uid (chat msg) ;;;
    api (send_message (chat msg) confirmation []) ;;;
    modify (set_pending_prompts (dict_del uid)).

(** [handle_settings_sethq(message, timeout)], for an ASCII answer: the
    title case of another text is not represented. *)
Definition handle_settings_sethq (timeout : Z) (msg : message) : M unit :=
  if is_ascii (text msg) then
    let headquarters_ := title (strip (text msg)) in
    settings_answer timeout msg headquarters_
      "❌ Please provide a valid headquarters name."
      ("✅ Headquarters set to: **" +:+ headquarters_ +:+ "**")
      (set_headquarters (Some headquarters_))
  else raise OutOfModel.

(** [handle_settings_setrole(message, timeout)] *)
Definition handle_settings_setrole (timeout : Z) (msg : message) : M unit :=
  let role_ := strip (text msg) in
  settings_answer timeout msg role_
    "❌ Please provide a valid role/designation."
    ("✅ Role set to: **" +:+ role_ +:+ "**")
    (set_role (Some role_)).

(** [handle_settings_default_purpose(message, timeout)];
    [DEFAULT_ACTIVITY_TIME] is the global of that name. *)
Definition handle_settings_default_purpose (DEFAULT_ACTIVITY_TIME : string)
    (timeout : Z) (msg : message) : M unit :=
  let purpose_ := strip (text msg) in
  settings_answer timeout msg purpose_
    "❌ Please provide a valid default purpose."
    ("✅ Default purpose set to: **" +:+ purpose_ +:+ "**" +:+ nl +:+ nl +:+
     "This purpose will be used for " +:+ DEFAULT_ACTIVITY_TIME +:+ " auto-entries.")
    (set_default_purpose (Some purpose_)).

(** [{'$addToSet': {'custom_activities': activity}}] *)
Definition add_to_set (x : string) (l : list string) : list string :=
  if bool_decide (x ∈ l) then l else l ++ [x].

(** [handle_settings_add_activity(message, timeout)] *)
Definition handle_settings_add_activity (timeout : Z) (msg : message) : M unit :=
  let activity_ := strip (text msg) in
  settings_answer timeout msg activity_
    "❌ Please provide a valid activity name."
    ("✅ Activity added: **" +:+ activity_ +:+ "**")
    (fun u => set_custom_activities (add_to_set activity_ (custom_activities u)) u).

(** *** Village names *)

Definition isalnum_char (c : ascii) : bool := isalpha c || isdigit c.

Fixpoint all_alnum (s : string) : bool :=
  match s with
  | EmptyString => true
  | String c r => isalnum_char c && all_alnum r
  end.

(** [s.isalnum()] *)
Definition isalnum (s : string) : bool := truthy s && all_alnum s.

(** The test of lines 266, 3540 and 3624 on an ASCII name: the name is
    not empty, is not a command, and holds letters, digits and spaces
    only. The handlers below apply it to ASCII names only and are
    [OutOfModel] on other text, whose letters [str.isalnum] knows and
    [isalnum] does not. *)
Definition valid_village_name (v : string) : bool :=
  truthy v && negb (startswith "/" v) && isalnum (remove_all " " v).

(** The state of the loop of [handle_file_upload] (lines 261-274). *)
Record upload_state := mk_upload {
  seen : list string;
  filtered_villages : list string;
  skipped : list string
}.

(** One ASCII cell of the village column; [v.casefold()] is [lower]
    there. *)
Definition upload_step (st : upload_state) (v : string) : upload_state :=
  let v_clean := title (strip v) in
  if negb (valid_village_name v_clean)
  then mk_upload (seen st) (filtered_villages st) (skipped st ++ [v_clean])
  else
    let v_key := lower v_clean in
    if bool_decide (v_key ∈ seen st) then st
    else mk_upload (set_add v_key (seen st)) (filtered_villages st ++ [v_clean])
           (skipped st).

Definition filter_upload (cells : list string) : upload_state :=
  fold_left upload_step cells (mk_upload [] [] []).

(** The village menu that [handle_file_upload] and
    [handle_settings_add_single_village] send, after the text [heading]. *)
Definition villages_text (villages_ : list string) : string :=
  match villages_ with
  | [] => "No villages added yet."
  | _ => join nl (numbered_lines 0 villages_)
  end.

Definition villages_keyboard (villages_ : list string) : keyboard :=
  [[("➕ Add Village", "settings_add_village")]]
  ++ match villages_ with
     | [] => []
     | _ => [[("🗑️ Remove Village", "settings_remove_village")]]
     end
  ++ [[("📁 Upload File (Replace All)", "settings_upload_villages")];
      [("❌ Cancel", "settings_cancel")]].

Definition villages_menu (uid chat_ : Z) (heading : string) : M unit :=
  w <- get ;;
  let villages_ :=
    match find_one uid (users_collection w) with
    | Some user => villages user
    | None => []
    end in
  api (send_message chat_
         (heading +:+ "🏘️ **Your Villages:**" +:+ nl +:+ nl +:+ villages_text villages_
          +:+ nl +:+ nl +:+ "You can add, remove, or upload a new list to replace all.")
         (villages_keyboard villages_)) ;;;
  ret tt.

(** [" and {len(l)-5} more..." if len(l) > 5 else ""] *)
Definition and_more (l : list string) : string :=
  if (5 <? length l)%nat
  then " and " +:+ PyDate.str_int (Z.of_nat (length l) - 5) +:+ " more..."
  else "".

Definition upload_reply (st : upload_state) : string :=
  "✅ Successfully added "
  +:+ PyDate.str_int (Z.of_nat (length (filtered_villages st))) +:+ " villages!"
  +:+ nl +:+ nl +:+ "**Villages added:** "
  +:+ join ", " (take 5 (filtered_villages st)) +:+ and_more (filtered_villages st)
  +:+ match skipped st with
      | [] => ""
      | _ => nl +:+ nl +:+ "⚠️ Skipped invalid names: "
             +:+ join ", " (take 5 (skipped st)) +:+ and_more (skipped st)
      end.

(** [handle_file_upload(message)] from line 261 on, for a known user and
    a column of ASCII cells: [cells] is
    [df[village_col].dropna().astype(str).tolist()] and [err] the text of
    the exception that the [except] clause reports. *)
Definition handle_file_upload (err : string) (msg : message) (cells : list string)
  : M unit :=
  let uid := from_user msg in
  w <- get ;;
  match find_one uid (users_collection w) with
  | None => raise OutOfModel
  | Some _ =>
      if negb (forallb is_ascii cells) then raise OutOfModel else
      try_except
        (let st := filter_upload cells in
         match filtered_villages st with
         | [] =>
             api (reply_to (chat msg) "❌ No valid villages found in the file.") ;;;
             ret tt
         | filtered =>
             modify (set_users (update_one uid (set_villages filtered))) ;;;
             api (reply_to (chat msg) (upload_reply st)) ;;;
             villages_menu uid (chat msg) ""
         end)
        (api (reply_to (chat msg) ("❌ Error processing file: " +:+ err)) ;;; ret tt)
  end.

(** [handle_settings_add_single_village(message)], for an ASCII answer. *)
Definition handle_settings_add_single_village (msg : message) : M unit :=
  let uid := from_user msg in
  let village := title (strip (text msg)) in
  if negb (is_ascii (text msg)) then raise OutOfModel
  else if negb (valid_village_name village) then
    api (send_message (chat msg)
           "❌ Invalid village name. Village names must be non-empty, not start with '/', and contain only letters, numbers, or spaces."
           []) ;;;
    delete_input_prompt uid (chat msg) ;;;
    villages_menu uid (chat msg) ""
  else
    update_known uid (fun u => set_villages (add_to_set village (villages u)) u) ;;;
    delete_input_prompt uid (chat msg) ;;;
    villages_menu uid (chat msg)
      ("✅ Village added: **" +:+ village +:+ "**" +:+ nl +:+ nl).

(** [clean_invalid_villages()]: the body of its loop, for a document
    whose village names are ASCII, and the loop over the cursor of all
    documents. *)
Definition clean_user (user : user_doc) : M unit :=
  let cleaned := List.filter valid_village_name (villages user) in
  if negb (forallb is_ascii (villages user)) then raise OutOfModel
  else if bool_decide (length cleaned = length (villages user)) then ret tt
  else modify (set_users (update_one (user_id user) (set_villages cleaned))).

Definition clean_invalid_villages : M unit :=
  w <- get ;;
  for_each (users_collection w) clean_user.

End Settings.

(** ** The list of recorded activities: deletion *)

Module History.
Import PyStr Model Flow Scheduler.
Local Open Scope py_scope.

(** [activities_callback], branch [confirm_delete_<year>_<month>_<index>]
    (lines 2088-2104), up to the store update: the month list is sorted
    by date, the record at [index] is taken out, and a month or year left
    empty is removed. The result is the deleted record, [None] for an
    index out of range. The refresh of the list and the answer to the
    callback that follow have no counterpart. *)
Definition confirm_delete (uid : Z) (year_ month_ : string) (index : Z)
  : M (option activity) :=
  w <- get ;;
  match find_one uid (users_collection w) with
  | None => raise AttributeError
  | Some user =>
      match activities user with
      | Legacy _ => raise AttributeError
      | Nested acts =>
          let month_activities := default [] (acts !! year_ ≫= (.!! month_)) in
          if (0 <=? index) && (index <? Z.of_nat (length month_activities)) then
            match _sort_activities_by_date month_activities with
            | None => raise ValueError
            | Some sorted_activities =>
                match sorted_activities !! Z.to_nat index with
                | None => raise IndexError
                | Some deleted_activity =>
                    let rest := delete (Z.to_nat index) sorted_activities in
                    let months := default ∅ (acts !! year_) in
                    let acts' :=
                      match rest with
                      | [] =>
                          let months' := delete month_ months in
                          if bool_decide (months' = ∅) then delete year_ acts
                          else <[year_ := months']> acts
                      | _ => <[year_ := <[month_ := rest]> months]> acts
                      end in
                    modify (set_users (update_one uid
                              (set_activities (Nested acts')))) ;;;
                    ret (Some deleted_activity)
                end
            end
          else ret None
      end
  end.

End History.

(** ** The [/td] sheet: the second Saturday *)

Module Sheet.
Import PyStr Model Flow Reports.

(** Lines 3408-3410: [saturdays] and [saturdays[1]]. *)
Definition td_saturdays (year_filter month_filter : Z) : list PyDate.date :=
  List.filter (fun d => PyDate.weekday d =? 5) (all_dates year_filter month_filter).

Definition td_second_saturday (year_filter month_filter : Z) : option PyDate.date :=
  td_saturdays year_filter month_filter !! 1%nat.

End Sheet.

(** ** Further definitions used to state the properties *)

Module Facts.
Import PyStr Model Flow Scheduler Supervisor Reports.

(** The record is filed under the year [y] and the month [m]: its date
    parses to them. *)
Definition filed_in (y m : string) (act : activity) : bool :=
  match PyDate.strptime (date act) with
  | Some dt =>
      bool_decide (PyDate.str_int (PyDate.year dt) = y)
      && bool_decide (PyDate.str_int (PyDate.month dt) = m)
  | None => false
  end.

(** A handler step that does not write to the store. *)
Definition keeps_users {A} (c : M A) : Prop :=
  forall w, users_collection (c w).2 = users_collection w.


(** An ASCII village name as the upload and the settings produce it:
    valid and in title case. *)
Definition normalised (v : string) : bool :=
  Settings.valid_village_name v && String.eqb (title v) v.

(** A village list whose names are normalised, hence ASCII, and distinct
    up to case. *)
Definition village_list_ok (l : list string) : Prop :=
  Forall (fun v => normalised v = true) l /\ NoDup (map lower l).

(** What [clean_invalid_villages] makes of a document. *)
Definition cleaned_doc (u : user_doc) : user_doc :=
  Settings.set_villages (List.filter Settings.valid_village_name (villages u)) u.

(** The dated records are in date order. *)
Fixpoint in_date_order (l : list (PyDate.date * activity)) : bool :=
  match l with
  | [] => true
  | x :: r => forallb (fun y => date_leb x.1 y.1) r && in_date_order r
  end.

(** The day [day] counts in the [/td] sheet built from [acts]. *)
Definition td_day_counts (acts : list activity) (day : PyDate.date) : bool :=
  match Spec.last_on_day day acts with
  | Some act => td_counts act
  | None => false
  end.

End Facts.

(** * Properties *)

Import PyStr Model Flow Scheduler Supervisor Reports Examples Spec.
Set Warnings "-clear-no-such-hyp".
Local Open Scope py_scope.

(** ** The store *)

Section StoreFacts.

Variable uid : Z.
Variable f : user_doc -> user_doc.
Hypothesis f_keeps_id : forall u, user_id (f u) = user_id u.

Lemma find_one_update_one (c : list user_doc) :
  find_one uid (update_one uid f c) = f <$> find_one uid c.
Proof.
  induction c as [|u c IH]; [reflexivity|].
  unfold find_one in *. simpl.
  destruct (Z.eqb_spec (user_id u) uid) as [E|E]; simpl.
  - rewrite f_keeps_id. apply Z.eqb_eq in E. now rewrite E.
  - apply Z.eqb_neq in E. now rewrite E.
Qed.

Lemma find_one_update_one_ne (uid' : Z) (c : list user_doc) :
  uid' <> uid -> find_one uid' (update_one uid f c) = find_one uid' c.
Proof.
  intros Hne. induction c as [|u c IH]; [reflexivity|].
  unfold find_one in *. simpl.
  destruct (Z.eqb_spec (user_id u) uid) as [E|E]; simpl.
  - rewrite f_keeps_id.
    destruct (Z.eqb_spec (user_id u) uid'); [congruence | reflexivity].
  - destruct (user_id u =? uid'); [reflexivity | apply IH].
Qed.

Lemma update_one_absent (c : list user_doc) :
  find_one uid c = None -> update_one uid f c = c.
Proof.
  induction c as [|u c IH]; [reflexivity|].
  unfold find_one in *. simpl.
  destruct (user_id u =? uid); [discriminate|].
  intros H. now rewrite IH.
Qed.

End StoreFacts.

Lemma set_activities_keeps_id (a : activities_field) (u : user_doc) :
  user_id (set_activities a u) = user_id u.
Proof. reflexivity. Qed.

(** What a migration leaves in the store. *)
Lemma migrate_result (uid : Z) (w : world) :
  migrate_activities_structure uid w =
  (Ok tt,
   match find_one uid (users_collection w) with
   | Some user =>
       match activities user with
       | Legacy acts =>
           set_users (update_one uid (set_activities (Nested (migrate_list acts)))) w
       | Nested _ => w
       end
   | None => w
   end).
Proof.
  unfold migrate_activities_structure, bind, get.
  destruct (find_one uid (users_collection w)) as [user|]; [|reflexivity].
  destruct (activities user); reflexivity.
Qed.

(** After a migration the document of the user, when there is one, holds
    the nested mapping. *)
Lemma migrate_nested (uid : Z) (w : world) (user : user_doc) :
  find_one uid (users_collection (migrate_activities_structure uid w).2) = Some user ->
  exists acts, activities user = Nested acts.
Proof.
  rewrite migrate_result. simpl.
  destruct (find_one uid (users_collection w)) as [u|] eqn:Hu; [|congruence].
  destruct (activities u) as [l|m] eqn:Ha.
  - simpl. rewrite find_one_update_one by apply set_activities_keeps_id.
    rewrite Hu. simpl. intros [= <-]. eauto.
  - rewrite Hu. intros [= <-]. eauto.
Qed.

(** C5: the legacy-to-nested migration is idempotent. A second run leaves
    the world of the first run as it is, and a run on a document that is
    already nested changes nothing. *)
Theorem migration_idempotent (uid : Z) (w : world) :
  let w1 := (migrate_activities_structure uid w).2 in
  migrate_activities_structure uid w1 = (Ok tt, w1) /\
  (forall user acts,
      find_one uid (users_collection w) = Some user ->
      activities user = Nested acts ->
      migrate_activities_structure uid w = (Ok tt, w)).
Proof.
  split.
  - rewrite (migrate_result uid (migrate_activities_structure uid w).2).
    destruct (find_one uid (users_collection (migrate_activities_structure uid w).2))
      as [user|] eqn:Hu; [|reflexivity].
    destruct (migrate_nested uid w user Hu) as [acts ->]. reflexivity.
  - intros user acts Hu Ha. rewrite migrate_result, Hu, Ha. reflexivity.
Qed.

Lemma migration_idempotent_witness :
  migrate_activities_structure 7 (world_of [nested_example])
  = (Ok tt, world_of [nested_example]).
Proof.
  apply (proj2 (migration_idempotent 7 (world_of [nested_example]))
           nested_example (june_2024 [gokul_visit]));
    reflexivity.
Defined.

(** ** [/start] and [/settings] *)

Lemma api_result (c : api_call) (w : world) :
  users_collection (api c w).2 = users_collection w /\
  callback_data (api c w).2 = callback_data w /\
  input_prompt_message (api c w).2 = input_prompt_message w /\
  pending_prompts (api c w).2 = pending_prompts w /\
  cancelled_users (api c w).2 = cancelled_users w /\
  daily_prompt_message_ids (api c w).2 = daily_prompt_message_ids w /\
  rng (api c w).2 = rng w /\
  network (api c w).2 = tl (network w) /\
  outbox (api c w).2 = outbox w ++ [(c, hd true (network w))].
Proof.
  unfold api. destruct (network w) as [|[] net]; simpl; repeat split; reflexivity.
Qed.

Lemma api_users (c : api_call) (w : world) :
  users_collection (api c w).2 = users_collection w.
Proof. apply api_result. Qed.

(** C10: [/start] and [/settings] leave the store as it is when a document
    of the user exists, and add the document with the empty defaults
    when there is none. *)
Theorem entry_points_keep_existing_document (msg : message) (w : world) :
  let uid := from_user msg in
  (forall user,
      find_one uid (users_collection w) = Some user ->
      users_collection (start_command msg w).2 = users_collection w /\
      users_collection (settings_command msg w).2 = users_collection w) /\
  (find_one uid (users_collection w) = None ->
      users_collection (start_command msg w).2
      = users_collection w ++ [fresh_user uid] /\
      users_collection (settings_command msg w).2
      = users_collection w ++ [fresh_user uid]) /\
  fresh_user uid = mk_user uid None [] (Legacy []) [] None None [].
Proof.
  assert (Hsend : forall c w0 (k : M unit),
             users_collection (bind (api c) (fun _ => k) w0).2
             = users_collection ((k (api c w0).2)).2
             \/ users_collection (bind (api c) (fun _ => k) w0).2
                = users_collection w0).
  { intros c w0 k. unfold bind. destruct (api c w0) as [[mid|e] w'] eqn:E.
    - left. reflexivity.
    - right. simpl. rewrite <- (api_users c w0), E. reflexivity. }
  assert (Hstart : forall w0,
             users_collection
               (bind (api (reply_to (chat msg) "🎉 Welcome to TD Bot!"))
                  (fun _ => ret tt) w0).2 = users_collection w0).
  { intros w0. destruct (Hsend (reply_to (chat msg) "🎉 Welcome to TD Bot!") w0 (ret tt))
      as [-> | ->]; [apply api_users | reflexivity]. }
  assert (Hsettings : forall user w0,
             users_collection
               (try_except
                  (bind (api (send_message (chat msg) (settings_text user)
                                settings_keyboard)) (fun _ => ret tt))
                  (bind (api (send_message (chat msg)
                                "❌ Error displaying settings. Please try again." []))
                     (fun _ => ret tt)) w0).2 = users_collection w0).
  { intros user w0. unfold try_except, bind, ret.
    destruct (api (send_message (chat msg) (settings_text user) settings_keyboard) w0)
      as [[mid|e] w'] eqn:E; simpl.
    - rewrite <- (api_users (send_message (chat msg) (settings_text user)
                               settings_keyboard) w0), E. reflexivity.
    - assert (Hw' : users_collection w' = users_collection w0).
      { rewrite <- (api_users (send_message (chat msg) (settings_text user)
                                 settings_keyboard) w0), E. reflexivity. }
      destruct (api (send_message (chat msg)
                       "❌ Error displaying settings. Please try again." []) w')
        as [[mid|e'] w''] eqn:E'; simpl;
        rewrite <- Hw',
          <- (api_users (send_message (chat msg)
                           "❌ Error displaying settings. Please try again." []) w'),
          E'; reflexivity. }
  simpl. split; [|split; [|reflexivity]].
  - intros user Hu. split.
    + unfold start_command. unfold bind at 1. unfold get at 1. rewrite Hu.
      unfold bind at 1. unfold ret at 1. apply Hstart.
    + unfold settings_command. unfold bind at 1. unfold get at 1. rewrite Hu.
      unfold bind at 1. unfold ret at 1. apply Hsettings.
  - intros Hu. split.
    + unfold start_command. unfold bind at 1. unfold get at 1. rewrite Hu.
      unfold bind at 1. unfold modify at 1. rewrite Hstart. reflexivity.
    + unfold settings_command. unfold bind at 1. unfold get at 1. rewrite Hu.
      unfold bind at 1. unfold bind at 1. unfold modify at 1. unfold ret at 1.
      rewrite Hsettings. reflexivity.
Qed.

Lemma entry_points_keep_existing_document_witness :
  users_collection
    (start_command (mk_message 7 7 "/start") (world_of [nested_example])).2
  = [nested_example] /\
  users_collection
    (settings_command (mk_message 8 8 "/settings") (world_of [nested_example])).2
  = [nested_example; fresh_user 8].
Proof.
  split.
  - apply (proj1 (entry_points_keep_existing_document
                    (mk_message 7 7 "/start") (world_of [nested_example]))
             nested_example).
    reflexivity.
  - apply (proj1 (proj2 (entry_points_keep_existing_document
                           (mk_message 8 8 "/settings") (world_of [nested_example])))).
    reflexivity.
Defined.

(** ** The timeout sweep *)

Lemma for_each_cons {A} (x : A) (r : list A) (body : A -> M unit) (w : world) :
  for_each (x :: r) body w =
  match body x w with
  | (Ok _, w') => for_each r body w'
  | (Raise e, w') => (Raise e, w')
  end.
Proof. reflexivity. Qed.

Lemma outcomes_add (n1 n2 : nat) (net : list bool) :
  outcomes (n1 + n2) net = outcomes n1 net ++ outcomes n2 (drop n1 net).
Proof.
  revert net. induction n1 as [|n1 IH]; intros net; [reflexivity|].
  simpl. rewrite IH. destruct net; simpl; [|reflexivity].
  now rewrite drop_nil.
Qed.

Lemma outcomes_length (n : nat) (net : list bool) : length (outcomes n net) = n.
Proof. revert net. induction n; intros; simpl; auto. Qed.

Lemma zip_outcomes_app (c1 c2 : list api_call) (net : list bool) :
  zip (c1 ++ c2) (outcomes (length (c1 ++ c2)) net)
  = zip c1 (outcomes (length c1) net)
    ++ zip c2 (outcomes (length c2) (drop (length c1) net)).
Proof.
  rewrite length_app, outcomes_add.
  revert net. induction c1 as [|c c1 IH]; intros net; [reflexivity|].
  simpl. f_equal. destruct net as [|b net]; simpl.
  - specialize (IH []). rewrite drop_nil in IH. exact IH.
  - apply IH.
Qed.

Lemma expire_prompt_result (uid : Z) (p : prompt) (w : world) :
  exists w',
    expire_prompt uid p w = (Ok tt, w') /\
    users_collection w' = users_collection w /\
    pending_prompts w' = pending_prompts w /\
    daily_prompt_message_ids w' = daily_prompt_message_ids w /\
    callback_data w' = delete uid (callback_data w) /\
    input_prompt_message w' = delete uid (input_prompt_message w) /\
    cancelled_users w' = {[uid]} ∪ cancelled_users w /\
    network w' = drop 2 (network w) /\
    outbox w' = outbox w ++
                zip [delete_message (chat_id p) (message_id p);
                     send_message (chat_id p) timed_out_text []]
                  (outcomes 2 (network w)).
Proof.
  unfold expire_prompt, try_except, bind, api, modify, ret.
  destruct (network w) as [|[] [|[] net]]; simpl;
    eexists; (split; [reflexivity|]); simpl;
    rewrite <- ?app_assoc; repeat split; reflexivity.
Qed.

(** The first loop of the sweep. *)
Lemma sweep_loop (now : Z) (items : list (Z * prompt)) (w : world) :
  exists w',
    for_each items
      (fun item => if expired now item.2 then expire_prompt item.1 item.2 else ret tt) w
    = (Ok tt, w') /\
    users_collection w' = users_collection w /\
    pending_prompts w' = pending_prompts w /\
    daily_prompt_message_ids w' = daily_prompt_message_ids w /\
    (forall uid, callback_data w' !! uid =
                 if bool_decide (uid ∈ expired_keys now items) then None
                 else callback_data w !! uid) /\
    (forall uid, input_prompt_message w' !! uid =
                 if bool_decide (uid ∈ expired_keys now items) then None
                 else input_prompt_message w !! uid) /\
    cancelled_users w' = list_to_set (expired_keys now items) ∪ cancelled_users w /\
    outbox w' = outbox w ++
                zip (sweep_calls now items)
                  (outcomes (length (sweep_calls now items)) (network w)).
Proof.
  revert w. induction items as [|[uid p] items IH]; intros w.
  - exists w. simpl. rewrite app_nil_r. repeat split; try reflexivity.
    set_solver.
  - rewrite for_each_cons. unfold expired_keys, sweep_calls. simpl.
    destruct (expired now p) eqn:Hexp.
    + destruct (expire_prompt_result uid p w)
        as (w1 & -> & Hu1 & Hp1 & Hd1 & Hc1 & Hi1 & Hs1 & Hn1 & Ho1).
      destruct (IH w1) as (w' & -> & Hu & Hp & Hd & Hc & Hi & Hs & Ho).
      exists w'. split; [reflexivity|].
      split; [congruence|]. split; [congruence|]. split; [congruence|].
      split; [|split; [|split]].
      * intros k. rewrite Hc, Hc1. simpl.
        fold (expired_keys now items).
        destruct (decide (k = uid)) as [->|Hne].
        -- rewrite lookup_delete_eq.
           rewrite (bool_decide_eq_true_2 (uid ∈ uid :: expired_keys now items))
             by set_solver.
           now destruct (bool_decide _).
        -- rewrite lookup_delete_ne by congruence.
           apply (f_equal (fun b : bool => if b then None else callback_data w !! k)).
           apply bool_decide_ext. set_solver.
      * intros k. rewrite Hi, Hi1. simpl.
        fold (expired_keys now items).
        destruct (decide (k = uid)) as [->|Hne].
        -- rewrite lookup_delete_eq.
           rewrite (bool_decide_eq_true_2 (uid ∈ uid :: expired_keys now items))
             by set_solver.
           now destruct (bool_decide _).
        -- rewrite lookup_delete_ne by congruence.
           apply (f_equal (fun b : bool => if b then None else input_prompt_message w !! k)).
           apply bool_decide_ext. set_solver.
      * rewrite Hs, Hs1. simpl. fold (expired_keys now items). set_solver.
      * rewrite Ho, Ho1, Hn1. fold (sweep_calls now items).
        rewrite <- app_assoc. f_equal.
        change (delete_message (chat_id p) (message_id p)
                :: send_message (chat_id p) timed_out_text []
                :: sweep_calls now items)
          with ([delete_message (chat_id p) (message_id p);
                 send_message (chat_id p) timed_out_text []]
                ++ sweep_calls now items).
        rewrite zip_outcomes_app. reflexivity.
    + unfold ret at 1. apply IH.
Qed.

(** Dict facts. *)
Lemma dict_get_Some_elem {V} (k : Z) (v : V) (d : list (Z * V)) :
  dict_get k d = Some v -> (k, v) ∈ d.
Proof.
  induction d as [|[k' v'] d IH]; simpl; [discriminate|].
  case_bool_decide; [intros [= ->]; subst; left | intros; right; auto].
Qed.

Lemma dict_get_elem {V} (k : Z) (v : V) (d : list (Z * V)) :
  NoDup (map fst d) -> (k, v) ∈ d -> dict_get k d = Some v.
Proof.
  induction d as [|[k' v'] d IH]; simpl; intros Hnd Hin.
  - inversion Hin.
  - apply NoDup_cons in Hnd as [Hk Hnd].
    apply elem_of_cons in Hin as [[= <- <-]|Hin].
    + now rewrite bool_decide_eq_true_2.
    + case_bool_decide; [|auto]. subst. exfalso. apply Hk.
      apply list_elem_of_fmap. exists (k, v). auto.
Qed.

Lemma dict_del_filter {V} (k : Z) (d : list (Z * V)) :
  NoDup (map fst d) ->
  dict_del k d = List.filter (fun item => negb (bool_decide (item.1 = k))) d.
Proof.
  induction d as [|[k' v'] d IH]; simpl; intros Hnd; [reflexivity|].
  apply NoDup_cons in Hnd as [Hk Hnd].
  case_bool_decide; simpl.
  - subst. symmetry. apply forallb_filter_id. apply forallb_forall.
    intros [k2 v2] Hin. simpl. apply negb_true_iff, bool_decide_eq_false.
    intros ->. apply Hk. apply list_elem_of_fmap. exists (k, v2).
    split; [reflexivity | now apply list_elem_of_In].
  - now rewrite IH.
Qed.

Lemma filter_keys_NoDup {V} (P : Z * V -> bool) (d : list (Z * V)) :
  NoDup (map fst d) -> NoDup (map fst (List.filter P d)).
Proof.
  induction d as [|[k v] d IH]; simpl; intros Hnd; [constructor|].
  apply NoDup_cons in Hnd as [Hk Hnd].
  destruct (P (k, v)); simpl; [|auto].
  apply NoDup_cons. split; [|auto].
  intros Hin. apply Hk. apply list_elem_of_fmap in Hin as ([k' v'] & -> & Hin).
  apply list_elem_of_In, filter_In in Hin as [Hin _].
  apply list_elem_of_fmap. exists (k', v'). split; [reflexivity | now apply list_elem_of_In].
Qed.

(** The second loop of the sweep. *)
Lemma del_loop (keys : list Z) (w : world) :
  NoDup (map fst (pending_prompts w)) ->
  (forall k, k ∈ keys -> is_Some (dict_get k (pending_prompts w))) ->
  NoDup keys ->
  exists w',
    for_each keys del_pending_prompt w = (Ok tt, w') /\
    users_collection w' = users_collection w /\
    callback_data w' = callback_data w /\
    input_prompt_message w' = input_prompt_message w /\
    cancelled_users w' = cancelled_users w /\
    daily_prompt_message_ids w' = daily_prompt_message_ids w /\
    outbox w' = outbox w /\
    pending_prompts w' =
      List.filter (fun item => negb (bool_decide (item.1 ∈ keys))) (pending_prompts w).
Proof.
  revert w. induction keys as [|k keys IH]; intros w Hnd Hin Hks.
  - exists w. simpl. repeat split; try reflexivity.
    symmetry. apply forallb_filter_id, forallb_forall. intros item _.
    reflexivity.
  - rewrite for_each_cons. unfold del_pending_prompt at 1, bind, get.
    destruct (Hin k) as [p Hp]; [set_solver|]. rewrite Hp. unfold modify.
    apply NoDup_cons in Hks as [Hk Hks].
    set (w1 := set_pending_prompts (dict_del k) w).
    assert (Hp1 : pending_prompts w1
                  = List.filter (fun item => negb (bool_decide (item.1 = k)))
                      (pending_prompts w))
      by (apply dict_del_filter, Hnd).
    destruct (IH w1) as (w' & -> & Hu & Hc & Hi & Hs & Hd & Ho & Hpp).
    + rewrite Hp1. now apply filter_keys_NoDup.
    + intros k' Hk'. destruct (Hin k') as [p' Hp']; [set_solver|].
      exists p'. apply dict_get_elem.
      * rewrite Hp1. now apply filter_keys_NoDup.
      * rewrite Hp1. apply list_elem_of_In, filter_In. split.
        -- apply list_elem_of_In. now apply dict_get_Some_elem.
        -- simpl. apply negb_true_iff, bool_decide_eq_false. intros ->. tauto.
    + exact Hks.
    + exists w'. split; [reflexivity|]. repeat split; try assumption.
      rewrite Hpp, Hp1. clear.
      induction (pending_prompts w) as [|item d IHd]; simpl; [reflexivity|].
      destruct (decide (item.1 = k)) as [E|E].
      * rewrite (bool_decide_eq_true_2 _ E). simpl.
        rewrite (bool_decide_eq_true_2 (item.1 ∈ k :: keys)) by (rewrite E; set_solver).
        simpl. exact IHd.
      * rewrite (bool_decide_eq_false_2 _ E). simpl.
        rewrite IHd.
        replace (bool_decide (item.1 ∈ k :: keys)) with (bool_decide (item.1 ∈ keys))
          by (apply bool_decide_ext; set_solver).
        reflexivity.
Qed.

Lemma expired_keys_spec (now : Z) (items : list (Z * prompt)) (item : Z * prompt) :
  NoDup (map fst items) -> item ∈ items ->
  (item.1 ∈ expired_keys now items <-> expired now item.2 = true).
Proof.
  intros Hnd Hin. unfold expired_keys. split.
  - intros Hk. apply list_elem_of_fmap in Hk as ([k p] & Hk & Hf).
    apply list_elem_of_In, filter_In in Hf as [Hf Hexp]. simpl in *.
    destruct item as [k' p']. simpl in *. subst k'.
    assert (Some p' = Some p) as [= ->]; [|exact Hexp].
    rewrite <- (dict_get_elem k p' items Hnd Hin).
    apply dict_get_elem; [exact Hnd | now apply list_elem_of_In].
  - intros Hexp. apply list_elem_of_fmap. exists item. split; [reflexivity|].
    apply list_elem_of_In, filter_In. split; [now apply list_elem_of_In | exact Hexp].
Qed.



(** ** The daily prompt *)

Ltac proj_simpl :=
  cbn [users_collection callback_data input_prompt_message pending_prompts
       cancelled_users daily_prompt_message_ids outbox network next_message_id
       rng fst snd andb is_send hd tl].

Lemma migrate_frame (uid : Z) (w : world) :
  exists w',
    migrate_activities_structure uid w = (Ok tt, w') /\
    callback_data w' = callback_data w /\
    input_prompt_message w' = input_prompt_message w /\
    pending_prompts w' = pending_prompts w /\
    cancelled_users w' = cancelled_users w /\
    daily_prompt_message_ids w' = daily_prompt_message_ids w /\
    outbox w' = outbox w /\
    network w' = network w /\
    next_message_id w' = next_message_id w /\
    rng w' = rng w /\
    (forall k, k <> uid ->
               find_one k (users_collection w') = find_one k (users_collection w)).
Proof.
  rewrite migrate_result. eexists. split; [reflexivity|].
  destruct (find_one uid (users_collection w)) as [u|];
    [destruct (activities u)|]; simpl; repeat split; try reflexivity.
  intros k Hk. now apply find_one_update_one_ne.
Qed.

Lemma random_choice_frame {A} (l : list A) (w : world) :
  exists r w',
    random_choice l w = (r, w') /\
    users_collection w' = users_collection w /\
    daily_prompt_message_ids w' = daily_prompt_message_ids w /\
    outbox w' = outbox w /\
    network w' = network w /\
    next_message_id w' = next_message_id w.
Proof.
  unfold random_choice. destruct (choice_at _ l); eexists _, _;
    (split; [reflexivity|]); simpl; repeat split; reflexivity.
Qed.

(** One step of the loop of [daily_prompt]: at most one call, addressed to
    the user of the document; when it goes through, the message and the
    day are recorded. *)
Lemma daily_prompt_step (now : PyDate.date) (user : user_doc) (w : world) :
  let uid := user_id user in
  let today := PyDate.strftime_ymd now in
  exists w',
    try_except (daily_prompt_user now user) (ret tt) w = (Ok tt, w') /\
    (forall k, k <> uid ->
               find_one k (users_collection w') = find_one k (users_collection w)) /\
    (already_prompted w uid today = true -> w' = w) /\
    ((outbox w' = outbox w /\
      daily_prompt_message_ids w' = daily_prompt_message_ids w)
     \/ (already_prompted w uid today = false /\
         exists kb ok mid,
            outbox w' = outbox w ++ [(send_message uid daily_prompt_text kb, ok)] /\
            daily_prompt_message_ids w'
            = if ok then <[uid := MsgDict mid today]> (daily_prompt_message_ids w)
              else daily_prompt_message_ids w)).
Proof.
  intros uid today. unfold daily_prompt_user, try_except.
  fold uid. fold today. unfold bind at 1. unfold get at 1.
  destruct (already_prompted w uid today) eqn:Hap.
  { exists w. unfold ret. repeat split; auto. }
  destruct (bool_decide (is_Some (user_holiday (public_holidays user) now))).
  { exists w. unfold ret. repeat split; auto. }
  unfold bind at 1.
  destruct (migrate_frame uid w)
    as (wm & -> & Hcb & Hip & Hpp & Hcu & Hid & Hob & Hnet & Hnm & Hrng & Hfind).
  destruct (has_activity user now).
  { exists wm. unfold ret. repeat split; auto; try discriminate;
      try (left; split; congruence). }
  unfold bind at 1.
  assert (Hpurpose : exists r wr,
             (if falsy_opt (default_purpose user)
              then bind (random_choice (month_activities_or_default (PyDate.month now)))
                     (fun _ => ret tt)
              else ret tt) wm = (r, wr) /\
             users_collection wr = users_collection wm /\
             daily_prompt_message_ids wr = daily_prompt_message_ids wm /\
             outbox wr = outbox wm /\
             network wr = network wm /\
             next_message_id wr = next_message_id wm).
  { destruct (falsy_opt (default_purpose user)).
    - unfold bind.
      destruct (random_choice_frame (month_activities_or_default (PyDate.month now)) wm)
        as (r & wr & -> & H).
      destruct r; eexists _, wr; (split; [reflexivity | exact H]).
    - exists (Ok tt), wm. repeat split; reflexivity. }
  destruct Hpurpose as (r & wr & -> & Hru & Hrid & Hrob & Hrnet & Hrnm).
  assert (Hfind' : forall k, k <> uid ->
             find_one k (users_collection wr) = find_one k (users_collection w))
    by (intros k Hk; rewrite Hru; auto).
  destruct r as [[]|e].
  2:{ exists wr. repeat split; auto; try discriminate;
      try (left; split; congruence). }
  destruct (headquarters user) as [hq|].
  2:{ exists wr. unfold raise. repeat split; auto; try discriminate;
      try (left; split; congruence). }
  unfold bind, api, modify, set_daily_prompt_message_ids.
  destruct (network wr) as [|[] net]; proj_simpl;
    eexists; (split; [reflexivity|]); proj_simpl;
    (split; [exact Hfind'|]); (split; [discriminate|]).
  - right. split; [reflexivity|].
    eexists _, true, _. split; [|rewrite Hrid, Hid; reflexivity].
    now rewrite Hrob, Hob.
  - right. split; [reflexivity|].
    eexists _, true, _. split; [|rewrite Hrid, Hid; reflexivity].
    now rewrite Hrob, Hob.
  - right. split; [reflexivity|].
    eexists _, false, 0. split; [|congruence]. now rewrite Hrob, Hob.
Qed.

Lemma already_prompted_lookup (w w' : world) (k : Z) (today : string) :
  daily_prompt_message_ids w' !! k = daily_prompt_message_ids w !! k ->
  already_prompted w' k today = already_prompted w k today.
Proof. unfold already_prompted. now intros ->. Qed.

Lemma prompts_delivered_app (k : Z) (l1 l2 : list (api_call * bool)) :
  prompts_delivered k (l1 ++ l2)
  = (prompts_delivered k l1 + prompts_delivered k l2)%nat.
Proof. unfold prompts_delivered. now rewrite List.filter_app, length_app. Qed.

Lemma prompts_delivered_none (k : Z) (evs : list (api_call * bool)) :
  Forall (fun ev => chat_of ev.1 <> k) evs -> prompts_delivered k evs = 0%nat.
Proof.
  unfold prompts_delivered. induction 1 as [|[c ok] evs Hc _ IH]; [reflexivity|].
  simpl in *. destruct c as [chat_ text_ kb| |]; try exact IH.
  destruct ok; [|exact IH].
  apply Z.eqb_neq in Hc. replace (chat_ =? k) with false. exact IH.
Qed.

(** The loop of [daily_prompt] over any list of documents. *)
Lemma daily_prompt_loop (now : PyDate.date) (users : list user_doc) (w : world) :
  let today := PyDate.strftime_ymd now in
  exists w' evs,
    for_each users
      (fun user => try_except (daily_prompt_user now user) (ret tt)) w = (Ok tt, w') /\
    outbox w' = outbox w ++ evs /\
    (forall k,
        already_prompted w k today = true ->
        already_prompted w' k today = true /\
        daily_prompt_message_ids w' !! k = daily_prompt_message_ids w !! k /\
        Forall (fun ev => chat_of ev.1 <> k) evs /\
        find_one k (users_collection w') = find_one k (users_collection w)) /\
    (forall k,
        (prompts_delivered k evs <= 1)%nat /\
        ((1 <= prompts_delivered k evs)%nat -> already_prompted w' k today = true)).
Proof.
  intros today. revert w. induction users as [|user users IH]; intros w.
  { exists w, []. rewrite app_nil_r. repeat split; auto;
      unfold prompts_delivered; simpl; first [lia | intros; lia]. }
  rewrite for_each_cons.
  destruct (daily_prompt_step now user w) as (w1 & -> & Hfind & Hsame & Hev).
  fold today in Hsame, Hev.
  destruct (IH w1) as (w' & evs' & -> & Hout & Hkeep & Hcount).
  assert (Hstep : exists evs1,
             outbox w1 = outbox w ++ evs1 /\
             (forall k, already_prompted w k today = true ->
                        already_prompted w1 k today = true /\
                        daily_prompt_message_ids w1 !! k
                        = daily_prompt_message_ids w !! k /\
                        Forall (fun ev => chat_of ev.1 <> k) evs1 /\
                        find_one k (users_collection w1)
                        = find_one k (users_collection w)) /\
             (forall k, (prompts_delivered k evs1 <= 1)%nat /\
                        ((1 <= prompts_delivered k evs1)%nat ->
                         already_prompted w1 k today = true))).
  { destruct Hev as [[Ho Hi] | (Hap & kb & ok & mid & Ho & Hi)].
    - exists []. rewrite app_nil_r. split; [exact Ho|]. split.
      + intros k Hk.
        assert (Hl : daily_prompt_message_ids w1 !! k = daily_prompt_message_ids w !! k)
          by now rewrite Hi.
        rewrite (already_prompted_lookup _ _ _ _ Hl).
        repeat split; auto.
        destruct (decide (k = user_id user)) as [->|Hne]; [|auto].
        now rewrite (Hsame Hk).
      + intros k. unfold prompts_delivered. simpl. split; [lia|]. intros; lia.
    - exists [(send_message (user_id user) daily_prompt_text kb, ok)].
      split; [exact Ho|]. split.
      + intros k Hk.
        assert (Hne : k <> user_id user) by (intros ->; congruence).
        assert (Hl : daily_prompt_message_ids w1 !! k = daily_prompt_message_ids w !! k).
        { rewrite Hi. destruct ok; [|reflexivity]. now rewrite lookup_insert_ne. }
        rewrite (already_prompted_lookup _ _ _ _ Hl).
        repeat split; auto;
          try (constructor; [simpl; congruence | constructor]).
      + intros k. unfold prompts_delivered. cbn [List.filter is_daily_prompt_to].
        destruct ok; [|simpl; split; [lia | intros; lia]].
        rewrite String.eqb_refl, andb_true_r.
        destruct (Z.eqb_spec (user_id user) k) as [<-|Hne]; simpl.
        * split; [lia|]. intros _.
          unfold already_prompted. rewrite Hi, lookup_insert_eq.
          apply String.eqb_refl.
        * split; [lia | intros; lia]. }
  destruct Hstep as (evs1 & Ho1 & Hkeep1 & Hcount1).
  exists w', (evs1 ++ evs'). split; [reflexivity|].
  split; [rewrite Hout, Ho1; now rewrite app_assoc|]. split.
  - intros k Hk. destruct (Hkeep1 k Hk) as (Hk1 & Hl1 & Hf1 & Hu1).
    destruct (Hkeep k Hk1) as (Hk2 & Hl2 & Hf2 & Hu2).
    repeat split; [exact Hk2 | congruence | now apply Forall_app | congruence].
  - intros k. rewrite prompts_delivered_app.
    destruct (Hcount1 k) as [Hle1 Hrec1]. destruct (Hcount k) as [Hle Hrec].
    destruct (prompts_delivered k evs1) as [|[|n]] eqn:E1; [| |lia].
    + simpl. split; [exact Hle | exact Hrec].
    + destruct (Hkeep k (Hrec1 (le_n 1))) as (Hk2 & _ & Hf2 & _).
      rewrite (prompts_delivered_none k evs' Hf2). split; [lia | auto].
Qed.

(** One run of the trigger. *)
Lemma daily_prompt_run (now : PyDate.date) (w : world) :
  let today := PyDate.strftime_ymd now in
  exists w' evs,
    daily_prompt now w = (Ok tt, w') /\
    outbox w' = outbox w ++ evs /\
    (forall k,
        already_prompted w k today = true ->
        already_prompted w' k today = true /\
        daily_prompt_message_ids w' !! k = daily_prompt_message_ids w !! k /\
        Forall (fun ev => chat_of ev.1 <> k) evs /\
        find_one k (users_collection w') = find_one k (users_collection w)) /\
    (forall k,
        (prompts_delivered k evs <= 1)%nat /\
        ((1 <= prompts_delivered k evs)%nat -> already_prompted w' k today = true)).
Proof.
  intros today. unfold daily_prompt.
  assert (Hskip : exists w' evs,
             ret tt w = (Ok tt, w') /\
             outbox w' = outbox w ++ evs /\
             (forall k,
                 already_prompted w k today = true ->
                 already_prompted w' k today = true /\
                 daily_prompt_message_ids w' !! k = daily_prompt_message_ids w !! k /\
                 Forall (fun ev => chat_of ev.1 <> k) evs /\
                 find_one k (users_collection w') = find_one k (users_collection w)) /\
             (forall k,
                 (prompts_delivered k evs <= 1)%nat /\
                 ((1 <= prompts_delivered k evs)%nat ->
                  already_prompted w' k today = true))).
  { exists w, []. rewrite app_nil_r. repeat split; auto;
      unfold prompts_delivered; simpl; first [lia | intros; lia]. }
  destruct (is_sunday now); [exact Hskip|].
  destruct (is_second_saturday now); [exact Hskip|].
  unfold bind, get. apply daily_prompt_loop.
Qed.

(** C6: two runs of the daily prompt trigger on the same day. Both return
    normally. Over the two runs at most one prompt reaches any given user;
    a prompt that reached the user in the first run is recorded with the
    day, and for a user so recorded the second run makes no call to that
    chat and leaves the record and the stored document as they are. *)
Theorem daily_prompt_once (now : PyDate.date) (w : world) (uid : Z) :
  let today := PyDate.strftime_ymd now in
  let w1 := (daily_prompt now w).2 in
  let w2 := (daily_prompt now w1).2 in
  (daily_prompt now w).1 = Ok tt /\
  (daily_prompt now w1).1 = Ok tt /\
  exists evs1 evs2,
    outbox w1 = outbox w ++ evs1 /\
    outbox w2 = outbox w1 ++ evs2 /\
    (prompts_delivered uid (evs1 ++ evs2) <= 1)%nat /\
    ((1 <= prompts_delivered uid evs1)%nat ->
     already_prompted w1 uid today = true) /\
    (already_prompted w1 uid today = true ->
     Forall (fun ev => chat_of ev.1 <> uid) evs2 /\
     daily_prompt_message_ids w2 !! uid = daily_prompt_message_ids w1 !! uid /\
     find_one uid (users_collection w2) = find_one uid (users_collection w1)).
Proof.
  cbv zeta.
  destruct (daily_prompt_run now w) as (w1 & evs1 & E1 & Ho1 & Hkeep1 & Hcount1).
  rewrite E1. cbn [fst snd].
  destruct (daily_prompt_run now w1) as (w2 & evs2 & E2 & Ho2 & Hkeep2 & Hcount2).
  rewrite E2. cbn [fst snd].
  split; [reflexivity|]. split; [reflexivity|].
  exists evs1, evs2. split; [exact Ho1|]. split; [exact Ho2|].
  destruct (Hcount1 uid) as [Hle1 Hrec1]. destruct (Hcount2 uid) as [Hle2 _].
  split; [|split].
  - rewrite prompts_delivered_app.
    destruct (prompts_delivered uid evs1) as [|[|n]] eqn:E; [lia| |lia].
    destruct (Hkeep2 uid (Hrec1 (le_n 1))) as (_ & _ & Hf & _).
    rewrite (prompts_delivered_none uid evs2 Hf). lia.
  - exact Hrec1.
  - intros Hap. destruct (Hkeep2 uid Hap) as (_ & Hl & Hf & Hu). auto.
Qed.

Lemma daily_prompt_once_witness :
  already_prompted (daily_prompt thursday (world_of [nested_example])).2 7
    "2024-06-06" = true /\
  daily_prompt_message_ids
    (daily_prompt thursday (daily_prompt thursday (world_of [nested_example])).2).2 !! 7
  = daily_prompt_message_ids (daily_prompt thursday (world_of [nested_example])).2 !! 7.
Proof.
  destruct (daily_prompt_once thursday (world_of [nested_example]) 7)
    as (_ & _ & evs1 & evs2 & _ & _ & _ & _ & H).
  assert (Hap : already_prompted
                  (daily_prompt thursday (world_of [nested_example])).2 7
                  "2024-06-06" = true) by (vm_compute; reflexivity).
  destruct (H Hap) as (_ & Hl & _). split; [exact Hap | exact Hl].
Defined.

(** ** The village rotation of the fallback *)

Lemma date_leb_spec (a b : PyDate.date) :
  date_leb a b = true <->
  PyDate.year a < PyDate.year b \/
  (PyDate.year a = PyDate.year b /\
   (PyDate.month a < PyDate.month b \/
    (PyDate.month a = PyDate.month b /\ PyDate.day a <= PyDate.day b))).
Proof.
  unfold date_leb.
  rewrite !orb_true_iff, !andb_true_iff, !orb_true_iff, !andb_true_iff,
    !Z.ltb_lt, !Z.eqb_eq, Z.leb_le.
  tauto.
Qed.

Lemma date_leb_total (a b : PyDate.date) :
  date_leb a b = false -> date_leb b a = true.
Proof.
  intros H. apply date_leb_spec.
  assert (Hn : ~ date_leb a b = true) by congruence.
  rewrite date_leb_spec in Hn. lia.
Qed.

Lemma date_leb_trans (a b c : PyDate.date) :
  date_leb a b = true -> date_leb b c = true -> date_leb a c = true.
Proof. rewrite !date_leb_spec. lia. Qed.

Lemma insert_by_date_elem (x y : PyDate.date * activity)
    (l : list (PyDate.date * activity)) :
  y ∈ insert_by_date x l <-> y = x \/ y ∈ l.
Proof.
  induction l as [|z l IH]; simpl.
  - set_solver.
  - destruct (date_leb x.1 z.1); [set_solver|].
    rewrite !elem_of_cons, IH. tauto.
Qed.

Lemma sorted_elem (y : PyDate.date * activity) (l : list (PyDate.date * activity)) :
  y ∈ fold_right insert_by_date [] l <-> y ∈ l.
Proof.
  induction l as [|x l IH]; simpl; [reflexivity|].
  rewrite insert_by_date_elem, IH. set_solver.
Qed.

Lemma last_insert_by_date (x : PyDate.date * activity)
    (l : list (PyDate.date * activity)) :
  last (insert_by_date x l)
  = if forallb (fun y => negb (date_leb x.1 y.1)) l then Some x else last l.
Proof.
  induction l as [|z l IH]; simpl; [reflexivity|].
  destruct (date_leb x.1 z.1) eqn:E; simpl.
  - destruct l; reflexivity.
  - rewrite !last_cons, IH.
    destruct (forallb _ l); reflexivity.
Qed.

Lemma latest_elem (l : list (PyDate.date * activity)) (m : PyDate.date * activity) :
  latest l = Some m -> m ∈ l.
Proof.
  revert m. induction l as [|x l IH]; simpl; intros m; [discriminate|].
  destruct (latest l) as [m'|].
  - destruct (date_leb x.1 m'.1); intros [= <-]; [right; auto | left].
  - intros [= <-]. left.
Qed.

Lemma latest_max (l : list (PyDate.date * activity)) (m : PyDate.date * activity) :
  latest l = Some m -> forall y, y ∈ l -> date_leb y.1 m.1 = true.
Proof.
  revert m. induction l as [|x l IH]; simpl; intros m; [discriminate|].
  destruct (latest l) as [m'|] eqn:El.
  - destruct (date_leb x.1 m'.1) eqn:E; intros [= <-] y Hy;
      apply elem_of_cons in Hy as [->|Hy]; auto.
    + apply date_leb_spec. lia.
    + apply date_leb_trans with m'.1; [auto | now apply date_leb_total].
  - intros [= <-] y Hy. destruct l; [|simpl in El; destruct (latest l); [destruct (date_leb _ _)|]; discriminate].
    apply list_elem_of_singleton in Hy as ->. apply date_leb_spec. lia.
Qed.

Lemma latest_None (l : list (PyDate.date * activity)) : latest l = None -> l = [].
Proof.
  destruct l as [|x l]; simpl; [reflexivity|].
  destruct (latest l); [destruct (date_leb _ _)|]; discriminate.
Qed.

(** The last record of the stable sort is the latest one. *)
Lemma last_sorted (l : list (PyDate.date * activity)) :
  last (fold_right insert_by_date [] l) = latest l.
Proof.
  induction l as [|x l IH]; simpl; [reflexivity|].
  rewrite last_insert_by_date, IH.
  destruct (latest l) as [m|] eqn:El.
  - destruct (date_leb x.1 m.1) eqn:E.
    + replace (forallb _ _) with false; [reflexivity|].
      symmetry. apply not_true_is_false. intros Hall.
      rewrite forallb_forall in Hall.
      assert (Hm : m ∈ fold_right insert_by_date [] l)
        by (apply sorted_elem; now apply latest_elem).
      apply list_elem_of_In in Hm. specialize (Hall m Hm). rewrite E in Hall.
      discriminate.
    + replace (forallb _ _) with true; [reflexivity|].
      symmetry. apply forallb_forall. intros y Hy.
      apply list_elem_of_In in Hy. apply (proj1 (sorted_elem _ _)) in Hy.
      apply negb_true_iff. apply not_true_is_false. intros Hxy.
      pose proof (latest_max l m El y Hy) as Hym.
      rewrite (date_leb_trans _ _ _ Hxy Hym) in E. discriminate.
  - apply latest_None in El. subst. reflexivity.
Qed.

Lemma latest_split (l : list (PyDate.date * activity)) (m : PyDate.date * activity) :
  latest l = Some m ->
  exists l1 l2,
    l = l1 ++ m :: l2 /\
    (forall y, y ∈ l1 -> date_leb y.1 m.1 = true) /\
    (forall y, y ∈ l2 -> date_leb m.1 y.1 = false).
Proof.
  revert m. induction l as [|x l IH]; simpl; intros m; [discriminate|].
  destruct (latest l) as [m'|] eqn:El.
  - destruct (date_leb x.1 m'.1) eqn:E; intros [= <-].
    + destruct (IH m' eq_refl) as (l1 & l2 & -> & H1 & H2).
      exists (x :: l1), l2. split; [reflexivity|]. split; [|exact H2].
      intros y Hy. apply elem_of_cons in Hy as [->|Hy]; auto.
    + exists [], l. split; [reflexivity|]. split; [intros y Hy; inversion Hy|].
      intros y Hy. apply not_true_is_false. intros Hxy.
      pose proof (latest_max l m' El y Hy) as Hym.
      rewrite (date_leb_trans _ _ _ Hxy Hym) in E. discriminate.
  - intros [= <-]. apply latest_None in El. subst.
    exists [], []. split; [reflexivity|]. split; intros y Hy; inversion Hy.
Qed.

Lemma dated_spec (acts : list activity) (l : list (PyDate.date * activity)) :
  dated acts = Some l ->
  map snd l = acts /\
  forall y, y ∈ l -> PyDate.strptime (date y.2) = Some y.1.
Proof.
  revert l. induction acts as [|a acts IH]; simpl; intros l.
  - intros [= <-]. split; [reflexivity | intros y Hy; inversion Hy].
  - destruct (PyDate.strptime (date a)) as [d|] eqn:Ed; [|discriminate].
    destruct (dated acts) as [r|]; [|discriminate].
    intros [= <-]. destruct (IH r eq_refl) as [Hm Hd].
    split; [simpl; now rewrite Hm|].
    intros y Hy. apply elem_of_cons in Hy as [->|Hy]; auto.
Qed.

Lemma dated_total (acts : list activity) :
  Forall (fun a => is_Some (PyDate.strptime (date a))) acts ->
  exists l, dated acts = Some l.
Proof.
  induction 1 as [|a acts [d Hd] _ [l IH]]; simpl; [eauto|].
  rewrite Hd, IH. eauto.
Qed.

Lemma last_map {A B} (f : A -> B) (l : list A) :
  last (map f l) = option_map f (last l).
Proof.
  induction l as [|x l IH]; [reflexivity|].
  simpl map. rewrite !last_cons, IH. now destruct (last l).
Qed.

(** When the dates parse, the sort returns, and its last record is the
    most recent one. *)
Lemma sort_last_most_recent (acts : list activity) :
  Forall (fun a => is_Some (PyDate.strptime (date a))) acts ->
  acts <> [] ->
  exists sorted_activities last_act,
    _sort_activities_by_date acts = Some sorted_activities /\
    last sorted_activities = Some last_act /\
    most_recent last_act acts.
Proof.
  intros Hparse Hne. destruct (dated_total acts Hparse) as [l Hl].
  unfold _sort_activities_by_date. rewrite Hl. simpl.
  destruct (dated_spec acts l Hl) as [Hmap Hdates].
  destruct (latest l) as [m|] eqn:Em.
  2:{ apply latest_None in Em. subst. simpl in Hne. congruence. }
  exists (map snd (fold_right insert_by_date [] l)), m.2.
  split; [reflexivity|]. split.
  - now rewrite last_map, last_sorted, Em.
  - destruct (latest_split l m Em) as (l1 & l2 & -> & H1 & H2).
    exists m.1, (map snd l1), (map snd l2).
    split; [rewrite <- Hmap, map_app; reflexivity|].
    split; [apply Hdates; set_solver|].
    split; intros a d Ha Hd.
    + apply list_elem_of_fmap in Ha as (y & -> & Hy).
      rewrite (Hdates y) in Hd by set_solver. injection Hd as <-. auto.
    + apply list_elem_of_fmap in Ha as (y & -> & Hy).
      rewrite (Hdates y) in Hd by set_solver. injection Hd as <-. auto.
Qed.

Lemma truthy_spec (s : string) : truthy s = true <-> s <> "".
Proof.
  unfold truthy. rewrite negb_true_iff. split.
  - intros H ->. discriminate.
  - intros H. apply String.eqb_neq. exact H.
Qed.

Lemma set_add_elem (x v : string) (s : list string) :
  v ∈ set_add x s <-> v = x \/ v ∈ s.
Proof. unfold set_add. case_bool_decide; set_solver. Qed.

Lemma used_villages_elem (acts : list activity) (v : string) :
  v ∈ used_villages acts <->
  exists a, a ∈ acts /\ to_village a = v /\ v <> "".
Proof.
  unfold used_villages.
  assert (G : forall init,
             v ∈ fold_left (fun used act =>
                              if truthy (to_village act)
                              then set_add (to_village act) used else used)
                   acts init
             <-> v ∈ init \/ exists a, a ∈ acts /\ to_village a = v /\ v <> "").
  { induction acts as [|a acts IH]; intros init; simpl.
    - split; [auto | intros [H | (a & Ha & _)]; [auto | inversion Ha]].
    - rewrite IH. destruct (truthy (to_village a)) eqn:Et.
      + rewrite set_add_elem. apply truthy_spec in Et. split.
        * intros [[-> | H] | (b & Hb & H)]; [right | auto | right].
          -- exists a. split; [left | auto].
          -- exists b. split; [now right | auto].
        * intros [H | (b & Hb & H1 & H2)]; [auto|].
          apply elem_of_cons in Hb as [-> | Hb]; [auto | right; eauto].
      + split.
        * intros [H | (b & Hb & H)]; [auto | right].
          exists b. split; [now right | auto].
        * intros [H | (b & Hb & H1 & H2)]; [auto|].
          apply elem_of_cons in Hb as [-> | Hb]; [|right; eauto].
          exfalso. apply truthy_spec in H2. congruence. }
  rewrite G. split; [intros [H | H]; [inversion H | auto] | auto].
Qed.

Lemma random_choice_at {A} (pool : list A) (w : world) (v : A) :
  pool !! (hd 0%nat (rng w) mod length pool)%nat = Some v ->
  (random_choice pool w).1 = Ok v.
Proof.
  unfold random_choice, choice_at. destruct (rng w) as [|r rs]; simpl;
    now intros ->.
Qed.

(** C3: the pool from which the fallback draws the destination, when the
    stored dates of the month parse. With villages still unvisited this
    month the pool is exactly those; otherwise it is the full list, from
    which the destination of the most recently dated record is taken out
    unless nothing would remain. The destination is the pool entry at the
    index the random source draws below the length of the pool, so every
    entry is drawn by exactly the draw equal to its position. *)
Theorem rotation_pool (villages_ : list string) (month_activities : list activity) :
  Forall (fun a => is_Some (PyDate.strptime (date a))) month_activities ->
  let available := fallback_available villages_ month_activities in
  (forall v, v ∈ available <->
             v ∈ villages_ /\
             forall a, a ∈ month_activities -> to_village a = v -> v = "") /\
  exists pool,
    selection_pool villages_ month_activities = Some pool /\
    (available <> [] -> pool = available) /\
    (available = [] -> month_activities = [] -> pool = villages_) /\
    (available = [] -> month_activities <> [] ->
     exists last_act,
       most_recent last_act month_activities /\
       let rest :=
         List.filter (fun v => negb (String.eqb v (to_village last_act))) villages_ in
       pool = if bool_decide (rest = []) then villages_ else rest) /\
    (forall w, pool <> [] ->
               exists v, (random_choice pool w).1 = Ok v /\ v ∈ pool) /\
    (forall i v w, pool !! i = Some v -> hd 0%nat (rng w) = i ->
                   (random_choice pool w).1 = Ok v).
Proof.
  intros Hparse available.
  assert (Hav : forall v, v ∈ available <->
                          v ∈ villages_ /\
                          forall a, a ∈ month_activities -> to_village a = v -> v = "").
  { intros v. unfold available, fallback_available.
    rewrite list_elem_of_In, filter_In, <- list_elem_of_In, negb_true_iff,
      bool_decide_eq_false, used_villages_elem.
    split; intros [Hv H]; (split; [exact Hv|]).
    - intros a Ha Hto. destruct (decide (v = "")) as [|Hne]; [auto|].
      exfalso. apply H. eauto.
    - intros (a & Ha & Hto & Hne). exact (Hne (H a Ha Hto)). }
  split; [exact Hav|].
  assert (Hdraw : forall pool : list string,
             (forall w, pool <> [] ->
                        exists v, (random_choice pool w).1 = Ok v /\ v ∈ pool) /\
             (forall i v w, pool !! i = Some v -> hd 0%nat (rng w) = i ->
                            (random_choice pool w).1 = Ok v)).
  { intros pool. split.
    - intros w Hne.
      assert (Hlt : (hd 0%nat (rng w) mod length pool < length pool)%nat).
      { apply Nat.mod_upper_bound. destruct pool; simpl; [congruence | lia]. }
      apply lookup_lt_is_Some_2 in Hlt as [v Hv].
      exists v. split; [now apply random_choice_at|].
      apply list_elem_of_lookup. eauto.
    - intros i v w Hi <-. apply random_choice_at.
      rewrite Nat.mod_small; [exact Hi|]. now apply lookup_lt_Some in Hi. }
  unfold selection_pool. fold available.
  destruct available as [|v0 av] eqn:Eav.
  2:{ exists (v0 :: av). split; [reflexivity|].
      split; [reflexivity|]. split; [discriminate|]. split; [discriminate|].
      apply Hdraw. }
  destruct month_activities as [|a0 acts] eqn:Eacts.
  { exists villages_. split; [reflexivity|].
    split; [congruence|]. split; [reflexivity|]. split; [congruence|].
    apply Hdraw. }
  rewrite <- Eacts in *.
  destruct (sort_last_most_recent month_activities Hparse)
    as (sorted_activities & last_act & -> & -> & Hrecent);
    [rewrite Eacts; discriminate|].
  (* every village is the destination of some record, hence not empty *)
  assert (Hnonempty : forall v, v ∈ villages_ -> v <> "").
  { intros v Hv Hempty.
    assert (Hin : v ∈ ([] : list string)); [|inversion Hin].
    apply Hav. split; [exact Hv | auto]. }
  set (rest := List.filter (fun v => negb (String.eqb v (to_village last_act))) villages_).
  assert (Hpool : (if truthy (to_village last_act) && (1 <? Z.of_nat (length villages_))
                   then match rest with
                        | [] => Some villages_
                        | s :: l => Some (s :: l)
                        end
                   else Some villages_)
                  = Some (if bool_decide (rest = []) then villages_ else rest)).
  { destruct (truthy (to_village last_act)) eqn:Et; simpl.
    - destruct (1 <? Z.of_nat (length villages_)) eqn:El.
      + destruct rest; [reflexivity|]. now rewrite bool_decide_eq_false_2.
      + apply Z.ltb_ge in El. case_bool_decide as Hr; [reflexivity|]. f_equal.
        destruct villages_ as [|v [|v' vs]]; simpl in El; [reflexivity| |lia].
        subst rest. cbn [List.filter] in *.
        destruct (negb (v =? to_village last_act)%string); [reflexivity | congruence].
    - case_bool_decide as Hr; [reflexivity|]. f_equal.
      subst rest. symmetry. apply forallb_filter_id, forallb_forall.
      intros v Hv. apply negb_true_iff, String.eqb_neq.
      apply list_elem_of_In, Hnonempty in Hv.
      assert (to_village last_act = "").
      { destruct (String.eqb_spec (to_village last_act) ""); [auto|].
        unfold truthy in Et. apply negb_false_iff, String.eqb_eq in Et. auto. }
      congruence. }
  fold rest. rewrite Hpool.
  eexists. split; [reflexivity|].
  split; [congruence|].
  split; [intros _ H; rewrite Eacts in H; discriminate|].
  split; [|apply Hdraw].
  intros _ _. exists last_act. split; [exact Hrecent | reflexivity].
Qed.

Lemma rotation_pool_witness :
  exists pool last_act,
    selection_pool ["Gokul"; "Rampur"] both_visited = Some pool /\
    most_recent last_act both_visited /\
    pool = if bool_decide
                (List.filter (fun v => negb (String.eqb v (to_village last_act)))
                   ["Gokul"; "Rampur"] = [])
           then ["Gokul"; "Rampur"]
           else List.filter (fun v => negb (String.eqb v (to_village last_act)))
                  ["Gokul"; "Rampur"].
Proof.
  assert (Hparse : Forall (fun a => is_Some (PyDate.strptime (date a))) both_visited).
  { repeat constructor; eexists; vm_compute; reflexivity. }
  destruct (rotation_pool ["Gokul"; "Rampur"] both_visited Hparse)
    as (_ & pool & Hp & _ & _ & H3 & _).
  destruct H3 as (last_act & Hr & Hpool).
  - vm_compute. reflexivity.
  - discriminate.
  - exists pool, last_act. exact (conj Hp (conj Hr Hpool)).
Defined.

(** ** The tour-day counts of the reports *)

(** C7: [/dnact] counts a day on leave. For a month whose only record is
    a day on leave, the rule of the specification and the sheet of [/td]
    count no tour day, and the summary row of [/td] says so; the summary
    of [/dnact] reports one tour day, and a shortfall of 19 against the
    threshold 20 where it is 20. *)
Theorem dnact_counts_a_day_on_leave :
  spec_tour_days [leave_day] = 0 /\
  td_tour_days 2024 6 [leave_day] = Some 0 /\
  td_summary_row <$> td_tour_days 2024 6 [leave_day]
  = Some "No. of days toured in the month: 0" /\
  dnact_tour_days [leave_day] = 1 /\
  dnact_summary 6 2024 [leave_day]
  = "📊 **June 2024 Tour Summary**" +:+ nl +:+ "Tour Days: 1" +:+ nl +:+
    "Required: 20" +:+ nl +:+ "⚠️ Short by 19 days".
Proof. vm_compute. repeat split. Qed.

Lemma dict_get_set {V} (k k' : PyDate.date) (v : V) (d : list (PyDate.date * V)) :
  dict_get k (dict_set k' v d) = if bool_decide (k' = k) then Some v else dict_get k d.
Proof.
  induction d as [|[k2 v2] d IH]; simpl.
  - reflexivity.
  - destruct (decide (k2 = k')) as [->|Hne].
    + rewrite (bool_decide_eq_true_2 (k' = k')) by reflexivity. simpl.
      now destruct (bool_decide (k' = k)).
    + rewrite (bool_decide_eq_false_2 _ Hne). simpl. rewrite IH.
      destruct (decide (k2 = k)) as [->|Hne2].
      * rewrite (bool_decide_eq_true_2 (k = k)) by reflexivity.
        now rewrite bool_decide_eq_false_2 by congruence.
      * now rewrite (bool_decide_eq_false_2 _ Hne2).
Qed.

(** The dict that [/td] builds holds, for a day, the last record of that
    day. *)
Lemma activities_by_date_get (day : PyDate.date) (acts : list activity) :
  dict_get day (activities_by_date acts) = last_on_day day acts.
Proof.
  unfold activities_by_date, last_on_day.
  assert (G : forall d,
             dict_get day
               (fold_left (fun by_date act =>
                             match PyDate.strptime (date act) with
                             | Some dt => dict_set dt act by_date
                             | None => by_date
                             end) acts d)
             = match last (List.filter
                             (fun a => bool_decide (PyDate.strptime (date a) = Some day))
                             acts) with
               | Some a => Some a
               | None => dict_get day d
               end).
  { induction acts as [|a acts IH]; intros d; simpl; [reflexivity|].
    rewrite IH. destruct (PyDate.strptime (date a)) as [dt|] eqn:Ed.
    - rewrite dict_get_set.
      destruct (decide (dt = day)) as [->|Hne].
      + rewrite !bool_decide_eq_true_2 by reflexivity.
        rewrite last_cons. now destruct (last _).
      + rewrite (bool_decide_eq_false_2 (dt = day)) by assumption.
        now rewrite (bool_decide_eq_false_2 (Some dt = Some day)) by congruence.
    - now rewrite (bool_decide_eq_false_2 (None = Some day)) by congruence. }
  rewrite G. now destruct (last _).
Qed.

Lemma count_fold {A} (P : A -> bool) (l : list A) (n : Z) :
  fold_left (fun c x => if P x then c + 1 else c) l n
  = n + Z.of_nat (length (List.filter P l)).
Proof.
  revert n. induction l as [|x l IH]; intros n; simpl; [lia|].
  rewrite IH. destruct (P x); simpl; lia.
Qed.

(** ** Saving an activity *)

Lemma existing_activity_None (d : string) (l : list activity) :
  existing_activity d l = None <-> same_date_count d l = 0%nat.
Proof.
  unfold same_date_count. induction l as [|a l IH]; simpl; [tauto|].
  destruct (String.eqb (date a) d); simpl.
  - split; [discriminate | lia].
  - destruct (existing_activity d l); simpl in *; [|tauto].
    split; [discriminate|]. intros H. apply IH in H. discriminate.
Qed.

(** Replacing the first record of a date string keeps the count. *)
Lemma replace_first_count (act : activity) (l : list activity) (i : nat) :
  existing_activity (date act) l = Some i ->
  same_date_count (date act) (<[i := act]> l) = same_date_count (date act) l /\
  exists l1 old l2,
    l = l1 ++ old :: l2 /\ <[i := act]> l = l1 ++ act :: l2 /\
    date old = date act /\ same_date_count (date act) l1 = 0%nat.
Proof.
  unfold same_date_count. revert i. induction l as [|a l IH]; simpl; intros i.
  - discriminate.
  - destruct (String.eqb (date a) (date act)) eqn:E.
    + intros [= <-]. simpl. rewrite String.eqb_refl. simpl. split; [reflexivity|].
      exists [], a, l. apply String.eqb_eq in E. auto.
    + destruct (existing_activity (date act) l) as [j|]; simpl; [|discriminate].
      intros [= <-]. simpl. rewrite E.
      destruct (IH j eq_refl) as (Hc & l1 & old & l2 & -> & Hl & Hd & H1).
      split; [exact Hc|].
      exists (a :: l1), old, l2. simpl. rewrite Hl, E. auto.
Qed.

(** A save leaves exactly one record with the saved date string when the
    month held at most one before, and that record is the saved one; the
    records of the other dates are the same as before. *)
Lemma replace_or_append_one (act : activity) (l : list activity) :
  (same_date_count (date act) l <= 1)%nat ->
  same_date_count (date act) (replace_or_append act l) = 1%nat /\
  (forall a, a ∈ replace_or_append act l -> date a = date act -> a = act) /\
  (forall a, date a <> date act -> (a ∈ replace_or_append act l <-> a ∈ l)).
Proof.
  intros Hle. unfold replace_or_append.
  destruct (existing_activity (date act) l) as [i|] eqn:Ee.
  - destruct (replace_first_count act l i Ee)
      as (Hc & l1 & old & l2 & -> & -> & Hd & H1).
    assert (H2 : same_date_count (date act) l2 = 0%nat).
    { unfold same_date_count in *. rewrite List.filter_app, length_app in Hle.
      simpl in Hle. rewrite Hd, String.eqb_refl in Hle. simpl in Hle. lia. }
    assert (Hnone : forall l', same_date_count (date act) l' = 0%nat ->
                               forall a, a ∈ l' -> date a <> date act).
    { intros l' H0 a Ha Hda. unfold same_date_count in H0.
      apply length_zero_iff_nil in H0.
      assert (Hin : In a (List.filter (fun a => String.eqb (date a) (date act)) l')).
      { apply filter_In. split; [now apply list_elem_of_In|]. now apply String.eqb_eq. }
      rewrite H0 in Hin. inversion Hin. }
    split; [|split].
    + unfold same_date_count in *. rewrite List.filter_app, length_app. simpl.
      rewrite String.eqb_refl. simpl. lia.
    + intros a Ha Hda. apply elem_of_app in Ha as [Ha|Ha].
      * exfalso. exact (Hnone l1 H1 a Ha Hda).
      * apply elem_of_cons in Ha as [->|Ha]; [reflexivity|].
        exfalso. exact (Hnone l2 H2 a Ha Hda).
    + intros a Hda. rewrite !elem_of_app, !elem_of_cons.
      split; (intros [H | [E | H]]; [auto | subst; congruence | auto]).
  - apply existing_activity_None in Ee. split; [|split].
    + unfold same_date_count in *. rewrite List.filter_app, length_app. simpl.
      rewrite String.eqb_refl. simpl. lia.
    + intros a Ha Hda. apply elem_of_app in Ha as [Ha|Ha].
      * exfalso. unfold same_date_count in Ee. apply length_zero_iff_nil in Ee.
        assert (Hin : In a (List.filter (fun a => String.eqb (date a) (date act)) l)).
        { apply filter_In. split; [now apply list_elem_of_In|]. now apply String.eqb_eq. }
        rewrite Ee in Hin. inversion Hin.
      * now apply list_elem_of_singleton in Ha.
    + intros a Hda. rewrite elem_of_app, list_elem_of_singleton.
      split; [intros [H | E]; [auto | subst; congruence] | auto].
Qed.

Lemma month_list_push (y m : string) (act : activity)
    (acts : gmap string (gmap string (list activity))) :
  month_list (Nested (push_nested y m act acts)) y m
  = Some (default [] (month_list (Nested acts) y m) ++ [act]).
Proof.
  unfold month_list, push_nested. rewrite lookup_insert_eq. simpl.
  rewrite lookup_insert_eq. f_equal. f_equal.
  destruct (acts !! y) as [months|]; simpl; [reflexivity|].
  now rewrite lookup_empty.
Qed.

Lemma month_list_set (y m : string) (i : nat) (act : activity)
    (acts : gmap string (gmap string (list activity))) :
  month_list (Nested (set_nested y m i act acts)) y m
  = Some (<[i := act]> (default [] (month_list (Nested acts) y m))).
Proof.
  unfold month_list, set_nested. rewrite lookup_insert_eq. simpl.
  rewrite lookup_insert_eq. f_equal. f_equal.
  destruct (acts !! y) as [months|]; simpl; [reflexivity|].
  now rewrite lookup_empty.
Qed.

(** What [write_activity] stores, on a migrated document. *)
Lemma write_activity_result (uid : Z) (y m : string) (act : activity) (w : world)
    (user : user_doc) (acts : gmap string (gmap string (list activity))) :
  find_one uid (users_collection w) = Some user ->
  activities user = Nested acts ->
  let l := default [] (month_list (Nested acts) y m) in
  exists updated w' user',
    write_activity uid y m act w = (Ok updated, w') /\
    callback_data w' = callback_data w /\
    input_prompt_message w' = input_prompt_message w /\
    pending_prompts w' = pending_prompts w /\
    cancelled_users w' = cancelled_users w /\
    daily_prompt_message_ids w' = daily_prompt_message_ids w /\
    outbox w' = outbox w /\
    network w' = network w /\
    next_message_id w' = next_message_id w /\
    find_one uid (users_collection w') = Some user' /\
    month_list (activities user') y m = Some (replace_or_append act l).
Proof.
  intros Hu Ha l. unfold write_activity, bind, get. rewrite Hu, Ha.
  unfold replace_or_append. fold l.
  assert (Hex : month_list (Nested acts) y m ≫= existing_activity (date act)
                = existing_activity (date act) l).
  { unfold l. destruct (month_list (Nested acts) y m); reflexivity. }
  rewrite Hex.
  destruct (existing_activity (date act) l) as [i|].
  - unfold db_set, bind, get, modify, ret. rewrite Hu, Ha.
    eexists true, _, _. split; [reflexivity|]. simpl.
    repeat (split; [reflexivity|]).
    split.
    + rewrite find_one_update_one by apply set_activities_keeps_id.
      rewrite Hu. reflexivity.
    + cbn [activities set_activities]. apply month_list_set.
  - unfold db_push, bind, get, modify, ret. rewrite Hu, Ha.
    eexists false, _, _. split; [reflexivity|]. simpl.
    repeat (split; [reflexivity|]).
    split.
    + rewrite find_one_update_one by apply set_activities_keeps_id.
      rewrite Hu. reflexivity.
    + cbn [activities set_activities]. apply month_list_push.
Qed.



Lemma act_in_replace_or_append (act : activity) (l : list activity) :
  act ∈ replace_or_append act l.
Proof.
  unfold replace_or_append. destruct (existing_activity (date act) l) as [i|] eqn:E.
  - destruct (replace_first_count act l i E) as (_ & l1 & old & l2 & _ & -> & _).
    set_solver.
  - set_solver.
Qed.

Lemma migrate_find (uid : Z) (w : world) (user : user_doc) :
  find_one uid (users_collection w) = Some user ->
  find_one uid (users_collection (migrate_activities_structure uid w).2)
  = Some (set_activities (Nested (nested_of (activities user))) user).
Proof.
  intros Hu. rewrite migrate_result, Hu. simpl.
  destruct user as [id hq vs [l|acts] ca rl dp ph]; simpl.
  - rewrite find_one_update_one by apply set_activities_keeps_id.
    now rewrite Hu.
  - exact Hu.
Qed.

Lemma best_effort_result (c : api_call) (w : world) :
  try_except (bind (api c) (fun _ => ret tt)) (ret tt) w = (Ok tt, (api c w).2).
Proof.
  unfold try_except, bind, ret. destruct (api c w) as [[mid|e] w']; reflexivity.
Qed.

Lemma delete_daily_prompt_result (uid chat_ : Z) (w : world) :
  exists w' evs,
    delete_daily_prompt uid chat_ w = (Ok tt, w') /\
    users_collection w' = users_collection w /\
    callback_data w' = callback_data w /\
    pending_prompts w' = pending_prompts w /\
    outbox w' = outbox w ++ evs /\
    Forall (fun ev => is_delete ev.1 = true) evs.
Proof.
  unfold delete_daily_prompt, bind, get.
  destruct (daily_prompt_message_ids w !! uid) as [info|].
  - unfold try_except, bind, modify, ret, api.
    destruct (network w) as [|[] net]; simpl;
      eexists _, [_]; (split; [reflexivity|]); simpl;
      repeat (split; [reflexivity|]); repeat constructor.
  - exists w, []. unfold ret. rewrite app_nil_r. repeat split; auto.
Qed.

(** A save through [save_activity_callback] of a complete draft whose date
    parses: the record is in the month list of the user afterwards,
    whatever the Bot API answers, and the calls made are deletions and the
    confirmation. *)
Lemma save_activity_callback_stores (now : PyDate.date) (call : callback)
    (temp_activity : draft) (w : world) (uid : Z) (user : user_doc)
    (to_ purpose_ : string) (dt : PyDate.date) :
  d_user_id temp_activity = Some uid ->
  find_one uid (users_collection w) = Some user ->
  d_to_village temp_activity = Some to_ ->
  d_purpose temp_activity = Some purpose_ ->
  let date_ := default (PyDate.strftime_dmy now) (d_date temp_activity) in
  PyDate.strptime date_ = Some dt ->
  let act := mk_activity date_ (from_of user) to_ purpose_ in
  let y := PyDate.str_int (PyDate.year dt) in
  let m := PyDate.str_int (PyDate.month dt) in
  let l := default [] (month_list (Nested (nested_of (activities user))) y m) in
  exists r w' user' evs updated,
    save_activity_callback now call temp_activity w = (r, w') /\
    find_one uid (users_collection w') = Some user' /\
    month_list (activities user') y m = Some (replace_or_append act l) /\
    callback_data w' = callback_data w /\
    (pending_prompts w' = pending_prompts w \/
     pending_prompts w' = dict_del uid (pending_prompts w)) /\
    outbox w' = outbox w ++ evs /\
    Forall (fun ev => is_delete ev.1 = true \/
                      ev.1 = send_message (cmsg_chat call) (saved_text updated act) [])
      evs.
Proof.
  intros Hid Hu Hto Hp date_ Hdt act y m l.
  unfold save_activity_callback. rewrite Hid. unfold bind at 1. unfold get at 1.
  rewrite Hu, Hto, Hp. fold date_. fold act. rewrite Hdt. fold y. fold m.
  unfold bind at 1.
  destruct (migrate_frame uid w)
    as (wm & Em & Hcb & Hip & Hpp & Hcu & Hdi & Hob & Hnet & Hnm & Hrng & _).
  pose proof (migrate_find uid w user Hu) as Hfind.
  rewrite Em in Hfind |- *. cbn [snd] in Hfind.
  unfold bind at 1.
  destruct (write_activity_result uid y m act wm _ (nested_of (activities user))
              Hfind eq_refl)
    as (updated & w1 & user' & -> & Hcb1 & Hip1 & Hpp1 & Hcu1 & Hdi1 & Hob1 & Hnet1
        & Hnm1 & Hfind1 & Hml).
  unfold bind at 1. rewrite best_effort_result.
  set (c1 := delete_message (cmsg_chat call) (cmsg_id call)).
  destruct (api_result c1 w1) as (Hu2 & Hcb2 & Hip2 & Hpp2 & Hcu2 & Hdi2 & _ & _ & Hob2).
  unfold bind at 1.
  destruct (delete_daily_prompt_result uid (cmsg_chat call) (api c1 w1).2)
    as (w3 & evs3 & -> & Hu3 & Hcb3 & Hpp3 & Hob3 & Hdel3).
  set (c2 := send_message (cmsg_chat call) (saved_text updated act) []).
  unfold bind at 1.
  destruct (api_result c2 w3) as (Hu4 & Hcb4 & Hip4 & Hpp4 & Hcu4 & Hdi4 & _ & _ & Hob4).
  assert (Hevs : outbox (api c2 w3).2
                 = outbox w ++ ((c1, hd true (network w1)) :: evs3
                                ++ [(c2, hd true (network w3))])).
  { rewrite Hob4, Hob3, Hob2, Hob1, Hob. rewrite <- !app_assoc. reflexivity. }
  assert (Hall : Forall (fun ev => is_delete ev.1 = true \/
                                   ev.1 = send_message (cmsg_chat call)
                                            (saved_text updated act) [])
                   ((c1, hd true (network w1)) :: evs3
                    ++ [(c2, hd true (network w3))])).
  { constructor; [left; reflexivity|]. apply Forall_app. split.
    - eapply Forall_impl; [exact Hdel3|]. intros ev H. now left.
    - constructor; [right; reflexivity | constructor]. }
  assert (Hfinal : find_one uid (users_collection (api c2 w3).2) = Some user')
    by (rewrite Hu4, Hu3, Hu2; exact Hfind1).
  destruct (api c2 w3) as [[mid|e] w4] eqn:E4; cbn [snd] in *.
  - unfold modify. eexists _, _, user', _, updated. split; [reflexivity|].
    cbn [users_collection callback_data pending_prompts outbox set_pending_prompts].
    split; [exact Hfinal|]. split; [exact Hml|].
    split; [congruence|]. split; [right; congruence|].
    split; [exact Hevs | exact Hall].
  - eexists _, w4, user', _, updated. split; [reflexivity|].
    split; [exact Hfinal|]. split; [exact Hml|].
    split; [congruence|]. split; [left; congruence|].
    split; [exact Hevs | exact Hall].
Qed.

Lemma startswith_app (p s : string) : startswith p (p +:+ s) = true.
Proof.
  induction p as [|c p IH]; simpl; [reflexivity|].
  now rewrite Ascii.eqb_refl, IH.
Qed.

(** The headquarters button for a user whose headquarters is set: the
    press goes straight to the save. The record for the date of the flow,
    with empty destination and the office-work purpose, is in the month
    list afterwards; the only calls made are deletions and the
    confirmation, so no purpose prompt is sent, and no prompt is added to
    the pending ones. *)
Lemma headquarters_press_saves (now : PyDate.date) (time : Z) (call : callback)
    (w : world) (user : user_doc) (hq : string) (dt : PyDate.date) :
  let uid := call_from_user call in
  find_one uid (users_collection w) = Some user ->
  headquarters user = Some hq ->
  data call = "village_" +:+ title hq ->
  let date_str := draft_date_or_today now uid w in
  PyDate.strptime date_str = Some dt ->
  let act := mk_activity date_str (from_of user) "" office_work in
  let y := PyDate.str_int (PyDate.year dt) in
  let m := PyDate.str_int (PyDate.month dt) in
  exists r w' user' evs updated,
    callback_query now time call w = (r, w') /\
    find_one uid (users_collection w') = Some user' /\
    act ∈ default [] (month_list (activities user') y m) /\
    (pending_prompts w' = pending_prompts w \/
     pending_prompts w' = dict_del uid (pending_prompts w)) /\
    outbox w' = outbox w ++ evs /\
    Forall (fun ev => is_delete ev.1 = true \/
                      ev.1 = send_message (cmsg_chat call) (saved_text updated act) [])
      evs.
Proof.
  intros uid Hu Hhq Hdata date_str Hdt act y m.
  unfold callback_query. rewrite Hdata, startswith_app.
  unfold on_village. fold uid. unfold bind at 1.
  unfold headquarters_title at 1. unfold bind at 1. unfold get at 1.
  rewrite Hu, Hhq. unfold ret at 1. unfold bind at 1. unfold get at 1.
  rewrite Hdata, String.eqb_refl. fold date_str.
  destruct (save_activity_callback_stores now call
              (mk_draft (Some date_str) (Some "") (Some office_work) (Some uid))
              w uid user "" office_work dt eq_refl Hu eq_refl eq_refl Hdt)
    as (r & w1 & user' & evs & updated & E & Hfind & Hml & Hcb & Hpp & Hob & Hall).
  cbn [d_date default] in *. fold act in Hml, Hall. fold y m in Hml.
  unfold bind. rewrite E.
  assert (Hin : act ∈ default [] (month_list (activities user') y m)).
  { rewrite Hml. apply act_in_replace_or_append. }
  destruct r as [[]|e].
  - unfold modify. eexists _, _, user', evs, updated. split; [reflexivity|].
    cbn [users_collection pending_prompts outbox set_callback_data].
    auto.
  - eexists _, w1, user', evs, updated. split; [reflexivity|]. auto.
Qed.

(** ** The fallback on a Sunday *)

(** The description that the user declared for the day comes before the
    weekday wording. *)
Lemma holiday_purpose_precedence (hs : list holiday) (now : PyDate.date) (desc : string) :
  user_holiday hs now = Some desc ->
  desc <> "" ->
  holiday_purpose (user_holiday hs now) now = "Public holiday (" +:+ desc +:+ ")".
Proof.
  intros -> Hne. unfold holiday_purpose, falsy_opt.
  apply truthy_spec in Hne. now rewrite Hne.
Qed.

Lemma holiday_purpose_sunday (hs : list holiday) (now : PyDate.date) :
  user_holiday hs now = None ->
  is_sunday now = true ->
  holiday_purpose (user_holiday hs now) now = "Public holiday (Sunday)".
Proof. intros -> Hs. unfold holiday_purpose. simpl. now rewrite Hs. Qed.

Lemma push_nested_keeps (y m y' m' : string) (act a : activity)
    (acts : gmap string (gmap string (list activity))) :
  a ∈ default [] (month_list (Nested acts) y' m') ->
  a ∈ default [] (month_list (Nested (push_nested y m act acts)) y' m').
Proof.
  destruct (decide (y' = y)) as [->|Hy].
  - destruct (decide (m' = m)) as [->|Hm].
    + rewrite month_list_push. simpl. set_solver.
    + unfold month_list, push_nested. rewrite lookup_insert_eq. simpl.
      rewrite lookup_insert_ne by congruence.
      destruct (acts !! y); simpl; [auto|]. now rewrite lookup_empty.
  - unfold month_list, push_nested. now rewrite lookup_insert_ne by congruence.
Qed.

(** What [record_holiday] leaves, for a user whose document is migrated,
    when Telegram accepts the notice. *)
Lemma record_holiday_result (now : PyDate.date) (name : string) (user : user_doc)
    (w : world) (stored : user_doc) (acts : gmap string (gmap string (list activity))) :
  find_one (user_id user) (users_collection w) = Some stored ->
  activities stored = Nested acts ->
  Forall (fun b => b = true) (network w) ->
  let y := PyDate.str_int (PyDate.year now) in
  let m := PyDate.str_int (PyDate.month now) in
  exists w',
    record_holiday now name user w = (Ok tt, w') /\
    Forall (fun b => b = true) (network w') /\
    users_collection w'
    = update_one (user_id user)
        (set_activities (Nested (push_nested y m (holiday_activity user now) acts)))
        (users_collection w).
Proof.
  intros Hu Ha Hnet y m. unfold record_holiday, bind at 1.
  unfold db_push, bind at 1, get. rewrite Hu, Ha. unfold modify.
  unfold bind, api, ret.
  cbn [network users_collection set_users].
  destruct (network w) as [|b net]; [|inversion Hnet as [|? ? -> Hnet']; subst];
    cbn [andb is_send]; eexists; (split; [reflexivity|]);
    cbn [network users_collection tl]; auto.
Qed.

Lemma update_one_find_other (uid k : Z) (f : user_doc -> user_doc) (c : list user_doc) :
  (forall u, user_id (f u) = user_id u) ->
  find_one k (update_one uid f c)
  = if bool_decide (k = uid) then f <$> find_one k c else find_one k c.
Proof.
  intros Hf. case_bool_decide as E.
  - subst. now apply find_one_update_one.
  - now apply find_one_update_one_ne.
Qed.

(** The loop of the Sunday branch over a list of documents whose users are
    in the store. Records that are in a month list stay, and every user of
    the list without a record for the day gets the holiday record. *)
Lemma sunday_loop (now : PyDate.date) (users : list user_doc) (w : world) :
  let y := PyDate.str_int (PyDate.year now) in
  let m := PyDate.str_int (PyDate.month now) in
  (forall u, u ∈ users -> is_Some (find_one (user_id u) (users_collection w))) ->
  Forall (fun b => b = true) (network w) ->
  exists w',
    for_each users
      (fun user =>
         migrate_activities_structure (user_id user) ;;;
         if has_activity user now then ret tt else record_holiday now "Sunday" user) w
    = (Ok tt, w') /\
    (forall k stored y' m' a,
        find_one k (users_collection w) = Some stored ->
        a ∈ month_records stored y' m' ->
        exists stored',
          find_one k (users_collection w') = Some stored' /\
          a ∈ month_records stored' y' m') /\
    (forall k, is_Some (find_one k (users_collection w)) ->
               is_Some (find_one k (users_collection w'))) /\
    (forall u, u ∈ users -> has_activity u now = false ->
               exists stored',
                 find_one (user_id u) (users_collection w') = Some stored' /\
                 holiday_activity u now ∈ month_records stored' y m).
Proof.
  intros y m. revert w. induction users as [|user users IH]; intros w Hin Hnet.
  { exists w. split; [reflexivity|]. split; [eauto|]. split; [auto|].
    intros u Hu. inversion Hu. }
  rewrite for_each_cons. unfold bind at 1.
  destruct (Hin user) as [stored0 Hs0]; [left|].
  destruct (migrate_frame (user_id user) w)
    as (wm & Em & _ & _ & _ & _ & _ & _ & Hnm & _ & _ & Hother).
  pose proof (migrate_find (user_id user) w stored0 Hs0) as Hfm.
  rewrite Em in Hfm |- *. cbn [snd] in Hfm.
  (* the step as a whole *)
  assert (Hstep : exists w1,
             (if has_activity user now then ret tt
              else record_holiday now "Sunday" user) wm = (Ok tt, w1) /\
             Forall (fun b => b = true) (network w1) /\
             (forall k stored y' m' a,
                 find_one k (users_collection w) = Some stored ->
                 a ∈ month_records stored y' m' ->
                 exists stored',
                   find_one k (users_collection w1) = Some stored' /\
                   a ∈ month_records stored' y' m') /\
             (forall k, is_Some (find_one k (users_collection w)) ->
                        is_Some (find_one k (users_collection w1))) /\
             (has_activity user now = false ->
              exists stored',
                find_one (user_id user) (users_collection w1) = Some stored' /\
                holiday_activity user now ∈ month_records stored' y m)).
  { assert (Hkeep_m : forall k stored y' m' a,
               find_one k (users_collection w) = Some stored ->
               a ∈ month_records stored y' m' ->
               exists stored',
                 find_one k (users_collection wm) = Some stored' /\
                 a ∈ month_records stored' y' m').
    { intros k stored y' m' a Hk Ha.
      destruct (decide (k = user_id user)) as [->|Hne].
      - rewrite Hs0 in Hk. injection Hk as <-. eexists. split; [exact Hfm|].
        unfold month_records in *. cbn [activities set_activities].
        destruct (activities stored0); simpl in *; [inversion Ha | exact Ha].
      - exists stored. split; [rewrite Hother by exact Hne; exact Hk | exact Ha]. }
    assert (Hsome_m : forall k, is_Some (find_one k (users_collection w)) ->
                                is_Some (find_one k (users_collection wm))).
    { intros k [stored Hk].
      destruct (decide (k = user_id user)) as [->|Hne]; [eauto|].
      rewrite Hother by exact Hne. eauto. }
    destruct (has_activity user now) eqn:Hhas.
    - exists wm. unfold ret. split; [reflexivity|]. split; [now rewrite Hnm|].
      split; [exact Hkeep_m|]. split; [exact Hsome_m | discriminate].
    - destruct (record_holiday_result now "Sunday" user wm _
                  (nested_of (activities stored0)) Hfm eq_refl)
        as (w1 & -> & Hnet1 & Hu1); [now rewrite Hnm|].
      exists w1. split; [reflexivity|]. split; [exact Hnet1|].
      assert (Hf1 : forall k,
                 find_one k (users_collection w1)
                 = if bool_decide (k = user_id user)
                   then set_activities
                          (Nested (push_nested y m (holiday_activity user now)
                                     (nested_of (activities stored0))))
                        <$> find_one k (users_collection wm)
                   else find_one k (users_collection wm)).
      { intros k. rewrite Hu1. apply update_one_find_other.
        intros u. apply set_activities_keeps_id. }
      split; [|split].
      + intros k stored y' m' a Hk Ha.
        destruct (Hkeep_m k stored y' m' a Hk Ha) as (stored' & Hk' & Ha').
        rewrite Hf1. case_bool_decide as E.
        * subst k. rewrite Hk'. simpl. eexists. split; [reflexivity|].
          rewrite Hfm in Hk'. injection Hk' as <-.
          unfold month_records in *. cbn [activities set_activities] in *.
          now apply push_nested_keeps.
        * eauto.
      + intros k Hk. apply Hsome_m in Hk. rewrite Hf1.
        case_bool_decide; [|exact Hk]. destruct Hk as [s ->]. simpl. eauto.
      + intros _. rewrite Hf1, bool_decide_eq_true_2 by reflexivity.
        rewrite Hfm. simpl. eexists. split; [reflexivity|].
        unfold month_records. cbn [activities set_activities].
        rewrite month_list_push. simpl. set_solver. }
  destruct Hstep as (w1 & -> & Hnet1 & Hkeep1 & Hsome1 & Hrec1).
  destruct (IH w1) as (w' & -> & Hkeep & Hsome & Hrec).
  { intros u Hu. apply Hsome1, Hin. now right. }
  { exact Hnet1. }
  exists w'. split; [reflexivity|]. split; [|split].
  - intros k stored y' m' a Hk Ha.
    destruct (Hkeep1 k stored y' m' a Hk Ha) as (s1 & Hk1 & Ha1).
    exact (Hkeep k s1 y' m' a Hk1 Ha1).
  - intros k Hk. auto.
  - intros u Hu Hhas. apply elem_of_cons in Hu as [->|Hu]; [|auto].
    destruct (Hrec1 Hhas) as (s1 & Hk1 & Ha1).
    exact (Hkeep _ s1 y m _ Hk1 Ha1).
Qed.

Lemma find_one_of_elem (u : user_doc) (c : list user_doc) :
  u ∈ c -> is_Some (find_one (user_id u) c).
Proof.
  induction c as [|v c IH]; intros Hin; [inversion Hin|].
  unfold find_one in *. simpl.
  destruct (Z.eqb_spec (user_id v) (user_id u)); [eauto|].
  apply elem_of_cons in Hin as [->|Hin]; [congruence | auto].
Qed.

(** The Sunday branch does what the second-Saturday branch misses: when
    Telegram accepts the notices, every user with a village and without a
    record for the day gets one, with empty destination and the holiday
    purpose, in which a declared description comes first. *)
Lemma sunday_fallback_records_every_user (DEFAULT_ACTIVITY_TIME : string)
    (now : PyDate.date) (w : world) :
  is_sunday now = true ->
  Forall (fun b => b = true) (network w) ->
  exists w',
    default_activity_fallback DEFAULT_ACTIVITY_TIME now w = (Ok tt, w') /\
    forall user,
      user ∈ find_with_villages (users_collection w) ->
      has_activity user now = false ->
      exists stored' act,
        find_one (user_id user) (users_collection w') = Some stored' /\
        act ∈ month_records stored' (PyDate.str_int (PyDate.year now))
                (PyDate.str_int (PyDate.month now)) /\
        date act = PyDate.strftime_dmy now /\
        to_village act = "" /\
        purpose act = holiday_purpose (user_holiday (public_holidays user) now) now.
Proof.
  intros Hsun Hnet. unfold default_activity_fallback. rewrite Hsun.
  unfold sunday_fallback, bind at 1, get.
  destruct (sunday_loop now (find_with_villages (users_collection w)) w)
    as (w' & -> & _ & _ & Hrec).
  { intros u Hu. apply find_one_of_elem.
    apply list_elem_of_In. apply list_elem_of_In, filter_In in Hu. tauto. }
  { exact Hnet. }
  exists w'. split; [reflexivity|].
  intros user Hu Hhas. destruct (Hrec user Hu Hhas) as (stored' & Hf & Ha).
  exists stored', (holiday_activity user now). auto.
Qed.

(** ** Unvisited villages in the interactive paths *)

Ltac each_ascii c :=
  destruct c as [[] [] [] [] [] [] [] []]; vm_compute; reflexivity.

Lemma to_lower_title_char (p : bool) (c : ascii) :
  to_lower (title_char p c) = to_lower c.
Proof. destruct p; each_ascii c. Qed.

Lemma title_char_to_lower (p : bool) (c : ascii) :
  title_char p (to_lower c) = title_char p c.
Proof. destruct p; each_ascii c. Qed.

Lemma isalpha_to_lower (c : ascii) : isalpha (to_lower c) = isalpha c.
Proof. each_ascii c. Qed.

Lemma title_from_cons (p : bool) (c : ascii) (r : string) :
  title_from p (String c r) = String (title_char p c) (title_from (isalpha c) r).
Proof. unfold title_char. simpl. now destruct (isalpha c). Qed.

(** Two names have the same title case exactly when they are equal up to
    case. *)
Lemma title_from_eq (p : bool) (a b : string) :
  title_from p a = title_from p b <-> lower a = lower b.
Proof.
  revert p b. induction a as [|c a IH]; intros p [|c' b].
  - tauto.
  - rewrite title_from_cons. simpl. split; discriminate.
  - rewrite title_from_cons. simpl. split; discriminate.
  - rewrite !title_from_cons. cbn [lower]. split.
    + intros [= Hc Hr].
      assert (Hl : to_lower c = to_lower c').
      { rewrite <- (to_lower_title_char p c), Hc. apply to_lower_title_char. }
      assert (Ha : isalpha c = isalpha c').
      { rewrite <- (isalpha_to_lower c), Hl. apply isalpha_to_lower. }
      rewrite Ha in Hr. apply IH in Hr. now rewrite Hl, Hr.
    + intros [= Hl Hr].
      assert (Ha : isalpha c = isalpha c').
      { rewrite <- (isalpha_to_lower c), Hl. apply isalpha_to_lower. }
      f_equal.
      * rewrite <- (title_char_to_lower p c), Hl. apply title_char_to_lower.
      * rewrite Ha. now apply IH.
Qed.

Lemma title_eq_lower (a b : string) : title a = title b <-> lower a = lower b.
Proof. apply title_from_eq. Qed.



(** ** Where the code departs from the specification *)

(** C1: a save does not always leave one record per calendar date. The
    user records 5 June 2024 through [/editact 5/6/2024] and again through
    [/editact 05/06/2024]; both spellings parse to the same day, the
    search for an existing record compares the strings, and the month
    holds two records of that day. *)
Theorem same_day_recorded_twice :
  let w := editact_and_press "05/06/2024" 102
             (editact_and_press "5/6/2024" 100 (world_of [field_worker])) in
  PyDate.strptime "5/6/2024" = Some (PyDate.mkdate 2024 6 5) /\
  PyDate.strptime "05/06/2024" = Some (PyDate.mkdate 2024 6 5) /\
  (find_one 7 (users_collection w) ≫= fun user =>
     month_list (activities user) "2024" "6")
  = Some [mk_activity "5/6/2024" "Anandpur" "" office_work;
          mk_activity "05/06/2024" "Anandpur" "" office_work].
Proof. vm_compute. repeat split; reflexivity. Qed.

(** C2: on a second Saturday the fallback records the holiday for the
    last user of the cursor only. Both users have a village and nothing
    recorded for the day; after the run the first has no record, the
    second has the holiday record. *)
Theorem second_saturday_fallback_records_last_user_only :
  let w := run (default_activity_fallback "20:00" saturday)
             (world_of [worker_a; worker_b]) in
  is_second_saturday saturday = true /\
  find_with_villages [worker_a; worker_b] = [worker_a; worker_b] /\
  has_activity worker_a saturday = false /\
  has_activity worker_b saturday = false /\
  (find_one 1 (users_collection w) ≫= fun user =>
     month_list (activities user) "2024" "6") = None /\
  (find_one 2 (users_collection w) ≫= fun user =>
     month_list (activities user) "2024" "6")
  = Some [mk_activity "08/06/2024" "Rampur" "" "Public holiday (Second Saturday)"].
Proof. vm_compute. repeat split; reflexivity. Qed.

(** C4: the fallback computes the unvisited villages by exact string
    comparison. For a document with the villages "gokul" and "rampur" and
    a recorded visit of "Gokul", the interactive paths offer Rampur only,
    while the fallback still holds "gokul" for unvisited and, on the draw
    0, records it as the destination of the day. *)
Theorem fallback_availability_is_case_sensitive :
  let w := run (default_activity_fallback "20:00" wednesday)
             (mk_world [lowercase_villages] ∅ ∅ [] ∅ ∅ [] [] 100 [0%nat; 0%nat]) in
  available_villages ["gokul"; "rampur"]
    (covered_villages (activities lowercase_villages) 2024 6) = ["Rampur"] /\
  fallback_available ["gokul"; "rampur"] [gokul_on_the_4th] = ["gokul"; "rampur"] /\
  (find_one 7 (users_collection w) ≫= fun user =>
     month_list (activities user) "2024" "6")
  = Some [gokul_on_the_4th; mk_activity "05/06/2024" "Anandpur" "gokul" seasonal].
Proof. vm_compute. repeat split; reflexivity. Qed.

(** C9: for a user without headquarters the headquarters button saves
    nothing. [/act] offers the button with the data [village_None]; the
    press raises [AttributeError] in the handler, before any save: the
    world is as [/act] left it, and no activity is stored. *)
Theorem headquarters_button_without_headquarters :
  let w := run (record_activity_command wednesday 1000 (mk_message 9 9 "/act"))
             (world_of [no_headquarters]) in
  let press := mk_callback 9 9 100 999 "village_None" in
  (exists text_ rows,
      outbox w = [(send_message 9 text_
                     ([("🏢 None (headquarters)", "village_None")] :: rows), true)]) /\
  callback_query wednesday 1001 press w = (Raise AttributeError, w) /\
  (find_one 9 (users_collection w) ≫= fun user =>
     month_list (activities user) "2024" "6") = None.
Proof.
  cbv zeta. split; [|split].
  - eexists _, _. vm_compute. reflexivity.
  - vm_compute. reflexivity.
  - vm_compute. reflexivity.
Qed.
(** * Further properties

    Settings, the village list, deletion, and facts that relate the
    functions of the scheduler and of the reports to each other. *)

Import Settings History Sheet Facts.

(** ** Migration files the records by their date *)


Lemma month_list_push_ne (y m y' m' : string) (act : activity)
    (acts : gmap string (gmap string (list activity))) :
  (y', m') <> (y, m) ->
  month_list (Nested (push_nested y m act acts)) y' m' = month_list (Nested acts) y' m'.
Proof.
  intros Hne. unfold month_list, push_nested.
  destruct (decide (y' = y)) as [->|Hy].
  - rewrite lookup_insert_eq. simpl.
    rewrite lookup_insert_ne by congruence.
    destruct (acts !! y); simpl; [reflexivity|]. now rewrite lookup_empty.
  - now rewrite lookup_insert_ne by congruence.
Qed.

Lemma migrate_list_snoc (acts : list activity) (a : activity) :
  migrate_list (acts ++ [a]) = migrate_step (migrate_list acts) a.
Proof. unfold migrate_list. now rewrite fold_left_app. Qed.

Lemma migrate_list_month (acts : list activity) (y m : string) :
  month_list (Nested (migrate_list acts)) y m
  = match List.filter (filed_in y m) acts with
    | [] => None
    | l => Some l
    end.
Proof.
  induction acts as [|a acts IH] using rev_ind.
  - unfold migrate_list, month_list. simpl. now rewrite lookup_empty.
  - rewrite migrate_list_snoc, List.filter_app. cbn [List.filter].
    unfold migrate_step, filed_in at 2.
    destruct (PyDate.strptime (date a)) as [dt|].
    2:{ now rewrite app_nil_r. }
    destruct (decide ((y, m) = (PyDate.str_int (PyDate.year dt),
                                PyDate.str_int (PyDate.month dt)))) as [E|Hne].
    + injection E as -> ->. rewrite month_list_push, IH.
      rewrite !bool_decide_eq_true_2 by reflexivity. cbn [andb].
      destruct (List.filter _ acts); reflexivity.
    + rewrite month_list_push_ne by exact Hne. rewrite IH.
      assert (Hb : bool_decide (PyDate.str_int (PyDate.year dt) = y)
                   && bool_decide (PyDate.str_int (PyDate.month dt) = m) = false).
      { apply andb_false_iff.
        destruct (decide (PyDate.str_int (PyDate.year dt) = y)) as [<-|H1].
        - right. apply bool_decide_eq_false_2. congruence.
        - left. now apply bool_decide_eq_false_2. }
      rewrite Hb. now rewrite app_nil_r.
Qed.

(** X1: what the migration makes of a legacy list whose dates are ASCII
    strings, on which the parser of the embedding is [datetime.strptime].
    Afterwards the month list of a year and a month holds, in their
    order, exactly the records whose date parses to that year and month;
    a record whose date does not parse is in no list, and no month is
    left with an empty list. *)
Theorem migration_files_records_by_date (uid : Z) (w : world) (user : user_doc)
    (acts : list activity) :
  find_one uid (users_collection w) = Some user ->
  activities user = Legacy acts ->
  forallb (fun a => is_ascii (date a)) acts = true ->
  exists user',
    find_one uid (users_collection (migrate_activities_structure uid w).2)
    = Some user' /\
    forall y m,
      month_list (activities user') y m
      = match List.filter (filed_in y m) acts with
        | [] => None
        | l => Some l
        end.
Proof.
  intros Hu Ha _. eexists. split; [exact (migrate_find uid w user Hu)|].
  intros y m. rewrite Ha. cbn [activities set_activities nested_of].
  apply migrate_list_month.
Qed.

Lemma migration_files_records_by_date_witness :
  exists user',
    find_one 7
      (users_collection
         (migrate_activities_structure 7
            (world_of [set_activities
                         (Legacy [gokul_visit;
                                  mk_activity "someday" "Anandpur" "Rampur" seasonal;
                                  gokul_on_the_4th]) field_worker])).2)
    = Some user' /\
    month_list (activities user') "2024" "6" = Some [gokul_visit; gokul_on_the_4th].
Proof.
  destruct (migration_files_records_by_date 7
              (world_of [set_activities
                           (Legacy [gokul_visit;
                                    mk_activity "someday" "Anandpur" "Rampur" seasonal;
                                    gokul_on_the_4th]) field_worker])
              _ _ eq_refl eq_refl eq_refl) as (user' & Hf & H).
  exists user'. split; [exact Hf|]. rewrite H. vm_compute. reflexivity.
Defined.

(** ** The second Saturday *)

Lemma weekday_shift (y m d : Z) :
  PyDate.weekday (PyDate.mkdate y m d)
  = (PyDate.weekday (PyDate.mkdate y m 1) + (d - 1)) mod 7.
Proof.
  unfold PyDate.weekday, PyDate.toordinal. simpl.
  rewrite Zplus_mod_idemp_l. f_equal. lia.
Qed.

(** X2: the second Saturday of the scheduler. The day on which the
    daily prompt is skipped and the holiday branch of the fallback runs
    is a Saturday whose day of the month is between 8 and 14, and every
    such day is. *)
Theorem second_saturday_is_the_saturday_of_days_8_to_14 (now : PyDate.date) :
  is_second_saturday now = true <-> PyDate.weekday now = 5 /\ 8 <= PyDate.day now <= 14.
Proof.
  unfold is_second_saturday, PyDate.second_saturday.
  rewrite andb_true_iff, Z.eqb_eq, bool_decide_eq_true.
  destruct now as [y m d]. cbn [PyDate.year PyDate.month PyDate.day].
  rewrite (weekday_shift y m d).
  set (w1 := PyDate.weekday (PyDate.mkdate y m 1)).
  assert (Hw : 0 <= w1 < 7) by (apply Z.mod_pos_bound; lia).
  split.
  - intros [H1 [= Hd]]. split; [exact H1|].
    pose proof (Z.mod_pos_bound (5 - w1) 7 ltac:(lia)). lia.
  - intros [H1 Hd]. split; [exact H1|]. f_equal.
    assert (E : (5 - w1) mod 7 = d - 8).
    { assert (d = 8 \/ d = 9 \/ d = 10 \/ d = 11 \/ d = 12 \/ d = 13 \/ d = 14) by lia.
      assert (w1 = 0 \/ w1 = 1 \/ w1 = 2 \/ w1 = 3 \/ w1 = 4 \/ w1 = 5 \/ w1 = 6) by lia.
      clearbody w1.
      repeat match goal with H : _ \/ _ |- _ => destruct H end; subst;
        first [reflexivity | (exfalso; vm_compute in H1; discriminate)]. }
    lia.
Qed.

Lemma filter_map_comm {A B} (p : B -> bool) (f : A -> B) (l : list A) :
  List.filter p (map f l) = map f (List.filter (fun x => p (f x)) l).
Proof.
  induction l as [|x l IH]; simpl; [reflexivity|].
  rewrite IH. now destruct (p (f x)).
Qed.

Lemma days_in_month_cases (y m : Z) :
  PyDate.days_in_month y m = 28 \/ PyDate.days_in_month y m = 29 \/
  PyDate.days_in_month y m = 30 \/ PyDate.days_in_month y m = 31.
Proof.
  unfold PyDate.days_in_month.
  destruct (m =? 2); [destruct (PyDate.is_leap y); auto|].
  destruct ((m =? 4) || (m =? 6) || (m =? 9) || (m =? 11)); auto.
Qed.

(** X3: the sheet of [/td] and the scheduler agree on the second
    Saturday. The second of the Saturdays that the sheet finds among the
    days of the month is the day that the scheduler computes, in every
    month of every year. *)
Theorem td_second_saturday_agrees (now : PyDate.date) :
  td_second_saturday (PyDate.year now) (PyDate.month now)
  = Some (PyDate.second_saturday now).
Proof.
  destruct now as [y m d]. cbn [PyDate.year PyDate.month].
  unfold td_second_saturday, td_saturdays, all_dates, PyDate.second_saturday.
  cbn [PyDate.year PyDate.month].
  rewrite filter_map_comm.
  set (w1 := PyDate.weekday (PyDate.mkdate y m 1)).
  assert (Hw : 0 <= w1 < 7) by (apply Z.mod_pos_bound; lia).
  assert (E : forall l,
             List.filter
               (fun k => PyDate.weekday (PyDate.mkdate y m (Z.of_nat (S k))) =? 5) l
             = List.filter (fun k => (w1 + Z.of_nat k) mod 7 =? 5) l).
  { intros l. apply List.filter_ext. intros k. rewrite weekday_shift. fold w1.
    do 2 f_equal. lia. }
  rewrite E. clear E.
  assert (Hw' : w1 = 0 \/ w1 = 1 \/ w1 = 2 \/ w1 = 3 \/ w1 = 4 \/ w1 = 5 \/ w1 = 6) by lia.
  clearbody w1.
  destruct (days_in_month_cases y m) as [-> | [-> | [-> | ->]]];
    repeat match goal with H : _ \/ _ |- _ => destruct H end; subst;
    reflexivity.
Qed.

Lemma isspace_not_alpha (c : ascii) : isspace c = true -> isalpha c = false.
Proof. destruct c as [[] [] [] [] [] [] [] []]; vm_compute; congruence. Qed.

Lemma count_alpha_title_from (p : bool) (s : string) :
  count_alpha (title_from p s) = count_alpha s.
Proof.
  revert p. induction s as [|c s IH]; intros p; [reflexivity|].
  rewrite title_from_cons. cbn [count_alpha]. rewrite IH. f_equal.
  unfold title_char. destruct p; each_ascii c.
Qed.

Lemma count_alpha_nonneg (s : string) : 0 <= count_alpha s.
Proof. induction s as [|c s IH]; simpl; [lia|]. destruct (isalpha c); lia. Qed.

Lemma count_alpha_lstrip (s : string) : count_alpha (lstrip s) = count_alpha s.
Proof.
  induction s as [|c s IH]; [reflexivity|]. simpl.
  destruct (isspace c) eqn:E; [|reflexivity].
  now rewrite IH, (isspace_not_alpha c E).
Qed.

Lemma count_alpha_rstrip (s : string) : count_alpha (rstrip s) = count_alpha s.
Proof.
  induction s as [|c s IH]; [reflexivity|]. cbn [rstrip count_alpha].
  rewrite <- IH. destruct (rstrip s) as [|c' r'].
  - destruct (isspace c) eqn:E; simpl; [now rewrite (isspace_not_alpha c E)|lia].
  - reflexivity.
Qed.

Lemma td_counts_not_blank (act : activity) :
  td_counts act = true -> truthy (strip (to_village act)) = true.
Proof.
  unfold td_counts, title. rewrite andb_true_iff, Z.leb_le, count_alpha_title_from.
  intros [H _]. apply truthy_spec. intros E.
  assert (H0 : count_alpha (strip (to_village act)) = 0) by now rewrite E.
  unfold strip in H0. rewrite count_alpha_rstrip, count_alpha_lstrip in H0. lia.
Qed.

Lemma all_dates_NoDup (y m : Z) : NoDup (all_dates y m).
Proof.
  unfold all_dates. apply NoDup_fmap_2_strong; [|apply NoDup_seq].
  intros a b _ _ [= H]. lia.
Qed.

Lemma last_on_day_snoc (day : PyDate.date) (acts : list activity) (a : activity) :
  last_on_day day (acts ++ [a])
  = if bool_decide (PyDate.strptime (date a) = Some day) then Some a
    else last_on_day day acts.
Proof.
  unfold last_on_day. rewrite List.filter_app. cbn [List.filter].
  destruct (bool_decide _).
  - apply last_snoc.
  - now rewrite app_nil_r.
Qed.

(** Changing a predicate at one point of a duplicate-free list changes
    the count by at most one. *)
Lemma filter_length_point {A} `{EqDecision A} (p q : A -> bool) (x0 : A) (l : list A) :
  NoDup l ->
  (forall x, x <> x0 -> q x = p x) ->
  (length (List.filter q l) <= length (List.filter p l) + (if q x0 then 1 else 0))%nat /\
  (x0 ∉ l -> length (List.filter q l) = length (List.filter p l)).
Proof.
  intros Hnd Hpq. induction Hnd as [|x l Hx Hnd IH]; simpl.
  - split; [lia | reflexivity].
  - destruct IH as [IH1 IH2]. destruct (decide (x = x0)) as [->|Hne].
    + specialize (IH2 Hx). split.
      * destruct (q x0), (p x0); simpl; lia.
      * intros H. exfalso. apply H. left.
    + rewrite (Hpq x Hne). split.
      * destruct (p x); simpl; lia.
      * intros H. rewrite not_elem_of_cons in H. destruct H as [_ H].
        specialize (IH2 H). destruct (p x); simpl; lia.
Qed.

Lemma td_days_le_records (days : list PyDate.date) (acts : list activity) :
  NoDup days ->
  (length (List.filter (td_day_counts acts) days)
   <= length (List.filter (fun a => truthy (strip (to_village a))) acts))%nat.
Proof.
  intros Hnd. induction acts as [|a acts IH] using rev_ind.
  - unfold td_day_counts, last_on_day. simpl.
    induction days; simpl; [lia|]. inversion Hnd; auto.
  - rewrite List.filter_app, length_app. cbn [List.filter].
    destruct (PyDate.strptime (date a)) as [dt|] eqn:Ed.
    + destruct (filter_length_point (td_day_counts acts) (td_day_counts (acts ++ [a]))
                  dt days Hnd) as [H _].
      { intros x Hx. unfold td_day_counts. rewrite last_on_day_snoc, Ed.
        now rewrite bool_decide_eq_false_2 by congruence. }
      assert (Hq : td_day_counts (acts ++ [a]) dt = td_counts a).
      { unfold td_day_counts. rewrite last_on_day_snoc, Ed.
        now rewrite bool_decide_eq_true_2. }
      rewrite Hq in H. destruct (td_counts a) eqn:Ec.
      * rewrite (td_counts_not_blank a Ec). simpl. lia.
      * destruct (truthy _); simpl; lia.
    + assert (E : List.filter (td_day_counts (acts ++ [a])) days
                  = List.filter (td_day_counts acts) days).
      { apply List.filter_ext. intros x. unfold td_day_counts.
        rewrite last_on_day_snoc, Ed. now rewrite bool_decide_eq_false_2. }
      rewrite E. lia.
Qed.

Lemma td_tour_days_count (y m : Z) (acts : list activity) :
  1 <= y <= 9999 ->
  td_tour_days y m acts
  = Some (Z.of_nat (length (List.filter (td_day_counts acts) (all_dates y m)))).
Proof.
  intros [H1 H2]. unfold td_tour_days.
  rewrite (proj2 (Z.leb_le _ _) H1), (proj2 (Z.leb_le _ _) H2). simpl. f_equal.
  etransitivity; [|exact (count_fold _ _ 0)].
  generalize 0. induction (all_dates y m) as [|day l IH];
    intros c; simpl; [reflexivity|].
  rewrite IH. f_equal. unfold td_day_counts. rewrite activities_by_date_get.
  destruct (last_on_day day acts); reflexivity.
Qed.

Lemma dnact_count (acts : list activity) :
  dnact_tour_days acts
  = Z.of_nat (length (List.filter (fun a => truthy (strip (to_village a))) acts)).
Proof.
  induction acts as [|a acts IH]; simpl; [reflexivity|].
  rewrite IH. destruct (truthy _); simpl; lia.
Qed.

(** X4: the two reports, on the same month list. The number of tour
    days in the summary row of [/td] is never above the number that
    [/dnact] reports, nor above the number of days of the month: [/td]
    counts a day at most once, and a day that it counts has a record
    with a destination, which [/dnact] counts. *)
Theorem td_count_at_most_dnact_count (year_filter month_filter : Z)
    (acts : list activity) (tour_days : Z) :
  td_tour_days year_filter month_filter acts = Some tour_days ->
  0 <= tour_days <= dnact_tour_days acts /\
  tour_days <= PyDate.days_in_month year_filter month_filter.
Proof.
  intros H.
  assert (Hy : 1 <= year_filter <= 9999).
  { unfold td_tour_days in H.
    destruct ((1 <=? year_filter) && (year_filter <=? 9999)) eqn:E; [|discriminate].
    apply andb_true_iff in E. lia. }
  rewrite (td_tour_days_count _ _ _ Hy) in H. injection H as <-.
  rewrite dnact_count.
  pose proof (td_days_le_records (all_dates year_filter month_filter) acts
                (all_dates_NoDup _ _)).
  pose proof (List.filter_length_le (td_day_counts acts)
                (all_dates year_filter month_filter)) as Hl.
  unfold all_dates in Hl at 2. rewrite length_map, length_seq in Hl.
  destruct (days_in_month_cases year_filter month_filter) as [E | [E | [E | E]]];
    rewrite E in *; lia.
Qed.

Lemma td_count_at_most_dnact_count_witness :
  td_tour_days 2024 6 (both_visited ++ [leave_day]) = Some 1 /\
  0 <= 1 <= dnact_tour_days (both_visited ++ [leave_day]) /\
  1 <= PyDate.days_in_month 2024 6.
Proof.
  split; [vm_compute; reflexivity|].
  apply (td_count_at_most_dnact_count 2024 6 (both_visited ++ [leave_day]) 1).
  vm_compute. reflexivity.
Defined.
(** ** The village list: upload, single addition, cleaning *)

Lemma title_char_idem (p : bool) (c : ascii) :
  title_char p (title_char p c) = title_char p c.
Proof. destruct p; each_ascii c. Qed.

Lemma isalpha_title_char (p : bool) (c : ascii) :
  isalpha (title_char p c) = isalpha c.
Proof. destruct p; each_ascii c. Qed.

Lemma title_from_idem (p : bool) (s : string) :
  title_from p (title_from p s) = title_from p s.
Proof.
  revert p. induction s as [|c s IH]; intros p; [reflexivity|].
  rewrite !title_from_cons, title_char_idem, isalpha_title_char, IH. reflexivity.
Qed.

Lemma title_idem (s : string) : title (title s) = title s.
Proof. apply title_from_idem. Qed.

(** Names in title case that are equal up to case are equal. *)
Lemma title_fixed_lower_inj (a b : string) :
  title a = a -> title b = b -> lower a = lower b -> a = b.
Proof. intros Ha Hb H. apply title_eq_lower in H. congruence. Qed.

Lemma normalised_spec (v : string) :
  normalised v = true <-> valid_village_name v = true /\ title v = v.
Proof. unfold normalised. now rewrite andb_true_iff, String.eqb_eq. Qed.

Lemma set_add_app (x : string) (s : list string) :
  x ∉ s -> set_add x s = s ++ [x].
Proof. intros H. unfold set_add. now rewrite bool_decide_eq_false_2. Qed.

(** The loop of the upload, from any state that satisfies the invariant:
    the keys seen are those of the names kept. *)
Lemma upload_loop (cells : list string) (st : upload_state) :
  seen st = map lower (filtered_villages st) ->
  village_list_ok (filtered_villages st) ->
  let st' := fold_left upload_step cells st in
  seen st' = map lower (filtered_villages st') /\
  village_list_ok (filtered_villages st') /\
  (forall v, v ∈ filtered_villages st' <->
             v ∈ filtered_villages st \/
             (valid_village_name v = true /\
              exists cell, cell ∈ cells /\ v = title (strip cell))).
Proof.
  revert st. induction cells as [|cell cells IH]; intros st Hseen Hok; cbn zeta.
  - simpl. split; [exact Hseen|]. split; [exact Hok|].
    intros v. split; [auto|]. intros [H | (_ & c & Hc & _)]; [exact H | inversion Hc].
  - cbn [fold_left].
    set (v_clean := title (strip cell)).
    assert (Hstep : exists st1,
               upload_step st cell = st1 /\
               seen st1 = map lower (filtered_villages st1) /\
               village_list_ok (filtered_villages st1) /\
               (forall v, v ∈ filtered_villages st1 <->
                          v ∈ filtered_villages st \/
                          (valid_village_name v = true /\ v = v_clean))).
    { unfold upload_step. fold v_clean.
      destruct (valid_village_name v_clean) eqn:Hv; cbn [negb].
      2:{ eexists. split; [reflexivity|]. cbn [seen filtered_villages].
          split; [exact Hseen|]. split; [exact Hok|].
          intros v. split; [auto|]. intros [H | [H ->]]; [exact H | congruence]. }
      destruct (decide (lower v_clean ∈ seen st)) as [Hin|Hnin].
      - rewrite (bool_decide_eq_true_2 _ Hin).
        eexists. split; [reflexivity|].
        split; [exact Hseen|]. split; [exact Hok|].
        intros v. split; [auto|]. intros [H | [_ ->]]; [exact H|].
        rewrite Hseen in Hin. apply list_elem_of_fmap in Hin as (u & Hl & Hu).
        destruct Hok as [Hn _]. rewrite Forall_forall in Hn.
        pose proof (proj1 (normalised_spec u) (Hn u Hu)) as [_ Htu].
        replace v_clean with u; [exact Hu|].
        symmetry. apply title_fixed_lower_inj; [apply title_idem | exact Htu | exact Hl].
      - rewrite (bool_decide_eq_false_2 _ Hnin).
        eexists. split; [reflexivity|]. cbn [seen filtered_villages].
        split.
        { rewrite set_add_app by exact Hnin. now rewrite map_app, Hseen. }
        split.
        { destruct Hok as [Hn Hnd]. split.
          - apply Forall_app. split; [exact Hn|]. constructor; [|constructor].
            apply normalised_spec. split; [exact Hv | apply title_idem].
          - rewrite map_app. apply NoDup_app. split; [exact Hnd|]. split.
            + intros x Hx Hx'. apply list_elem_of_singleton in Hx'. subst x.
              now rewrite <- Hseen in Hx.
            + apply NoDup_singleton. }
        intros v. rewrite elem_of_app, list_elem_of_singleton. split.
        + intros [H | ->]; [now left | right; auto].
        + intros [H | [_ ->]]; auto. }
    destruct Hstep as (st1 & -> & Hseen1 & Hok1 & Hmem1).
    destruct (IH st1 Hseen1 Hok1) as (Hs & Ho & Hm).
    split; [exact Hs|]. split; [exact Ho|].
    intros v. rewrite Hm, Hmem1. split.
    + intros [[H | [Hv ->]] | (Hv & c & Hc & ->)]; [now left | right | right].
      * split; [exact Hv|]. exists cell. split; [left | reflexivity].
      * split; [exact Hv|]. exists c. split; [now right | reflexivity].
    + intros [H | (Hv & c & Hc & ->)]; [now left; left|].
      apply elem_of_cons in Hc as [-> | Hc].
      * left. right. auto.
      * right. split; [exact Hv|]. now exists c.
Qed.

Lemma filter_upload_spec (cells : list string) :
  village_list_ok (filtered_villages (filter_upload cells)) /\
  (forall v, v ∈ filtered_villages (filter_upload cells) <->
             valid_village_name v = true /\
             exists cell, cell ∈ cells /\ v = title (strip cell)).
Proof.
  destruct (upload_loop cells (mk_upload [] [] [])) as (_ & Hok & Hm).
  - reflexivity.
  - split; constructor.
  - split; [exact Hok|]. intros v. rewrite Hm. cbn [filtered_villages]. split.
    + intros [H | H]; [inversion H | exact H].
    + auto.
Qed.

(** *** Steps that leave the store alone *)

Create HintDb keeps discriminated.

Lemma keeps_ret {A} (a : A) : keeps_users (ret a).
Proof. now intros w. Qed.

Lemma keeps_raise {A} (e : exn) : keeps_users (raise (A := A) e).
Proof. now intros w. Qed.

Lemma keeps_api (c : api_call) : keeps_users (api c).
Proof. intros w. apply api_users. Qed.

Lemma keeps_get : keeps_users get.
Proof. now intros w. Qed.

Lemma keeps_bind {A B} (c : M A) (k : A -> M B) :
  keeps_users c -> (forall a, keeps_users (k a)) -> keeps_users (bind c k).
Proof.
  intros Hc Hk w. unfold bind. specialize (Hc w).
  destruct (c w) as [[a|e] w1]; simpl in *; [|exact Hc].
  now rewrite Hk.
Qed.

Lemma keeps_try {A} (c h : M A) :
  keeps_users c -> keeps_users h -> keeps_users (try_except c h).
Proof.
  intros Hc Hh w. unfold try_except. specialize (Hc w).
  destruct (c w) as [[a|e] w1]; simpl in *; [exact Hc|].
  now rewrite Hh.
Qed.

Lemma keeps_set_input_prompt_message (f : gmap Z Z -> gmap Z Z) :
  keeps_users (modify (set_input_prompt_message f)).
Proof. now intros w. Qed.

Lemma keeps_set_pending_prompts (f : list (Z * prompt) -> list (Z * prompt)) :
  keeps_users (modify (set_pending_prompts f)).
Proof. now intros w. Qed.

Lemma keeps_set_cancelled_users (f : gset Z -> gset Z) :
  keeps_users (modify (set_cancelled_users f)).
Proof. now intros w. Qed.

Lemma keeps_set_callback_data (f : gmap Z draft -> gmap Z draft) :
  keeps_users (modify (set_callback_data f)).
Proof. now intros w. Qed.

Lemma keeps_set_daily_prompt_message_ids (f : gmap Z msg_info -> gmap Z msg_info) :
  keeps_users (modify (set_daily_prompt_message_ids f)).
Proof. now intros w. Qed.

#[global] Hint Resolve keeps_ret keeps_raise keeps_api keeps_get keeps_bind keeps_try
  keeps_set_input_prompt_message keeps_set_pending_prompts
  keeps_set_cancelled_users keeps_set_callback_data
  keeps_set_daily_prompt_message_ids : keeps.

Lemma keeps_delete_input_prompt (uid chat_ : Z) :
  keeps_users (delete_input_prompt uid chat_).
Proof.
  unfold delete_input_prompt. apply keeps_bind; [auto with keeps|].
  intros w. destruct (input_prompt_message w !! uid); auto 10 with keeps.
Qed.

Lemma keeps_villages_menu (uid chat_ : Z) (heading : string) :
  keeps_users (villages_menu uid chat_ heading).
Proof. unfold villages_menu. auto 10 with keeps. Qed.

#[global] Hint Resolve keeps_delete_input_prompt keeps_villages_menu : keeps.

Lemma bind_get {A} (k : world -> M A) (w : world) : bind get k w = k w w.
Proof. reflexivity. Qed.

(** A write followed by steps that leave the store alone. *)
Lemma write_then_keeps {A} (f : list user_doc -> list user_doc) (k : unit -> M A)
    (w : world) :
  (forall a, keeps_users (k a)) ->
  users_collection (bind (modify (set_users f)) k w).2 = f (users_collection w).
Proof. intros Hk. unfold bind, modify. now rewrite Hk. Qed.

Lemma set_villages_keeps_id (vs : list string) (u : user_doc) :
  user_id (set_villages vs u) = user_id u.
Proof. reflexivity. Qed.

(** X5: an upload of a village file whose cells are ASCII strings, for a
    known user. The names kept are the valid ones among the cleaned cells
    (stripped and put in title case), each once: they are in title case
    and distinct even up to case. When there is none the store is left
    as it is; otherwise the list replaces the village list of the user,
    whatever the Bot API answers to the replies. *)
Theorem upload_replaces_village_list (err : string) (msg : message)
    (cells : list string) (w : world) (user : user_doc) :
  find_one (from_user msg) (users_collection w) = Some user ->
  forallb is_ascii cells = true ->
  let vs := filtered_villages (filter_upload cells) in
  let w' := (handle_file_upload err msg cells w).2 in
  village_list_ok vs /\
  (forall v, v ∈ vs <->
             valid_village_name v = true /\
             exists cell, cell ∈ cells /\ v = title (strip cell)) /\
  (vs = [] -> users_collection w' = users_collection w) /\
  (vs <> [] ->
   find_one (from_user msg) (users_collection w') = Some (set_villages vs user)).
Proof.
  intros Hu Hascii vs w'.
  destruct (filter_upload_spec cells) as [Hok Hmem].
  split; [exact Hok|]. split; [exact Hmem|].
  unfold w', handle_file_upload. rewrite bind_get, Hu, Hascii. cbn [negb].
  fold vs.
  assert (Hh : keeps_users
                 (api (reply_to (chat msg) ("❌ Error processing file: " +:+ err)) ;;;
                  ret tt)) by auto with keeps.
  destruct vs as [|v0 vs0] eqn:Evs.
  - split; [|congruence]. intros _.
    apply keeps_try; [auto with keeps | exact Hh].
  - split; [discriminate|]. intros _.
    unfold try_except.
    match goal with |- context [bind (modify (set_users ?f)) ?k w] =>
      assert (Hw : users_collection (bind (modify (set_users f)) k w).2
                   = f (users_collection w))
        by (apply write_then_keeps; intros; auto 10 with keeps)
    end.
    match type of Hw with users_collection (?c w).2 = _ =>
      destruct (c w) as [[a|e] w1] eqn:E end; cbn [snd] in *.
    + rewrite Hw, find_one_update_one by apply set_villages_keeps_id.
      now rewrite Hu.
    + rewrite Hh, Hw, find_one_update_one by apply set_villages_keeps_id.
      now rewrite Hu.
Qed.

Lemma upload_replaces_village_list_witness :
  find_one 7 (users_collection (world_of [field_worker])) = Some field_worker /\
  villages <$>
    find_one 7
      (users_collection
         (handle_file_upload "" (mk_message 7 7 "")
            [" gokul "; "GOKUL"; "/start"; "ram pur"; "Ram-Pur"]
            (world_of [field_worker])).2)
  = Some ["Gokul"; "Ram Pur"].
Proof.
  split; [reflexivity|].
  destruct (upload_replaces_village_list "" (mk_message 7 7 "")
              [" gokul "; "GOKUL"; "/start"; "ram pur"; "Ram-Pur"]
              (world_of [field_worker]) field_worker eq_refl eq_refl)
    as (_ & _ & _ & H).
  cbn [from_user] in H. rewrite H by (vm_compute; discriminate).
  vm_compute. reflexivity.
Defined.

Lemma set_villages_same (u : user_doc) : set_villages (villages u) u = u.
Proof. now destruct u. Qed.

Lemma add_to_set_ok (v : string) (l : list string) :
  normalised v = true -> village_list_ok l -> village_list_ok (add_to_set v l).
Proof.
  intros Hv [Hn Hnd]. unfold add_to_set.
  destruct (decide (v ∈ l)) as [Hin|Hnin].
  - rewrite (bool_decide_eq_true_2 _ Hin). now split.
  - rewrite (bool_decide_eq_false_2 _ Hnin). split.
    + apply Forall_app. split; [exact Hn|]. now constructor.
    + rewrite map_app. apply NoDup_app. split; [exact Hnd|]. split.
      * intros x Hx Hx'. apply list_elem_of_singleton in Hx'. subst x.
        apply list_elem_of_fmap in Hx as (u & Hl & Hu).
        rewrite Forall_forall in Hn.
        pose proof (proj1 (normalised_spec u) (Hn u Hu)) as [_ Htu].
        pose proof (proj1 (normalised_spec v) Hv) as [_ Htv].
        apply Hnin. replace v with u; [exact Hu|].
        symmetry. now apply title_fixed_lower_inj.
      * apply NoDup_singleton.
Qed.

(** X6: a village typed in the settings as an ASCII text, for a known
    user. The name is stripped and put in title case; an invalid one
    leaves the list as it is, a valid one is in the list afterwards,
    appended when it was not there, and nothing else of the document
    changes. A list that was normalised (valid ASCII names in title
    case, distinct up to case) stays normalised. *)
Theorem add_village_keeps_list_normalised (msg : message) (w : world)
    (user : user_doc) :
  find_one (from_user msg) (users_collection w) = Some user ->
  is_ascii (text msg) = true ->
  let village := title (strip (text msg)) in
  let w' := (handle_settings_add_single_village msg w).2 in
  let villages' :=
    if valid_village_name village
    then (if bool_decide (village ∈ villages user) then villages user
          else villages user ++ [village])
    else villages user in
  find_one (from_user msg) (users_collection w') = Some (set_villages villages' user) /\
  (valid_village_name village = true -> village ∈ villages') /\
  (village_list_ok (villages user) -> village_list_ok villages').
Proof.
  intros Hu Hascii village w' villages'.
  assert (Hfind : find_one (from_user msg) (users_collection w')
                  = Some (set_villages villages' user)).
  { unfold w', villages', handle_settings_add_single_village. fold village.
    rewrite Hascii. cbn [negb].
    destruct (valid_village_name village) eqn:Hv; cbn [negb].
    - unfold update_known.
      match goal with |- context [bind (bind get ?k1) ?k2 w] =>
        change (bind (bind get k1) k2 w) with (bind (k1 w) k2 w) end.
      cbv beta. rewrite Hu.
      rewrite write_then_keeps by (intros; auto 10 with keeps).
      rewrite find_one_update_one by (intros; apply set_villages_keeps_id).
      rewrite Hu. reflexivity.
    - rewrite set_villages_same, <- Hu. f_equal.
      assert (K : keeps_users
                    (api (send_message (chat msg)
                            "❌ Invalid village name. Village names must be non-empty, not start with '/', and contain only letters, numbers, or spaces."
                            []) ;;;
                     delete_input_prompt (from_user msg) (chat msg) ;;;
                     villages_menu (from_user msg) (chat msg) ""))
        by auto 10 with keeps.
      apply K. }
  split; [exact Hfind|]. unfold villages'.
  destruct (valid_village_name village) eqn:Hv.
  - split.
    + intros _. destruct (decide (village ∈ villages user)) as [Hin|Hnin].
      * now rewrite (bool_decide_eq_true_2 _ Hin).
      * rewrite (bool_decide_eq_false_2 _ Hnin). set_solver.
    + intros Hok. apply (add_to_set_ok village (villages user)); [|exact Hok].
      apply normalised_spec. split; [exact Hv | apply title_idem].
  - split; [discriminate | auto].
Qed.

Lemma add_village_keeps_list_normalised_witness :
  villages <$>
    find_one 7
      (users_collection
         (handle_settings_add_single_village (mk_message 7 7 "  new  sonpur ")
            (world_of [field_worker])).2)
  = Some ["Gokul"; "Rampur"; "New  Sonpur"].
Proof.
  destruct (add_village_keeps_list_normalised (mk_message 7 7 "  new  sonpur ")
              (world_of [field_worker]) field_worker eq_refl eq_refl) as (H & _ & _).
  cbn [from_user] in H. rewrite H. vm_compute. reflexivity.
Defined.

(** *** [clean_invalid_villages] *)

Lemma filter_length_id {A} (p : A -> bool) (l : list A) :
  length (List.filter p l) = length l -> List.filter p l = l.
Proof.
  induction l as [|x l IH]; simpl; [reflexivity|].
  destruct (p x); simpl; intros H.
  - f_equal. apply IH. lia.
  - pose proof (List.filter_length_le p l). lia.
Qed.

Lemma update_one_app_absent (uid : Z) (f : user_doc -> user_doc)
    (done rest : list user_doc) :
  uid ∉ map user_id done ->
  update_one uid f (done ++ rest) = done ++ update_one uid f rest.
Proof.
  induction done as [|u done IH]; simpl; intros H; [reflexivity|].
  rewrite not_elem_of_cons in H. destruct H as [Hne H].
  destruct (Z.eqb_spec (user_id u) uid) as [E|_]; [congruence|].
  now rewrite IH.
Qed.

Lemma cleaned_doc_id (u : user_doc) : user_id (cleaned_doc u) = user_id u.
Proof. reflexivity. Qed.

Lemma clean_loop (todo done : list user_doc) (w : world) :
  NoDup (map user_id (done ++ todo)) ->
  forallb (fun u => forallb is_ascii (villages u)) todo = true ->
  users_collection w = map cleaned_doc done ++ todo ->
  exists w',
    for_each todo clean_user w = (Ok tt, w') /\
    users_collection w' = map cleaned_doc (done ++ todo) /\
    outbox w' = outbox w /\
    pending_prompts w' = pending_prompts w /\
    callback_data w' = callback_data w.
Proof.
  revert done w. induction todo as [|u todo IH]; intros done w Hnd Hascii Hw.
  - exists w. rewrite app_nil_r in *. simpl. auto.
  - cbn [forallb] in Hascii. apply andb_true_iff in Hascii as [Hau Hascii].
    rewrite for_each_cons.
    assert (Hnd' : NoDup (map user_id ((done ++ [u]) ++ todo)))
      by now rewrite <- app_assoc.
    assert (Hstep : exists w1,
               clean_user u w = (Ok tt, w1) /\
               users_collection w1 = map cleaned_doc (done ++ [u]) ++ todo /\
               outbox w1 = outbox w /\
               pending_prompts w1 = pending_prompts w /\
               callback_data w1 = callback_data w).
    { unfold clean_user. cbv zeta. rewrite Hau. cbn [negb].
      destruct (decide (length (List.filter valid_village_name (villages u))
                        = length (villages u))) as [E|E].
      - rewrite (bool_decide_eq_true_2 _ E). exists w. split; [reflexivity|].
        split; [|auto]. rewrite Hw, map_app, <- app_assoc. simpl.
        unfold cleaned_doc. now rewrite (filter_length_id _ _ E), set_villages_same.
      - rewrite (bool_decide_eq_false_2 _ E). eexists. split; [reflexivity|].
        split; [|auto]. cbn [users_collection set_users]. rewrite Hw.
        rewrite update_one_app_absent.
        + simpl. rewrite Z.eqb_refl, map_app, <- app_assoc. reflexivity.
        + rewrite map_app in Hnd. apply NoDup_app in Hnd as (_ & Hd & _).
          rewrite map_map. intros Hin.
          apply list_elem_of_fmap in Hin as (u' & Hid & Hu').
          apply (Hd (user_id u)).
          * apply list_elem_of_fmap. exists u'. split; [exact Hid | exact Hu'].
          * simpl. left. }
    destruct Hstep as (w1 & E1 & Hu1 & Ho1 & Hp1 & Hc1).
    destruct (IH (done ++ [u]) w1 Hnd' Hascii Hu1)
      as (w' & E' & Hu' & Ho' & Hp' & Hc').
    unfold bind. rewrite E1, E'.
    exists w'. split; [reflexivity|]. rewrite <- app_assoc in Hu'.
    split; [exact Hu'|]. split; [congruence|]. split; congruence.
Qed.

(** X7: the one-time cleaning of the village lists, when no two documents
    share a user id and the stored names are ASCII strings: every
    document keeps exactly its valid names, in order, and nothing else
    changes; no message is sent. A second run changes nothing. *)
Theorem clean_invalid_villages_cleans_every_list (w : world) :
  NoDup (map user_id (users_collection w)) ->
  forallb (fun u => forallb is_ascii (villages u)) (users_collection w) = true ->
  exists w',
    clean_invalid_villages w = (Ok tt, w') /\
    users_collection w' = map cleaned_doc (users_collection w) /\
    outbox w' = outbox w /\
    Forall (fun u => Forall (fun v => valid_village_name v = true) (villages u))
      (users_collection w') /\
    users_collection (clean_invalid_villages w').2 = users_collection w'.
Proof.
  intros Hnd Hascii.
  assert (Hrun : forall w0,
             NoDup (map user_id (users_collection w0)) ->
             forallb (fun u => forallb is_ascii (villages u)) (users_collection w0)
             = true ->
             exists w1,
               clean_invalid_villages w0 = (Ok tt, w1) /\
               users_collection w1 = map cleaned_doc (users_collection w0) /\
               outbox w1 = outbox w0).
  { intros w0 H0 Ha0. unfold clean_invalid_villages. rewrite bind_get.
    destruct (clean_loop (users_collection w0) [] w0 H0 Ha0 eq_refl)
      as (w1 & E & Hu & Ho & _).
    exists w1. auto. }
  destruct (Hrun w Hnd Hascii) as (w' & E & Hu & Ho).
  exists w'. split; [exact E|]. split; [exact Hu|]. split; [exact Ho|].
  assert (Hvalid : Forall (fun u => Forall (fun v => valid_village_name v = true)
                                      (villages u))
                     (users_collection w')).
  { rewrite Hu. apply Forall_fmap, Forall_forall. intros u _. simpl.
    apply Forall_forall. intros v Hv.
    apply list_elem_of_In, filter_In in Hv. tauto. }
  split; [exact Hvalid|].
  destruct (Hrun w') as (w2 & E2 & Hu2 & _).
  { rewrite Hu, map_map. exact Hnd. }
  { rewrite Hu. rewrite forallb_forall in Hascii |- *. intros u' Hin.
    apply in_map_iff in Hin as (u & <- & Hin). specialize (Hascii u Hin).
    cbn [cleaned_doc villages set_villages].
    rewrite forallb_forall in Hascii |- *. intros v Hv. apply Hascii.
    apply filter_In in Hv. tauto. }
  rewrite E2. cbn [snd]. rewrite Hu2.
  clear -Hvalid. induction Hvalid as [|u l Hu Hl IH]; simpl; [reflexivity|].
  f_equal; [|exact IH]. unfold cleaned_doc.
  replace (List.filter valid_village_name (villages u)) with (villages u).
  - apply set_villages_same.
  - symmetry. apply forallb_filter_id, forallb_forall. intros v Hv.
    rewrite Forall_forall in Hu. apply Hu. now apply list_elem_of_In.
Qed.

Lemma clean_invalid_villages_cleans_every_list_witness :
  map villages
    (users_collection
       (clean_invalid_villages
          (world_of [mk_user 1 None ["Gokul"; "/act"; "Ram Pur"; "x-y"; ""]
                       (Legacy []) [] None None [];
                     worker_b])).2)
  = [["Gokul"; "Ram Pur"]; ["Sonpur"]].
Proof.
  destruct (clean_invalid_villages_cleans_every_list
              (world_of [mk_user 1 None ["Gokul"; "/act"; "Ram Pur"; "x-y"; ""]
                           (Legacy []) [] None None [];
                         worker_b]))
    as (w' & E & Hu & _).
  - apply (bool_decide_unpack _). vm_compute. exact I.
  - reflexivity.
  - rewrite E. cbn [snd]. rewrite Hu. vm_compute. reflexivity.
Defined.
(** ** Answers typed in the settings *)

(** A non-blank answer of a known user who is not marked as cancelled is
    stored, whatever the Bot API answers; a blank answer and the answer
    of a cancelled user are not. *)
Lemma settings_answer_stores (timeout : Z) (msg : message) (value : string)
    (invalid confirmation : string) (store : user_doc -> user_doc) (w : world)
    (user : user_doc) :
  (forall u, user_id (store u) = user_id u) ->
  find_one (from_user msg) (users_collection w) = Some user ->
  let w' := (settings_answer timeout msg value invalid confirmation store w).2 in
  (from_user msg ∉ cancelled_users w -> value <> "" ->
   find_one (from_user msg) (users_collection w') = Some (store user)) /\
  (from_user msg ∈ cancelled_users w \/ value = "" ->
   users_collection w' = users_collection w).
Proof.
  intros Hid Hu w'. unfold w', settings_answer. rewrite bind_get.
  split.
  - intros Hc Hv. rewrite (bool_decide_eq_false_2 _ Hc).
    apply truthy_spec in Hv. rewrite Hv. cbn [negb].
    unfold update_known.
    match goal with |- context [bind (bind get ?k1) ?k2 w] =>
      change (bind (bind get k1) k2 w) with (bind (k1 w) k2 w) end.
    cbv beta. rewrite Hu.
    rewrite write_then_keeps by (intros; auto 10 with keeps).
    rewrite find_one_update_one by exact Hid.
    now rewrite Hu.
  - intros H. destruct (decide (from_user msg ∈ cancelled_users w)) as [Hc|Hc].
    + now rewrite (bool_decide_eq_true_2 _ Hc).
    + rewrite (bool_decide_eq_false_2 _ Hc). destruct H as [H | ->]; [tauto|].
      cbn [truthy String.eqb negb].
      match goal with |- users_collection (?c w).2 = _ =>
        assert (K : keeps_users c) by auto 10 with keeps end.
      apply K.
Qed.

(** X8: a headquarters set through the settings as an ASCII text is
    recognised by the headquarters button. The handler stores the answer
    stripped and in title case; the button of [/act] carries the stored
    name, the press is compared with its title case, and on an ASCII
    name the two agree. So the press saves the office-work record for
    the date of the flow, from that headquarters. *)
Theorem headquarters_set_in_settings_is_recognised (timeout : Z) (msg : message)
    (now : PyDate.date) (time : Z) (call : callback) (w : world)
    (user : user_doc) (dt : PyDate.date) :
  let uid := from_user msg in
  let hq := title (strip (text msg)) in
  let w1 := (handle_settings_sethq timeout msg w).2 in
  let date_str := draft_date_or_today now uid w1 in
  find_one uid (users_collection w) = Some user ->
  is_ascii (text msg) = true ->
  uid ∉ cancelled_users w ->
  hq <> "" ->
  call_from_user call = uid ->
  data call = "village_" +:+ hq ->
  PyDate.strptime date_str = Some dt ->
  find_one uid (users_collection w1) = Some (set_headquarters (Some hq) user) /\
  exists r w2 user2,
    callback_query now time call w1 = (r, w2) /\
    find_one uid (users_collection w2) = Some user2 /\
    mk_activity date_str hq "" office_work
    ∈ default [] (month_list (activities user2)
                    (PyDate.str_int (PyDate.year dt))
                    (PyDate.str_int (PyDate.month dt))).
Proof.
  intros uid hq w1 date_str Hu Hascii Hc Hne Hfrom Hdata Hdt.
  assert (H1 : find_one uid (users_collection w1)
               = Some (set_headquarters (Some hq) user)).
  { unfold w1, handle_settings_sethq. rewrite Hascii.
    apply (settings_answer_stores timeout msg hq _ _
             (set_headquarters (Some hq)) w user); auto. }
  split; [exact H1|].
  destruct (headquarters_press_saves now time call w1
              (set_headquarters (Some hq) user) hq dt)
    as (r & w2 & user2 & evs & updated & E & Hf & Hin & _).
  - now rewrite Hfrom.
  - reflexivity.
  - rewrite Hdata. unfold hq. now rewrite title_idem.
  - rewrite Hfrom. exact Hdt.
  - exists r, w2, user2. split; [exact E|]. rewrite Hfrom in Hf, Hin.
    split; [exact Hf|].
    replace (from_of (set_headquarters (Some hq) user)) with hq in Hin.
    + exact Hin.
    + unfold from_of. cbn [headquarters set_headquarters].
      apply truthy_spec in Hne. now rewrite Hne.
Qed.

Lemma headquarters_set_in_settings_is_recognised_witness :
  exists w2 user2,
    (callback_query wednesday 1001 (mk_callback 9 9 100 999 "village_Anand Pur")
       (handle_settings_sethq 60 (mk_message 9 9 " anand pur ")
          (world_of [no_headquarters])).2).2 = w2 /\
    find_one 9 (users_collection w2) = Some user2 /\
    mk_activity "05/06/2024" "Anand Pur" "" office_work
    ∈ default [] (month_list (activities user2) "2024" "6").
Proof.
  destruct (headquarters_set_in_settings_is_recognised 60
              (mk_message 9 9 " anand pur ") wednesday 1001
              (mk_callback 9 9 100 999 "village_Anand Pur")
              (world_of [no_headquarters]) no_headquarters wednesday)
    as (_ & r & w2 & user2 & E & Hf & Hin).
  - reflexivity.
  - reflexivity.
  - vm_compute. set_solver.
  - vm_compute. discriminate.
  - reflexivity.
  - vm_compute. reflexivity.
  - vm_compute. reflexivity.
  - exists w2, user2. rewrite E. split; [reflexivity|]. split; [exact Hf|].
    exact Hin.
Defined.

(** X9: a purpose added in the settings is offered. After the handler has
    stored a non-blank answer, the purposes offered to the user for any
    month hold it, together with the purposes of the month and the
    purposes added before, each once. *)
Theorem added_purpose_is_offered (timeout : Z) (msg : message) (w : world)
    (user : user_doc) (month : Z) :
  let uid := from_user msg in
  let activity_ := strip (text msg) in
  let w1 := (handle_settings_add_activity timeout msg w).2 in
  let offered := get_user_activities uid month (users_collection w1) in
  find_one uid (users_collection w) = Some user ->
  uid ∉ cancelled_users w ->
  activity_ <> "" ->
  NoDup offered /\
  (forall p, p ∈ offered <->
             p = activity_ \/ p ∈ custom_activities user \/
             p ∈ month_activities_or_default month).
Proof.
  intros uid activity_ w1 offered Hu Hc Hne.
  assert (H1 : find_one uid (users_collection w1)
               = Some (set_custom_activities
                         (add_to_set activity_ (custom_activities user)) user)).
  { apply (settings_answer_stores timeout msg activity_ _ _
             (fun u => set_custom_activities
                         (add_to_set activity_ (custom_activities u)) u) w user);
      auto. }
  unfold offered, get_user_activities. rewrite H1.
  cbn [custom_activities set_custom_activities].
  split; [apply NoDup_remove_dups|].
  intros p. rewrite elem_of_remove_dups, elem_of_app. unfold add_to_set.
  destruct (decide (activity_ ∈ custom_activities user)) as [Hin|Hnin].
  - rewrite (bool_decide_eq_true_2 _ Hin). split; [tauto|].
    intros [-> | H]; tauto.
  - rewrite (bool_decide_eq_false_2 _ Hnin). rewrite elem_of_app.
    rewrite list_elem_of_singleton. tauto.
Qed.

Lemma added_purpose_is_offered_witness :
  "Crop cutting experiment"
  ∈ get_user_activities 7 6
      (users_collection
         (handle_settings_add_activity 60
            (mk_message 7 7 " Crop cutting experiment ")
            (world_of [field_worker])).2).
Proof.
  destruct (added_purpose_is_offered 60
              (mk_message 7 7 " Crop cutting experiment ")
              (world_of [field_worker]) field_worker 6) as [_ H].
  - reflexivity.
  - vm_compute. set_solver.
  - vm_compute. discriminate.
  - apply H. left. vm_compute. reflexivity.
Defined.
(** ** Deleting a record from the list of activities *)

Lemma insert_by_date_perm (x : PyDate.date * activity)
    (l : list (PyDate.date * activity)) :
  insert_by_date x l ≡ₚ x :: l.
Proof.
  induction l as [|y l IH]; simpl; [reflexivity|].
  destruct (date_leb x.1 y.1); [reflexivity|].
  rewrite IH. apply Permutation_swap.
Qed.

Lemma sort_by_date_perm (l : list (PyDate.date * activity)) :
  fold_right insert_by_date [] l ≡ₚ l.
Proof.
  induction l as [|x l IH]; simpl; [reflexivity|].
  now rewrite insert_by_date_perm, IH.
Qed.

Lemma insert_by_date_order (x : PyDate.date * activity)
    (l : list (PyDate.date * activity)) :
  in_date_order l = true -> in_date_order (insert_by_date x l) = true.
Proof.
  induction l as [|y l IH]; simpl; [reflexivity|].
  rewrite andb_true_iff. intros [Hy Hl].
  destruct (date_leb x.1 y.1) eqn:E; cbn [in_date_order forallb].
  - rewrite E, Hy, Hl. cbn [andb]. rewrite andb_true_r.
    apply forallb_forall. intros z Hz.
    rewrite forallb_forall in Hy. eapply date_leb_trans; [exact E | auto].
  - rewrite (IH Hl), andb_true_r. apply forallb_forall. intros z Hz.
    apply list_elem_of_In in Hz.
    apply (proj1 (insert_by_date_elem _ _ _)) in Hz as [-> | Hz].
    + now apply date_leb_total.
    + rewrite forallb_forall in Hy. apply Hy. now apply list_elem_of_In.
Qed.

Lemma sort_by_date_order (l : list (PyDate.date * activity)) :
  in_date_order (fold_right insert_by_date [] l) = true.
Proof.
  induction l as [|x l IH]; simpl; [reflexivity|].
  now apply insert_by_date_order.
Qed.

(** The sort leaves a list in date order as it is. *)
Lemma sort_by_date_id (l : list (PyDate.date * activity)) :
  in_date_order l = true -> fold_right insert_by_date [] l = l.
Proof.
  induction l as [|x l IH]; simpl; [reflexivity|].
  rewrite andb_true_iff. intros [Hx Hl]. rewrite (IH Hl).
  destruct l as [|y l]; [reflexivity|]. simpl in *.
  apply andb_true_iff in Hx as [-> _]. reflexivity.
Qed.

Lemma in_date_order_delete (i : nat) (l : list (PyDate.date * activity)) :
  in_date_order l = true -> in_date_order (delete i l) = true.
Proof.
  revert i. induction l as [|x l IH]; intros i; [now destruct i|].
  cbn [in_date_order]. rewrite andb_true_iff. intros [Hx Hl].
  destruct i as [|i]; [exact Hl|].
  change (delete (S i) (x :: l)) with (x :: delete i l).
  cbn [in_date_order]. rewrite (IH i Hl), andb_true_r.
  apply forallb_forall. intros z Hz. rewrite forallb_forall in Hx. apply Hx.
  apply list_elem_of_In, (list_elem_of_delete_inv z i l), list_elem_of_In, Hz.
Qed.

Lemma dated_of_pairs (l : list (PyDate.date * activity)) :
  (forall y, y ∈ l -> PyDate.strptime (date y.2) = Some y.1) ->
  dated (map snd l) = Some l.
Proof.
  induction l as [|[d a] l IH]; intros H; simpl; [reflexivity|].
  pose proof (H (d, a) ltac:(left)) as Hd. simpl in Hd. rewrite Hd.
  rewrite IH; [reflexivity|].
  intros y Hy. apply H. now right.
Qed.

(** The sort by date, when the dates parse: a permutation in date order,
    and what remains of it when a record is taken out is still sorted. *)
Lemma sort_activities_spec (l : list activity) :
  Forall (fun a => is_Some (PyDate.strptime (date a))) l ->
  exists sorted_activities,
    _sort_activities_by_date l = Some sorted_activities /\
    sorted_activities ≡ₚ l /\
    forall i, _sort_activities_by_date (delete i sorted_activities)
              = Some (delete i sorted_activities).
Proof.
  intros Hparse. destruct (dated_total l Hparse) as [dl Hdl].
  destruct (dated_spec l dl Hdl) as [Hmap Hdates].
  unfold _sort_activities_by_date. rewrite Hdl. cbn [option_map].
  eexists. split; [reflexivity|]. split.
  - rewrite <- Hmap. apply Permutation_map, sort_by_date_perm.
  - intros i. change (map snd ?x) with (snd <$> x).
    rewrite <- list_fmap_delete. change (snd <$> ?x) with (map snd x).
    rewrite dated_of_pairs.
    + cbn [option_map]. f_equal. f_equal. apply sort_by_date_id.
      apply in_date_order_delete, sort_by_date_order.
    + intros y Hy. apply Hdates. apply list_elem_of_delete_inv in Hy.
      now rewrite <- (sort_by_date_perm dl).
Qed.

(** X10: deleting from the list of activities. The month list is put in
    date order, as the list that was shown is, and the record at the
    chosen position is taken out: the stored list afterwards is the
    sorted list without that record, so no other record is lost and the
    list stays in date order. A month left without record is removed
    from the mapping; the other months are as they were. *)
Theorem delete_removes_the_chosen_record (uid : Z) (year_ month_ : string)
    (index : Z) (w : world) (user : user_doc)
    (acts : gmap string (gmap string (list activity))) (l : list activity) :
  find_one uid (users_collection w) = Some user ->
  activities user = Nested acts ->
  month_list (Nested acts) year_ month_ = Some l ->
  Forall (fun a => is_Some (PyDate.strptime (date a))) l ->
  0 <= index < Z.of_nat (length l) ->
  exists sorted_activities deleted w' user',
    _sort_activities_by_date l = Some sorted_activities /\
    sorted_activities !! Z.to_nat index = Some deleted /\
    confirm_delete uid year_ month_ index w = (Ok (Some deleted), w') /\
    find_one uid (users_collection w') = Some user' /\
    let rest := delete (Z.to_nat index) sorted_activities in
    l ≡ₚ deleted :: rest /\
    _sort_activities_by_date rest = Some rest /\
    month_list (activities user') year_ month_
    = match rest with [] => None | _ => Some rest end /\
    forall y m, (y, m) <> (year_, month_) ->
                month_list (activities user') y m = month_list (Nested acts) y m.
Proof.
  intros Hu Ha Hl Hparse Hidx.
  destruct (sort_activities_spec l Hparse) as (sorted_ & Hs & Hperm & Hrest).
  assert (Hlen : length sorted_ = length l) by now rewrite Hperm.
  destruct (lookup_lt_is_Some_2 sorted_ (Z.to_nat index)) as [deleted Hd]; [lia|].
  set (rest := delete (Z.to_nat index) sorted_).
  set (months := default ∅ (acts !! year_)).
  assert (Hy : acts !! year_ = Some months).
  { unfold month_list in Hl. unfold months.
    destruct (acts !! year_); [reflexivity | discriminate]. }
  assert (Hm : months !! month_ = Some l).
  { unfold month_list in Hl. rewrite Hy in Hl. exact Hl. }
  set (acts' := match rest with
                | [] => if bool_decide (delete month_ months = ∅)
                        then delete year_ acts
                        else <[year_ := delete month_ months]> acts
                | _ => <[year_ := <[month_ := rest]> months]> acts
                end).
  exists sorted_, deleted, (set_users (update_one uid (set_activities (Nested acts'))) w),
    (set_activities (Nested acts') user).
  split; [exact Hs|]. split; [exact Hd|]. split.
  { unfold confirm_delete. rewrite bind_get, Hu, Ha. cbv zeta.
    change (acts !! year_ ≫= (.!! month_)) with (month_list (Nested acts) year_ month_).
    rewrite Hl. cbn [default]. unfold id.
    rewrite (proj2 (Z.leb_le _ _) (proj1 Hidx)), (proj2 (Z.ltb_lt _ _) (proj2 Hidx)).
    cbn [andb]. rewrite Hs, Hd. reflexivity. }
  split.
  { cbn [users_collection set_users].
    rewrite find_one_update_one by apply set_activities_keeps_id.
    now rewrite Hu. }
  cbv zeta. fold rest. split.
  { rewrite <- Hperm. now apply delete_Permutation. }
  split; [apply Hrest|].
  cbn [activities set_activities]. unfold month_list, acts'. split.
  - destruct rest as [|r0 rest0].
    + destruct (decide (delete month_ months = ∅)) as [E|E].
      * rewrite (bool_decide_eq_true_2 _ E). now rewrite lookup_delete_eq.
      * rewrite (bool_decide_eq_false_2 _ E). rewrite lookup_insert_eq. simpl.
        now rewrite lookup_delete_eq.
    + rewrite lookup_insert_eq. simpl. now rewrite lookup_insert_eq.
  - intros y m Hne.
    destruct (decide (y = year_)) as [->|Hyne].
    + assert (Hmne : m <> month_) by congruence.
      rewrite Hy. simpl.
      destruct rest as [|r0 rest0].
      * destruct (decide (delete month_ months = ∅)) as [E|E].
        -- rewrite (bool_decide_eq_true_2 _ E). rewrite lookup_delete_eq. simpl.
           rewrite <- (lookup_delete_ne months month_ m) by congruence.
           now rewrite E, lookup_empty.
        -- rewrite (bool_decide_eq_false_2 _ E). rewrite lookup_insert_eq. simpl.
           now rewrite lookup_delete_ne by congruence.
      * rewrite lookup_insert_eq. simpl. now rewrite lookup_insert_ne by congruence.
    + destruct rest as [|r0 rest0].
      * destruct (bool_decide (delete month_ months = ∅)).
        -- now rewrite lookup_delete_ne by congruence.
        -- now rewrite lookup_insert_ne by congruence.
      * now rewrite lookup_insert_ne by congruence.
Qed.

Lemma delete_removes_the_chosen_record_witness :
  exists w' user',
    confirm_delete 7 "2024" "6" 0
      (world_of [set_activities
                   (Nested (june_2024 [gokul_visit; gokul_on_the_4th])) nested_example])
    = (Ok (Some gokul_on_the_4th), w') /\
    find_one 7 (users_collection w') = Some user' /\
    month_list (activities user') "2024" "6" = Some [gokul_visit].
Proof.
  destruct (delete_removes_the_chosen_record 7 "2024" "6" 0
              (world_of [set_activities
                           (Nested (june_2024 [gokul_visit; gokul_on_the_4th]))
                           nested_example])
              _ (june_2024 [gokul_visit; gokul_on_the_4th])
              [gokul_visit; gokul_on_the_4th] eq_refl eq_refl eq_refl)
    as (sorted_ & deleted & w' & user' & Hs & Hd & E & Hf & _ & _ & Hml & _).
  - repeat constructor; vm_compute; eauto.
  - simpl. lia.
  - vm_compute in Hs. injection Hs as <-.
    vm_compute in Hd. injection Hd as <-.
    exists w', user'. split; [exact E|]. split; [exact Hf|]. exact Hml.
Defined.
(** ** Dates written by the program parse back *)

Lemma split_app_sep (sep : ascii) (a r : string) :
  (forall c, In c (list_ascii_of_string a) -> c <> sep) ->
  split sep (a +:+ String sep r) = a :: split sep r.
Proof.
  induction a as [|c a IH]; intros H.
  - simpl. now rewrite Ascii.eqb_refl.
  - change (String c a +:+ String sep r) with (String c (a +:+ String sep r)).
    change (split sep (String c (a +:+ String sep r)))
      with (if Ascii.eqb c sep then EmptyString :: split sep (a +:+ String sep r)
            else match split sep (a +:+ String sep r) with
                 | [] => [String c EmptyString]
                 | w :: ws => String c w :: ws
                 end).
    destruct (Ascii.eqb_spec c sep) as [E|_].
    + exfalso. apply (H c); [now left | exact E].
    + rewrite IH; [reflexivity|]. intros c' Hc'. apply H. now right.
Qed.

Lemma split_no_sep (sep : ascii) (a : string) :
  (forall c, In c (list_ascii_of_string a) -> c <> sep) ->
  split sep a = [a].
Proof.
  induction a as [|c a IH]; intros H; [reflexivity|].
  change (split sep (String c a))
    with (if Ascii.eqb c sep then EmptyString :: split sep a
          else match split sep a with
               | [] => [String c EmptyString]
               | w :: ws => String c w :: ws
               end).
  destruct (Ascii.eqb_spec c sep) as [E|_].
  - exfalso. apply (H c); [now left | exact E].
  - rewrite IH; [reflexivity|]. intros c' Hc'. apply H. now right.
Qed.

Lemma no_slash_spec (s : string) :
  forallb (fun c => negb (Ascii.eqb c "/")) (list_ascii_of_string s) = true ->
  forall c, In c (list_ascii_of_string s) -> c <> "/"%char.
Proof.
  intros H c Hc. rewrite forallb_forall in H. specialize (H c Hc).
  apply negb_true_iff in H. now apply Ascii.eqb_neq.
Qed.

(** The two-digit fields: days and months. *)
Lemma pad2_parses (n : Z) :
  1 <= n <= 31 ->
  forallb (fun c => negb (Ascii.eqb c "/")) (list_ascii_of_string (PyDate.pad2 n)) = true /\
  PyDate.parse_day (PyDate.pad2 n) = Some n /\
  (n <= 12 -> PyDate.parse_month (PyDate.pad2 n) = Some n).
Proof.
  intros H.
  assert (Hall : forallb
                   (fun k =>
                      let n := Z.of_nat k in
                      forallb (fun c => negb (Ascii.eqb c "/"))
                        (list_ascii_of_string (PyDate.pad2 n))
                      && bool_decide (PyDate.parse_day (PyDate.pad2 n) = Some n)
                      && ((12 <? n)
                          || bool_decide (PyDate.parse_month (PyDate.pad2 n) = Some n)))
                   (seq 1 31) = true) by (vm_compute; reflexivity).
  rewrite forallb_forall in Hall.
  specialize (Hall (Z.to_nat n)). cbv zeta in Hall.
  rewrite Z2Nat.id in Hall by lia.
  assert (Hin : In (Z.to_nat n) (seq 1 31)) by (apply in_seq; lia).
  specialize (Hall Hin).
  apply andb_true_iff in Hall as [Hall H3].
  apply andb_true_iff in Hall as [H1 H2].
  split; [exact H1|]. split; [now apply bool_decide_eq_true in H2|].
  intros Hle. apply orb_true_iff in H3 as [H3 | H3].
  - apply Z.ltb_lt in H3. lia.
  - now apply bool_decide_eq_true in H3.
Qed.

(** The four-digit field: years from 1000 on. *)
Lemma pad4_parses (n : Z) :
  1000 <= n <= 9999 ->
  forallb (fun c => negb (Ascii.eqb c "/")) (list_ascii_of_string (PyDate.pad4 n)) = true /\
  PyDate.parse_year (PyDate.pad4 n) = Some n.
Proof.
  intros H.
  assert (Hall : forallb
                   (fun k =>
                      let n := 1000 + Z.of_nat k in
                      forallb (fun c => negb (Ascii.eqb c "/"))
                        (list_ascii_of_string (PyDate.pad4 n))
                      && bool_decide (PyDate.parse_year (PyDate.pad4 n) = Some n))
                   (seq 0 (Z.to_nat 9000)) = true) by (vm_compute; reflexivity).
  rewrite forallb_forall in Hall.
  specialize (Hall (Z.to_nat (n - 1000))). cbv zeta in Hall.
  replace (1000 + Z.of_nat (Z.to_nat (n - 1000))) with n in Hall by lia.
  assert (Hin : In (Z.to_nat (n - 1000)) (seq 0 (Z.to_nat 9000)))
    by (apply in_seq; lia).
  specialize (Hall Hin).
  apply andb_true_iff in Hall as [H1 H2].
  split; [exact H1 | now apply bool_decide_eq_true in H2].
Qed.

(** [strptime(d.strftime('%d/%m/%Y'), '%d/%m/%Y')] is [d], for the dates
    whose year has four digits. *)
Lemma strptime_strftime (d : PyDate.date) :
  PyDate.valid_date d = true -> 1000 <= PyDate.year d ->
  PyDate.strptime (PyDate.strftime_dmy d) = Some d.
Proof.
  intros Hv Hy. pose proof Hv as Hv'. unfold PyDate.valid_date in Hv'.
  repeat (apply andb_true_iff in Hv' as [Hv' ?]).
  repeat match goal with H : (_ <=? _) = true |- _ => apply Z.leb_le in H end.
  assert (Hdm : PyDate.days_in_month (PyDate.year d) (PyDate.month d) <= 31)
    by (destruct (days_in_month_cases (PyDate.year d) (PyDate.month d))
          as [E | [E | [E | E]]]; rewrite E; lia).
  destruct (pad2_parses (PyDate.day d)) as (Hd1 & Hd2 & _); [lia|].
  destruct (pad2_parses (PyDate.month d)) as (Hm1 & _ & Hm2); [lia|].
  destruct (pad4_parses (PyDate.year d)) as (Hy1 & Hy2); [lia|].
  unfold PyDate.strptime, PyDate.strftime_dmy.
  assert (Hs : forall r, "/" +:+ r = String "/" r) by reflexivity.
  rewrite !Hs.
  rewrite (split_app_sep "/" _ _ (no_slash_spec _ Hd1)).
  rewrite (split_app_sep "/" _ _ (no_slash_spec _ Hm1)).
  rewrite (split_no_sep "/" _ (no_slash_spec _ Hy1)).
  rewrite Hd2, Hm2, Hy2 by lia.
  destruct d as [y m dd]. cbn [PyDate.year PyDate.month PyDate.day] in *.
  now rewrite Hv.
Qed.

(** ** Saves *)

Lemma month_list_set_ne (y m y' m' : string) (i : nat) (act : activity)
    (acts : gmap string (gmap string (list activity))) :
  (y', m') <> (y, m) ->
  month_list (Nested (set_nested y m i act acts)) y' m'
  = month_list (Nested acts) y' m'.
Proof.
  intros Hne. unfold month_list, set_nested.
  destruct (decide (y' = y)) as [->|Hy].
  - rewrite lookup_insert_eq. simpl.
    rewrite lookup_insert_ne by congruence.
    destruct (acts !! y); simpl; [reflexivity|]. now rewrite lookup_empty.
  - now rewrite lookup_insert_ne by congruence.
Qed.

(** [write_activity] on a migrated document changes the month list of
    the record and no other. *)
Lemma write_activity_frame (uid : Z) (y m : string) (act : activity) (w : world)
    (user : user_doc) (acts : gmap string (gmap string (list activity))) :
  find_one uid (users_collection w) = Some user ->
  activities user = Nested acts ->
  exists updated w' user',
    write_activity uid y m act w = (Ok updated, w') /\
    find_one uid (users_collection w') = Some user' /\
    headquarters user' = headquarters user /\
    villages user' = villages user /\
    forall y' m', (y', m') <> (y, m) ->
                  month_list (activities user') y' m' = month_list (Nested acts) y' m'.
Proof.
  intros Hu Ha. unfold write_activity. rewrite bind_get, Hu, Ha.
  destruct (month_list (Nested acts) y m ≫= existing_activity (date act)) as [i|].
  - unfold db_set, bind, get, modify, ret. rewrite Hu, Ha.
    eexists true, _, _. split; [reflexivity|]. cbn [users_collection set_users].
    rewrite find_one_update_one by apply set_activities_keeps_id.
    rewrite Hu. split; [reflexivity|]. split; [reflexivity|]. split; [reflexivity|].
    intros y' m' Hne. cbn [activities set_activities]. now apply month_list_set_ne.
  - unfold db_push, bind, get, modify, ret. rewrite Hu, Ha.
    eexists false, _, _. split; [reflexivity|]. cbn [users_collection set_users].
    rewrite find_one_update_one by apply set_activities_keeps_id.
    rewrite Hu. split; [reflexivity|]. split; [reflexivity|]. split; [reflexivity|].
    intros y' m' Hne. cbn [activities set_activities]. now apply month_list_push_ne.
Qed.

Lemma same_date_count_app (d : string) (l1 l2 : list activity) :
  same_date_count d (l1 ++ l2) = (same_date_count d l1 + same_date_count d l2)%nat.
Proof. unfold same_date_count. now rewrite List.filter_app, length_app. Qed.

(** A save changes the number of records of its own date string only, and
    leaves it at one when it was at most one. *)
Lemma replace_or_append_other (act : activity) (l : list activity) (d : string) :
  d <> date act ->
  same_date_count d (replace_or_append act l) = same_date_count d l.
Proof.
  intros Hne. unfold replace_or_append.
  assert (H1 : forall a, date a = date act -> same_date_count d [a] = 0%nat).
  { intros a Ha. unfold same_date_count. simpl.
    destruct (String.eqb_spec (date a) d) as [E|_]; [congruence | reflexivity]. }
  destruct (existing_activity (date act) l) as [i|] eqn:E.
  - destruct (replace_first_count act l i E) as (_ & l1 & old & l2 & -> & -> & Hd & _).
    change (l1 ++ act :: l2) with (l1 ++ [act] ++ l2).
    change (l1 ++ old :: l2) with (l1 ++ [old] ++ l2).
    rewrite !same_date_count_app, (H1 act eq_refl), (H1 old Hd). reflexivity.
  - rewrite same_date_count_app, (H1 act eq_refl). lia.
Qed.

(** What [save_activity] stores, for a complete draft whose date parses. *)
Lemma save_activity_stores (now : PyDate.date) (msg : message)
    (activity_data : draft) (w : world) (user : user_doc)
    (to_ purpose_ : string) (dt : PyDate.date) :
  find_one (from_user msg) (users_collection w) = Some user ->
  d_to_village activity_data = Some to_ ->
  d_purpose activity_data = Some purpose_ ->
  let date_ := default (PyDate.strftime_dmy now) (d_date activity_data) in
  PyDate.strptime date_ = Some dt ->
  let act := mk_activity date_ (from_of user) to_ purpose_ in
  let y := PyDate.str_int (PyDate.year dt) in
  let m := PyDate.str_int (PyDate.month dt) in
  let acts := nested_of (activities user) in
  let l := default [] (month_list (Nested acts) y m) in
  exists r w' user',
    save_activity now msg activity_data w = (r, w') /\
    find_one (from_user msg) (users_collection w') = Some user' /\
    month_list (activities user') y m = Some (replace_or_append act l) /\
    (forall y' m', (y', m') <> (y, m) ->
                   month_list (activities user') y' m' = month_list (Nested acts) y' m') /\
    pending_prompts w' = pending_prompts w /\
    callback_data w' = callback_data w.
Proof.
  intros Hu Hto Hp date_ Hdt act y m acts l.
  unfold save_activity. rewrite bind_get, Hu, Hto, Hp. fold date_. fold act.
  unfold bind at 1.
  destruct (migrate_frame (from_user msg) w)
    as (wm & Em & Hcb & Hip & Hpp & Hcu & Hdi & Hob & Hnet & Hnm & Hrng & _).
  pose proof (migrate_find (from_user msg) w user Hu) as Hfind.
  rewrite Em in Hfind |- *. cbn [snd] in Hfind. rewrite Hdt. fold y. fold m.
  unfold bind at 1.
  destruct (write_activity_result (from_user msg) y m act wm _ acts Hfind eq_refl)
    as (updated & w1 & user' & E1 & Hcb1 & Hip1 & Hpp1 & Hcu1 & Hdi1 & Hob1 & Hnet1
        & Hnm1 & Hfind1 & Hml).
  destruct (write_activity_frame (from_user msg) y m act wm _ acts Hfind eq_refl)
    as (updated' & w1' & user'' & E1' & Hfind1' & _ & _ & Hother).
  rewrite E1 in E1'. injection E1' as <- <-.
  rewrite Hfind1 in Hfind1'. injection Hfind1' as <-.
  rewrite E1. unfold bind at 1.
  destruct (delete_daily_prompt_result (from_user msg) (chat msg) w1)
    as (w3 & evs3 & -> & Hu3 & Hcb3 & Hpp3 & Hob3 & Hdel3).
  set (c2 := send_message (chat msg) (saved_text updated act) []).
  destruct (api_result c2 w3) as (Hu4 & Hcb4 & Hip4 & Hpp4 & Hcu4 & Hdi4 & _ & _ & Hob4).
  unfold bind, ret.
  destruct (api c2 w3) as [[mid|e] w4] eqn:E4; cbn [snd] in *;
    eexists _, w4, user'; (split; [reflexivity|]);
    (split; [rewrite Hu4, Hu3; exact Hfind1|]);
    (split; [exact Hml|]); (split; [exact Hother|]);
    split; congruence.
Qed.

(** X11: a save through the typed entry ([save_activity]) of a complete
    draft whose date parses, for a known user. Whatever the Bot API
    answers, the record is in the month list of its date afterwards; it
    is the only record there with its date string when there was at most
    one before, and the date strings that occurred at most once still
    do; the records of other date strings and the other months are as
    they were. *)
Theorem typed_save_keeps_one_record_per_date (now : PyDate.date) (msg : message)
    (activity_data : draft) (w : world) (user : user_doc)
    (to_ purpose_ : string) (dt : PyDate.date) :
  let uid := from_user msg in
  let date_ := default (PyDate.strftime_dmy now) (d_date activity_data) in
  let act := mk_activity date_ (from_of user) to_ purpose_ in
  let y := PyDate.str_int (PyDate.year dt) in
  let m := PyDate.str_int (PyDate.month dt) in
  let acts := nested_of (activities user) in
  let l := default [] (month_list (Nested acts) y m) in
  find_one uid (users_collection w) = Some user ->
  d_to_village activity_data = Some to_ ->
  d_purpose activity_data = Some purpose_ ->
  PyDate.strptime date_ = Some dt ->
  (forall d, same_date_count d l <= 1)%nat ->
  exists user',
    find_one uid (users_collection (save_activity now msg activity_data w).2)
    = Some user' /\
    let l' := month_records user' y m in
    act ∈ l' /\
    (forall d, same_date_count d l' <= 1)%nat /\
    (forall a, a ∈ l' -> date a = date_ -> a = act) /\
    (forall a, date a <> date_ -> (a ∈ l' <-> a ∈ l)) /\
    (forall y' m', (y', m') <> (y, m) ->
                   month_list (activities user') y' m' = month_list (Nested acts) y' m').
Proof.
  intros uid date_ act y m acts l Hu Hto Hp Hdt Hone.
  destruct (save_activity_stores now msg activity_data w user to_ purpose_ dt
              Hu Hto Hp Hdt)
    as (r & w' & user' & E & Hf & Hml & Hother & _).
  fold date_ in Hml. fold act y m acts l in Hml. fold y m acts in Hother.
  rewrite E. cbn [snd]. exists user'. split; [exact Hf|].
  cbv zeta. unfold month_records. rewrite Hml. cbn [default]. unfold id.
  destruct (replace_or_append_one act l (Hone (date act))) as (H1 & H2 & H3).
  split; [apply act_in_replace_or_append|]. split.
  - intros d. destruct (decide (d = date act)) as [->|Hne].
    + rewrite H1. lia.
    + rewrite (replace_or_append_other act l d Hne). apply Hone.
  - split; [exact H2|]. split; [exact H3 | exact Hother].
Qed.

Lemma typed_save_keeps_one_record_per_date_witness :
  exists user',
    find_one 7
      (users_collection
         (save_activity wednesday (mk_message 7 7 "Inspection")
            (mk_draft (Some "05/06/2024") (Some "Rampur") (Some "Inspection") None)
            (world_of [nested_example])).2)
    = Some user' /\
    month_records user' "2024" "6"
    = [mk_activity "05/06/2024" "Anandpur" "Rampur" "Inspection"].
Proof.
  destruct (typed_save_keeps_one_record_per_date wednesday
              (mk_message 7 7 "Inspection")
              (mk_draft (Some "05/06/2024") (Some "Rampur") (Some "Inspection") None)
              (world_of [nested_example]) nested_example "Rampur" "Inspection"
              wednesday eq_refl eq_refl eq_refl)
    as (user' & Hf & _).
  - vm_compute. reflexivity.
  - intros d.
    match goal with |- (same_date_count d ?l <= 1)%nat =>
      replace l with [gokul_visit] by (vm_compute; reflexivity) end.
    unfold same_date_count. cbn [List.filter].
    match goal with |- context [String.eqb ?a d] => destruct (String.eqb a d) end;
      simpl; lia.
  - exists user'. split; [exact Hf|].
    vm_compute in Hf. injection Hf as <-. vm_compute. reflexivity.
Defined.

Lemma find_one_id (uid : Z) (c : list user_doc) (u : user_doc) :
  find_one uid c = Some u -> user_id u = uid.
Proof.
  unfold find_one. intros H. apply find_some in H as [_ H]. now apply Z.eqb_eq.
Qed.

Lemma month_list_Some_nested (a : activities_field) (y m : string)
    (l : list activity) :
  month_list a y m = Some l -> exists acts, a = Nested acts.
Proof. destruct a; [discriminate | eauto]. Qed.

Lemma has_activity_of_record (user : user_doc) (now : PyDate.date) (act : activity) :
  act ∈ month_records user (PyDate.str_int (PyDate.year now))
          (PyDate.str_int (PyDate.month now)) ->
  date act = PyDate.strftime_dmy now ->
  has_activity user now = true.
Proof.
  unfold month_records, has_activity. intros Hin Hd.
  destruct (month_list _ _ _) as [l|]; [|inversion Hin].
  apply existsb_exists. exists act. split; [now apply list_elem_of_In|].
  now apply String.eqb_eq.
Qed.

(** The fallback of a working day leaves a user alone who has a record
    for the day. *)
Lemma fallback_skips_recorded_user (DEFAULT_ACTIVITY_TIME : string)
    (now : PyDate.date) (user : user_doc) (w : world) :
  find_one (user_id user) (users_collection w) = Some user ->
  has_activity user now = true ->
  try_except (default_activity_user DEFAULT_ACTIVITY_TIME now user) (ret tt) w
  = (Ok tt, w).
Proof.
  intros Hu Hhas. unfold default_activity_user, try_except, bind.
  rewrite migrate_result, Hu, Hhas.
  unfold has_activity in Hhas.
  destruct (activities user); [discriminate | reflexivity].
Qed.

(** X12: the headquarters button of the daily prompt, for a user whose
    headquarters is set, on a day whose year has four digits. The press
    saves the office-work record under today's date, in the month list
    of today; the user then has an activity for the day, so the fallback
    of that evening leaves the document as it is. *)
Theorem daily_headquarters_press_records_today (DEFAULT_ACTIVITY_TIME : string)
    (now : PyDate.date) (time : Z) (call : callback) (w : world)
    (user : user_doc) (hq : string) :
  let uid := call_from_user call in
  PyDate.valid_date now = true ->
  1000 <= PyDate.year now ->
  find_one uid (users_collection w) = Some user ->
  headquarters user = Some hq ->
  data call = "daily_village_" +:+ title hq ->
  exists r w' user',
    callback_query now time call w = (r, w') /\
    find_one uid (users_collection w') = Some user' /\
    mk_activity (PyDate.strftime_dmy now) (from_of user) "" office_work
    ∈ month_records user' (PyDate.str_int (PyDate.year now))
        (PyDate.str_int (PyDate.month now)) /\
    has_activity user' now = true /\
    try_except (default_activity_user DEFAULT_ACTIVITY_TIME now user') (ret tt) w'
    = (Ok tt, w').
Proof.
  intros uid Hv Hy Hu Hhq Hdata.
  pose proof (strptime_strftime now Hv Hy) as Hrt.
  unfold callback_query. rewrite Hdata.
  change (startswith "village_" ("daily_village_" +:+ title hq)) with false.
  rewrite startswith_app. cbv iota.
  unfold on_daily_village. fold uid. unfold bind at 1.
  unfold headquarters_title at 1. rewrite bind_get, Hu, Hhq. unfold ret at 1.
  rewrite Hdata, String.eqb_refl.
  destruct (save_activity_callback_stores now call
              (mk_draft (Some (PyDate.strftime_dmy now)) (Some "") (Some office_work)
                 (Some uid))
              w uid user "" office_work now eq_refl Hu eq_refl eq_refl Hrt)
    as (r & w1 & user' & evs & updated & E & Hfind & Hml & _).
  cbn [d_date default] in Hml. unfold id in Hml.
  set (act := mk_activity (PyDate.strftime_dmy now) (from_of user) "" office_work) in *.
  assert (Hin : act ∈ month_records user' (PyDate.str_int (PyDate.year now))
                        (PyDate.str_int (PyDate.month now))).
  { unfold month_records. rewrite Hml. apply act_in_replace_or_append. }
  assert (Hhas : has_activity user' now = true)
    by (apply (has_activity_of_record user' now act Hin); reflexivity).
  assert (Hskip : forall w2,
             users_collection w2 = users_collection w1 ->
             try_except (default_activity_user DEFAULT_ACTIVITY_TIME now user')
               (ret tt) w2 = (Ok tt, w2)).
  { intros w2 H2. apply fallback_skips_recorded_user; [|exact Hhas].
    rewrite H2, (find_one_id _ _ _ Hfind). exact Hfind. }
  unfold bind. rewrite E.
  destruct r as [[]|e].
  - unfold modify. eexists _, _, user'. split; [reflexivity|].
    cbn [users_collection set_callback_data].
    split; [exact Hfind|]. split; [exact Hin|]. split; [exact Hhas|].
    now apply Hskip.
  - eexists _, w1, user'. split; [reflexivity|]. split; [exact Hfind|].
    split; [exact Hin|]. split; [exact Hhas|]. now apply Hskip.
Qed.

Lemma daily_headquarters_press_records_today_witness :
  exists w' user',
    (callback_query wednesday 1001
       (mk_callback 7 7 100 999 "daily_village_Anandpur")
       (world_of [field_worker])).2 = w' /\
    find_one 7 (users_collection w') = Some user' /\
    has_activity user' wednesday = true.
Proof.
  destruct (daily_headquarters_press_records_today "20:00" wednesday 1001
              (mk_callback 7 7 100 999 "daily_village_Anandpur")
              (world_of [field_worker]) field_worker "Anandpur")
    as (r & w' & user' & E & Hf & _ & Hhas & _).
  - reflexivity.
  - vm_compute. discriminate.
  - reflexivity.
  - reflexivity.
  - reflexivity.
  - exists w', user'. rewrite E. auto.
Defined.
(** ** The fallback of a working day *)

Lemma random_choice_nonempty {A} (l : list A) (w : world) :
  l <> [] ->
  exists v w',
    random_choice l w = (Ok v, w') /\ v ∈ l /\
    users_collection w' = users_collection w /\
    daily_prompt_message_ids w' = daily_prompt_message_ids w /\
    outbox w' = outbox w /\
    network w' = network w.
Proof.
  intros Hne. unfold random_choice, choice_at.
  set (r := match rng w with [] => 0%nat | r :: _ => r end).
  assert (Hlt : (r mod length l < length l)%nat).
  { apply Nat.mod_upper_bound. destruct l; [congruence | simpl; lia]. }
  destruct (lookup_lt_is_Some_2 l _ Hlt) as [v Hv]. rewrite Hv.
  eexists v, _. split; [reflexivity|]. split; [|auto].
  eapply list_elem_of_lookup_2, Hv.
Qed.

Lemma month_activities_or_default_nonempty (month : Z) :
  month_activities_or_default month <> [].
Proof.
  unfold month_activities_or_default, MAIN_ACTIVITIES_BY_MONTH.
  repeat match goal with |- context [if ?b then _ else _] => destruct b end;
    discriminate.
Qed.

(** The pool of the rotation is never empty and holds villages of the
    user only. *)
Lemma selection_pool_villages (villages_ : list string) (month_activities : list activity) :
  villages_ <> [] ->
  Forall (fun a => is_Some (PyDate.strptime (date a))) month_activities ->
  exists pool,
    selection_pool villages_ month_activities = Some pool /\
    pool <> [] /\
    forall v, v ∈ pool -> v ∈ villages_.
Proof.
  intros Hne Hparse. unfold selection_pool.
  destruct (fallback_available villages_ month_activities) as [|v0 av] eqn:Eav.
  - destruct month_activities as [|a0 acts] eqn:Em; [eauto|].
    rewrite <- Em in *.
    destruct (sort_activities_spec month_activities Hparse) as (sorted_ & -> & _ & _).
    destruct (last sorted_) as [last_act|]; [|eauto].
    destruct (truthy (to_village last_act) && (1 <? Z.of_nat (length villages_)));
      [|eauto].
    destruct (List.filter _ villages_) as [|t0 tp] eqn:Ef; [eauto|].
    eexists. split; [reflexivity|]. split; [discriminate|].
    intros v Hv. rewrite <- Ef in Hv.
    apply list_elem_of_In, filter_In in Hv as [Hv _]. now apply list_elem_of_In.
  - eexists. split; [reflexivity|]. split; [discriminate|].
    intros v Hv. rewrite <- Eav in Hv. unfold fallback_available in Hv.
    apply list_elem_of_In, filter_In in Hv as [Hv _]. now apply list_elem_of_In.
Qed.

Lemma update_one_const (uid : Z) (f : user_doc -> user_doc) (c : list user_doc)
    (user : user_doc) :
  find_one uid c = Some user ->
  update_one uid f c = update_one uid (fun _ => f user) c.
Proof.
  unfold find_one. induction c as [|u c IH]; simpl; [reflexivity|].
  destruct (user_id u =? uid).
  - now intros [= ->].
  - intros H. f_equal. now apply IH.
Qed.

Lemma update_one_same (uid : Z) (c : list user_doc) (user : user_doc) :
  find_one uid c = Some user -> update_one uid (fun _ => user) c = c.
Proof.
  unfold find_one. induction c as [|u c IH]; simpl; [reflexivity|].
  destruct (user_id u =? uid).
  - now intros [= ->].
  - intros H. f_equal. now apply IH.
Qed.

Lemma update_one_twice (uid : Z) (f g : user_doc -> user_doc) (c : list user_doc) :
  (forall u, user_id u = uid -> user_id (f u) = uid) ->
  update_one uid g (update_one uid f c) = update_one uid (fun u => g (f u)) c.
Proof.
  intros Hid. induction c as [|u c IH]; simpl; [reflexivity|].
  destruct (Z.eqb_spec (user_id u) uid) as [E|E]; simpl.
  - now rewrite (Hid u E), Z.eqb_refl.
  - destruct (Z.eqb_spec (user_id u) uid); [congruence|]. now rewrite IH.
Qed.

Lemma set_activities_same (u : user_doc) : set_activities (activities u) u = u.
Proof. now destruct u. Qed.

Lemma nested_of_migrated (user : user_doc) :
  activities (set_activities (Nested (nested_of (activities user))) user)
  = Nested (nested_of (activities user)).
Proof. reflexivity. Qed.

(** One user of the cursor, on a working day. *)
Lemma default_activity_user_records (DEFAULT_ACTIVITY_TIME : string)
    (now : PyDate.date) (user : user_doc) (w : world) :
  let uid := user_id user in
  let y := PyDate.str_int (PyDate.year now) in
  let m := PyDate.str_int (PyDate.month now) in
  find_one uid (users_collection w) = Some user ->
  has_activity user now = false ->
  villages user <> [] ->
  Forall (fun a => is_Some (PyDate.strptime (date a))) (month_records user y m) ->
  exists w' act,
    try_except (default_activity_user DEFAULT_ACTIVITY_TIME now user) (ret tt) w
    = (Ok tt, w') /\
    users_collection w'
    = update_one uid
        (fun _ => set_activities
                    (Nested (push_nested y m act (nested_of (activities user)))) user)
        (users_collection w) /\
    date act = PyDate.strftime_dmy now /\
    from act = from_of user /\
    to_village act ∈ villages user /\
    (forall p, default_purpose user = Some p -> p <> "" -> purpose act = p) /\
    (falsy_opt (default_purpose user) = true ->
     purpose act ∈ month_activities_or_default (PyDate.month now)).
Proof.
  intros uid y m Hu Hhas Hv Hparse.
  unfold default_activity_user. fold uid y m.
  unfold try_except. unfold bind at 1.
  rewrite migrate_result. fold uid. rewrite Hu.
  set (wm := match activities user with
             | Legacy acts =>
                 set_users (update_one uid
                              (set_activities (Nested (migrate_list acts)))) w
             | Nested _ => w
             end).
  assert (Hum : users_collection wm
                = update_one uid
                    (fun _ => set_activities (Nested (nested_of (activities user))) user)
                    (users_collection w)).
  { unfold wm. destruct (activities user) as [l|acts] eqn:Ea; cbn [nested_of].
    - cbn [users_collection set_users]. now apply update_one_const.
    - rewrite <- Ea, set_activities_same. symmetry. now apply update_one_same. }
  assert (Hfm : find_one uid (users_collection wm)
                = Some (set_activities (Nested (nested_of (activities user))) user)).
  { pose proof (migrate_find uid w user Hu) as H.
    rewrite migrate_result, Hu in H. exact H. }
  rewrite Hhas.
  (* the purpose *)
  assert (Hpurpose : exists p wp,
             (if falsy_opt (default_purpose user)
              then random_choice (month_activities_or_default (PyDate.month now))
              else ret (default "" (default_purpose user))) wm = (Ok p, wp) /\
             users_collection wp = users_collection wm /\
             (forall q, default_purpose user = Some q -> q <> "" -> p = q) /\
             (falsy_opt (default_purpose user) = true ->
              p ∈ month_activities_or_default (PyDate.month now))).
  { destruct (falsy_opt (default_purpose user)) eqn:Ef.
    - destruct (random_choice_nonempty (month_activities_or_default (PyDate.month now))
                  wm (month_activities_or_default_nonempty _))
        as (p & wp & E & Hin & Hup & _).
      exists p, wp. split; [exact E|]. split; [exact Hup|]. split; [|auto].
      intros q Hq Hne. unfold falsy_opt in Ef. rewrite Hq in Ef.
      apply truthy_spec in Hne. rewrite Hne in Ef. discriminate.
    - eexists _, wm. split; [reflexivity|]. split; [reflexivity|].
      split; [|discriminate]. intros q Hq _. now rewrite Hq. }
  destruct Hpurpose as (p & wp & Ep & Hup & Hp1 & Hp2).
  unfold bind at 1. rewrite Ep.
  change (default [] (month_list (activities user) y m)) with (month_records user y m).
  destruct (selection_pool_villages (villages user) (month_records user y m) Hv Hparse)
    as (pool & Epool & Hpne & Hpin).
  rewrite Epool. destruct pool as [|v0 pool0] eqn:Epl; [congruence|].
  rewrite <- Epl in *.
  destruct (random_choice_nonempty pool wp Hpne) as (v & wv & Ev & Hvin & Huv & _).
  unfold bind at 1. rewrite Ev.
  set (act := mk_activity (PyDate.strftime_dmy now) (from_of user) v p).
  (* the push *)
  assert (Hpush : exists w1,
             db_push uid y m act wv = (Ok tt, w1) /\
             users_collection w1
             = update_one uid
                 (fun _ => set_activities
                             (Nested (push_nested y m act (nested_of (activities user))))
                             user)
                 (users_collection w)).
  { unfold db_push. rewrite bind_get, Huv, Hup, Hfm, nested_of_migrated.
    eexists. split; [reflexivity|]. cbn [users_collection set_users].
    rewrite Huv, Hup, Hum. now rewrite update_one_twice. }
  destruct Hpush as (w1 & E1 & Hu1).
  unfold bind at 1. rewrite E1.
  destruct (delete_daily_prompt_result uid uid w1)
    as (w3 & evs3 & E3 & Hu3 & _).
  unfold bind at 1. rewrite E3.
  set (c := send_message uid _ []).
  pose proof (api_users c w3) as Hu4.
  exists (api c w3).2, act.
  split.
  { unfold bind, ret. destruct (api c w3) as [[mid|e] w4]; reflexivity. }
  split; [now rewrite Hu4, Hu3, Hu1|].
  split; [reflexivity|]. split; [reflexivity|].
  split; [now apply Hpin|]. split; [exact Hp1 | exact Hp2].
Qed.


Lemma find_one_update_one_const (uid : Z) (x user : user_doc) (c : list user_doc) :
  find_one uid c = Some user -> user_id x = uid ->
  find_one uid (update_one uid (fun _ => x) c) = Some x.
Proof.
  intros Hu Hx. unfold find_one in *. induction c as [|u c IH]; simpl in *;
    [discriminate|].
  destruct (Z.eqb_spec (user_id u) uid) as [E|E]; simpl.
  - now rewrite Hx, Z.eqb_refl.
  - destruct (Z.eqb_spec (user_id u) uid); [congruence|]. now apply IH.
Qed.




(** ** Settings and scheduler together *)

(** X14: a default purpose set through the settings is the purpose of the
    records that the fallback adds. After the handler has stored the
    answer, the working-day fallback gives the user, when no activity is
    recorded for the day, a record with exactly that purpose. *)
Theorem default_purpose_set_in_settings_is_used (DEFAULT_ACTIVITY_TIME : string)
    (timeout : Z) (msg : message) (now : PyDate.date) (w : world) (user : user_doc) :
  let uid := from_user msg in
  let purpose_ := strip (text msg) in
  let w1 := (handle_settings_default_purpose DEFAULT_ACTIVITY_TIME timeout msg w).2 in
  let user1 := set_default_purpose (Some purpose_) user in
  let y := PyDate.str_int (PyDate.year now) in
  let m := PyDate.str_int (PyDate.month now) in
  find_one uid (users_collection w) = Some user ->
  uid ∉ cancelled_users w ->
  purpose_ <> "" ->
  has_activity user now = false ->
  villages user <> [] ->
  Forall (fun a => is_Some (PyDate.strptime (date a))) (month_records user y m) ->
  find_one uid (users_collection w1) = Some user1 /\
  exists w2 act,
    try_except (default_activity_user DEFAULT_ACTIVITY_TIME now user1) (ret tt) w1
    = (Ok tt, w2) /\
    find_one uid (users_collection w2)
    = Some (set_activities
              (Nested (push_nested y m act (nested_of (activities user)))) user1) /\
    purpose act = purpose_ /\
    date act = PyDate.strftime_dmy now /\
    to_village act ∈ villages user.
Proof.
  intros uid purpose_ w1 user1 y m Hu Hc Hne Hhas Hv Hparse.
  assert (Hid : user_id user = uid) by exact (find_one_id _ _ _ Hu).
  assert (H1 : find_one uid (users_collection w1) = Some user1).
  { apply (settings_answer_stores timeout msg purpose_ _ _
             (set_default_purpose (Some purpose_)) w user); auto. }
  split; [exact H1|].
  destruct (default_activity_user_records DEFAULT_ACTIVITY_TIME now user1 w1)
    as (w2 & act & E & Hu2 & Hd & _ & Hto & Hp & _).
  - cbn [user_id user1 set_default_purpose]. now rewrite Hid.
  - exact Hhas.
  - exact Hv.
  - exact Hparse.
  - exists w2, act. split; [exact E|]. split.
    + rewrite Hu2. cbn [user_id user1 set_default_purpose]. rewrite Hid.
      apply (find_one_update_one_const uid _ user1 _ H1).
      cbn [user_id set_activities user1 set_default_purpose]. exact Hid.
    + split; [now apply Hp|]. split; [exact Hd | exact Hto].
Qed.

Lemma default_purpose_set_in_settings_is_used_witness :
  exists w2 act,
    try_except
      (default_activity_user "20:00" wednesday
         (set_default_purpose (Some "Crop inspection") field_worker)) (ret tt)
      (handle_settings_default_purpose "20:00" 60
         (mk_message 7 7 " Crop inspection ") (world_of [field_worker])).2
    = (Ok tt, w2) /\
    purpose act = "Crop inspection" /\
    find_one 7 (users_collection w2)
    = Some (set_activities
              (Nested (push_nested "2024" "6" act (nested_of (activities field_worker))))
              (set_default_purpose (Some "Crop inspection") field_worker)).
Proof.
  destruct (default_purpose_set_in_settings_is_used "20:00" 60
              (mk_message 7 7 " Crop inspection ") wednesday
              (world_of [field_worker]) field_worker)
    as (_ & w2 & act & E & Hf & Hp & _).
  - reflexivity.
  - vm_compute. set_solver.
  - vm_compute. discriminate.
  - reflexivity.
  - discriminate.
  - constructor.
  - exists w2, act. split; [exact E|]. split; [exact Hp | exact Hf].
Defined.

(** X15: the fallback on a Sunday names the holiday. When Telegram
    accepts the notices, every user with villages and no record for the
    day gets a record dated today with empty destination; its purpose
    carries the description that the user declared for the day when
    there is one, and the word Sunday otherwise. *)
Theorem sunday_fallback_names_the_holiday (DEFAULT_ACTIVITY_TIME : string)
    (now : PyDate.date) (w : world) :
  is_sunday now = true ->
  Forall (fun b => b = true) (network w) ->
  exists w',
    default_activity_fallback DEFAULT_ACTIVITY_TIME now w = (Ok tt, w') /\
    forall user,
      user ∈ find_with_villages (users_collection w) ->
      has_activity user now = false ->
      exists stored' act,
        find_one (user_id user) (users_collection w') = Some stored' /\
        act ∈ month_records stored' (PyDate.str_int (PyDate.year now))
                (PyDate.str_int (PyDate.month now)) /\
        date act = PyDate.strftime_dmy now /\
        to_village act = "" /\
        (forall desc, user_holiday (public_holidays user) now = Some desc ->
                      desc <> "" ->
                      purpose act = "Public holiday (" +:+ desc +:+ ")") /\
        (user_holiday (public_holidays user) now = None ->
         purpose act = "Public holiday (Sunday)").
Proof.
  intros Hsun Hnet.
  destruct (sunday_fallback_records_every_user DEFAULT_ACTIVITY_TIME now w Hsun Hnet)
    as (w' & E & H).
  exists w'. split; [exact E|].
  intros user Hu Hhas.
  destruct (H user Hu Hhas) as (stored' & act & Hf & Hin & Hd & Hto & Hp).
  exists stored', act. split; [exact Hf|]. split; [exact Hin|].
  split; [exact Hd|]. split; [exact Hto|]. split.
  - intros desc Hdesc Hne. rewrite Hp. now apply holiday_purpose_precedence.
  - intros Hnone. rewrite Hp. now apply holiday_purpose_sunday.
Qed.

Lemma sunday_fallback_names_the_holiday_witness :
  exists w' stored' act,
    default_activity_fallback "20:00" sunday (world_of [worker_a]) = (Ok tt, w') /\
    find_one 1 (users_collection w') = Some stored' /\
    act ∈ month_records stored' "2024" "6" /\
    purpose act = "Public holiday (Sunday)".
Proof.
  destruct (sunday_fallback_names_the_holiday "20:00" sunday (world_of [worker_a]))
    as (w' & E & H).
  - reflexivity.
  - constructor.
  - destruct (H worker_a) as (stored' & act & Hf & Hin & _ & _ & _ & Hp).
    + vm_compute. left.
    + reflexivity.
    + exists w', stored', act. split; [exact E|]. split; [exact Hf|].
      split; [exact Hin|]. now apply Hp.
Defined.
(** ** Prompts: the sweep once more, and the keyboard of [/act] *)

Lemma for_each_nothing {A} (l : list A) (body : A -> M unit) (w : world) :
  (forall x, x ∈ l -> body x w = (Ok tt, w)) ->
  for_each l body w = (Ok tt, w).
Proof.
  induction l as [|x l IH]; intros H; [reflexivity|].
  rewrite for_each_cons, (H x) by left. apply IH. intros y Hy. apply H. now right.
Qed.

(** A pass of the sweep that finds nothing expired does nothing. *)
Lemma sweep_nothing_expired (now : Z) (w : world) :
  (forall item, item ∈ pending_prompts w -> expired now item.2 = false) ->
  check_timeouts now w = (Ok tt, w).
Proof.
  intros H. unfold check_timeouts. rewrite bind_get. unfold bind.
  rewrite for_each_nothing.
  - replace (List.filter (fun item => expired now item.2) (pending_prompts w))
      with (@nil (Z * prompt)); [reflexivity|].
    symmetry. induction (pending_prompts w) as [|item l IH]; [reflexivity|].
    simpl. rewrite (H item) by left. apply IH. intros x Hx. apply H. now right.
  - intros item Hin. now rewrite (H item Hin).
Qed.

(** The entries that a pass leaves are those that had not expired. *)
Lemma sweep_leaves_unexpired (now : Z) (w : world) :
  NoDup (map fst (pending_prompts w)) ->
  pending_prompts (check_timeouts now w).2
  = List.filter (fun item => negb (expired now item.2)) (pending_prompts w).
Proof.
  intros Hnd.
  destruct (sweep_loop now (pending_prompts w) w)
    as (w1 & E1 & Hu1 & Hp1 & Hd1 & Hc1 & Hi1 & Hs1 & Ho1).
  destruct (del_loop (expired_keys now (pending_prompts w)) w1)
    as (w2 & E2 & Hu2 & Hc2 & Hi2 & Hs2 & Hd2 & Ho2 & Hp2).
  { now rewrite Hp1. }
  { intros k Hk. rewrite Hp1. apply list_elem_of_fmap in Hk as ([k' p] & -> & Hf).
    apply list_elem_of_In, filter_In in Hf as [Hf _].
    exists p. apply dict_get_elem; [exact Hnd | now apply list_elem_of_In]. }
  { apply filter_keys_NoDup, Hnd. }
  assert (Erun : check_timeouts now w = (Ok tt, w2)).
  { unfold check_timeouts, bind, get. rewrite E1. exact E2. }
  rewrite Erun. cbn [snd]. rewrite Hp2, Hp1.
  apply filter_ext_in. intros item Hin. f_equal.
  apply list_elem_of_In in Hin.
  destruct (expired now item.2) eqn:E.
  - apply bool_decide_eq_true_2. now apply expired_keys_spec.
  - apply bool_decide_eq_false_2. rewrite expired_keys_spec by assumption.
    congruence.
Qed.

(** X16: a prompt is timed out once. After a pass of the sweep, a pass at
    the same instant, or at any instant at which none of the remaining
    prompts has expired, changes nothing and makes no call. *)
Theorem second_sweep_does_nothing (now now' : Z) (w : world) :
  let w1 := (check_timeouts now w).2 in
  NoDup (map fst (pending_prompts w)) ->
  (forall item, item ∈ pending_prompts w ->
                timeout_time item.2 <= now \/ now' < timeout_time item.2) ->
  check_timeouts now w1 = (Ok tt, w1) /\
  check_timeouts now' w1 = (Ok tt, w1).
Proof.
  intros w1 Hnd Hlater.
  assert (Hleft : forall item, item ∈ pending_prompts w1 ->
                               item ∈ pending_prompts w /\ expired now item.2 = false).
  { intros item Hin. unfold w1 in Hin. rewrite (sweep_leaves_unexpired now w Hnd) in Hin.
    apply list_elem_of_In, filter_In in Hin as [Hin Hexp].
    split; [now apply list_elem_of_In | now apply negb_true_iff]. }
  split; apply sweep_nothing_expired; intros item Hin;
    destruct (Hleft item Hin) as [Hin0 Hexp]; [exact Hexp|].
  unfold expired in *. apply Z.leb_gt in Hexp. apply Z.leb_gt.
  destruct (Hlater item Hin0); lia.
Qed.

Lemma second_sweep_does_nothing_witness :
  check_timeouts 1060 (check_timeouts 1060 stale_prompt_world).2
  = (Ok tt, (check_timeouts 1060 stale_prompt_world).2) /\
  check_timeouts 1999 (check_timeouts 1060 stale_prompt_world).2
  = (Ok tt, (check_timeouts 1060 stale_prompt_world).2).
Proof.
  apply (second_sweep_does_nothing 1060 1999 stale_prompt_world).
  - apply (bool_decide_unpack _). vm_compute. exact I.
  - intros item Hin. simpl in Hin.
    repeat (apply elem_of_cons in Hin as [-> | Hin]); [| |inversion Hin]; simpl; lia.
Defined.


